(* ===== verification/_CoqProject ===== *)
-Q . S2P
Prelude.v
PyString.v
TimeFormat.v
Calendar.v
Frame.v
Aggregate.v
ValueCounts.v
PyIO.v
Stats.v
StatsOutcome.v
Shell.v
Session.v
Crash.v
