(* ===== verification/Prelude.v ===== *)
(** * A verified model of the US bikeshare explorer (src/bikeshare_2.py)

    The program is one Python script, [src/bikeshare_2.py].  It asks the
    user for a city, a month and a weekday ([get_filters], lines 10-56).
    It loads the city's CSV file into a pandas frame and filters it
    ([load_data], lines 58-95).  It pages through the raw rows five at a
    time (lines 219-227).  It prints four groups of statistics
    ([time_stats], [station_stats], [trip_duration_stats] and
    [user_stats], lines 97-212), with durations broken into days, hours,
    minutes and seconds by [format_time] (lines 167-179).  [main]
    (lines 214-240) repeats all of this while the user answers "yes" to
    the restart prompt.

    ** Layout: which file models which part

    - [Prelude] (this file) holds the Python primitives the script relies
      on: [round] with ties to even, [divmod] on integers and on exact
      rationals, [list.index] (with [None] for ValueError), [list.count],
      [in] and slicing.  It also holds Python's exceptions, the [result]
      type of fallible pure code, the [PyOrd] interface (Python's [<] and
      [==] on the values pandas sorts), the hint database [pybase] and
      the shared list lemmas.
    - [PyString] holds ASCII [str.lower] and [str.title], and the string
      order, an instance of [PyOrd].
    - [TimeFormat] holds [format_time] twice.  [format_time_int] works
      on Python ints, the durations main passes.  [format_time] works on
      floats, modelled as [Q].
    - [Calendar] holds [calendar.month_name] and [calendar.day_name], the
      timestamps of the "Start Time" column, and the parser
      [pd.to_datetime] applies to them, with its printer, the calendar
      check and the [datetime64[ns]] range.  It also holds the weekday
      computation behind [Series.dt.day_name()].
    - [Frame] holds the data frame: a schema of optional columns, and
      rows that carry the derived [month] and [day_of_week] columns.  It
      also holds [CITY_DATA], [read_csv] through the [FileSystem]
      interface, the row conversion, the month and weekday masks
      ([filter_month], [filter_day], [apply_filters]) and [load_data].
    - [Aggregate] holds the pandas reductions the statistics call:
      [Series.mode()] (all most frequent non-missing values, sorted),
      [mode()[0]] ([mode0]), [value_counts()], [sum], [mean], [min] and
      [max], each skipping NaN.
    - [ValueCounts] states the order of [value_counts()] declaratively:
      by decreasing count, ties by first appearance.
    - [PyIO] holds the effects of the script as a state and exception
      monad.  The state is the input lines still to read and the output
      trace so far.  A run ends with a value, a Python exception, or
      [OutOfFuel].  [writes] and [report] describe computations that
      read no input and only append to the trace.
    - [Stats] holds the four statistics routines as [PyIO]
      computations, with every print, column-presence branch and
      exception.
    - [StatsOutcome] characterizes when the four routines end
      normally.
    - [Shell] holds the [input] loops of [get_filters], the pagination
      loop, [main_loop] (the body of [main]) and [main].
    - [Session] describes a dialogue as sessions: the answers the user
      types, the answers the loops accept, and what the script prints.
      The abstract machine [runs] chains sessions while the restart
      answer is "yes".
    - [Crash] describes how a dialogue ends in an exception other than
      EOFError.  The machine [crashes] chains normal sessions that
      restart, then a last session that raises: either [load_data] raises
      on its accepted filters, or the statistics ([all_stats], the four
      calls of lines 229-232) raise after the pages the user asked for.

    ** What the theorems show

    - [Aggregate] shows that [mode0] returns exactly the most frequent
      non-missing value, the smallest among ties ([mode0_spec]).  It
      raises KeyError exactly on a column without values.
      [value_counts] is a permutation of the counts, sorted by
      decreasing count.  [min] and [max] are the bounds of the values.
    - [ValueCounts] shows that [value_counts()] is the only list meeting
      the declarative specification, including the order of ties
      ([value_counts_unique]).
    - [Frame] shows:
      - [load_data] succeeds exactly when the city is known, its file
        exists, every start time parses and the month is valid, and it
        then returns the converted file with both masks applied;
      - an unknown month and an unparsable start time raise ValueError,
        and the conversion fails fast on the first bad row;
      - on frames whose derived columns come from the start times, the
        two masks keep, in order, exactly the rows of the answered month
        (by its name in [calendar.month_name]) and weekday
        ([apply_filters_selects]): January is month 1;
      - the rows keep the invariant that their derived columns are those
        of their start time;
      - the weekday mask selects the rows the user asked for.
    - [TimeFormat] shows that [format_time] on an int returns the unique
      breakdown with components in range that sums back to the input.
      Its round trip is the identity.  On a float that is an integer it
      agrees with the int version.  On any float it is within half a
      second of the input.  It prints 60 seconds exactly on the totals
      whose remainder modulo 60 is at least 59.5
      ([format_time_sixty_seconds]).
    - [Calendar] shows that the parser accepts exactly the printed
      valid timestamps.  It also shows that [dt.day_name()] is the
      proleptic Gregorian weekday: 1970-01-01 is a Thursday, and the next
      calendar day has the next name ([dt_day_name_weekday]).  The proof
      goes through the ends of months, leap-year Februaries, years and
      400-year eras of the day-number formula.  The day number is
      strictly increasing in the date, so the field order of timestamps
      is the order of time.  Hence the range check of [pd.to_datetime],
      written with its calendar bounds, accepts a calendar timestamp
      exactly when its nanoseconds since the epoch fit in an [int64]
      other than [NaT] ([datetime64_range_int64]).
    - [Stats] gives the exact output of each routine on frames with
      data, on frames missing a column, and on empty frames, where the
      code raises instead of reporting "no data".  On frames [load_data]
      returns, the values [time_stats] prints are a month number, a
      weekday name and an hour of the day ([time_stats_values_typed]).
      With a birth year present, [user_stats] prints the least, the
      greatest and a most common year on every schema ([user_stats_ok]).
    - [StatsOutcome] shows when the four statistics end normally
      ([stats_complete_iff]).  They do exactly when the frame has rows
      and each present column they take a mode or a mean of has a
      value; for the (start, end) combination that means one row with
      both stations.  A missing column never makes them raise.  When
      no row has both stations, the combination raises KeyError even
      though each station column has values.
    - [Shell] shows four things.  [get_filters] returns answers its lists
      accept.  Each input loop accepts as soon as an acceptable answer
      has been typed ([ask_eventually_accepts]).  On [k] "yes" answers
      and another answer, the pagination prints [k] pages and shows
      exactly the first [5k] rows ([paginate_shows_prefix]).  [main] never runs out of fuel.  The two crashes of
      [main] reachable from valid-looking input are also theorems: an
      empty month answer, and a filter that selects no trip.
    - [Session] shows that [main] is exactly the session machine
      ([main_Ret_iff_runs]).  [main] ends normally with a given output
      and unread input if and only if the input lines form a run of the
      machine that prints that output.  Soundness goes by rule induction
      on [runs].  Completeness goes by induction on the fuel, reading one
      session off each iteration of [main_loop].  It also shows that a
      rejected month answer gets the city's error message (line 39).
    - [Crash] shows that [main] raises an exception other than
      EOFError exactly as the machine [crashes] says
      ([main_Raise_iff_crashes]).  With [main_Ret_iff_runs] and
      [main_loop_fuel], this accounts for every way [main] can end: it
      ends normally, raises EOFError at the end of the input, or raises
      from [load_data] or a statistic in the last session.  Soundness
      again goes by rule induction and completeness by induction on the
      fuel.  EOFError itself comes only from an [input()] at the end of
      the input: no library call raises it, so [main] raises it only
      with every line read, and always on fewer than three lines
      ([main_EOFError_input_exhausted]).  The proof composes a predicate
      [eof_at_end] of [PyIO] through the code.

    ** Modelling choices, bounds and fuel

    - Python floats are modelled by exact rationals [Q].  Rounding error
      of IEEE doubles is not modelled; Python's rounding rules are.
    - Python ints are [Z], unbounded as in Python.
    - A missing CSV cell (pandas' NaN) is [None].
    - Column presence is a property of the whole frame, as in pandas.
    - Strings are ASCII.
    - Fuel: every loop iteration of the script reads one line of input,
      so [main] runs [main_loop] with one more fuel than there are input
      lines.  [main_loop_fuel] proves that this fuel is never exhausted.

    ** Not modelled

    - The parsing of CSV text by [pd.read_csv] is not modelled: the
      [FileSystem] interface gives the parsed file of a path.
    - The wall-clock timings are not modelled: the elapsed-time line is
      an event without a value.
    - The text layout of pandas' printing is not modelled: a page of
      rows is an event carrying the rows.
    - The "Start Hour" column that [time_stats] writes into the frame
      [main] shares with the later routines (line 112) is not stored.
      The write happens after the month and weekday modes, just before
      the hour mode is computed.  When an earlier mode raises, [main]
      crashes and the frame is never used again.  When [time_stats]
      returns, [station_stats], [trip_duration_stats] and [user_stats]
      never read the column, and the pages were printed before it was
      written.  So the output of the model is that of the program.
    - Timestamps in other formats than "YYYY-MM-DD HH:MM:SS", which
      [pd.to_datetime] would infer, are not modelled: the datasets use
      that one format. *)

From Stdlib Require Import String Ascii ZArith QArith Qround Lqa List Lia Bool Sorted Permutation.
Import ListNotations.
Local Open Scope nat_scope.

Declare Scope py_scope.
Delimit Scope py_scope with py.

Create HintDb pybase.
Create Rewrite HintDb pybase.

(** ** Python's ordering of the values pandas sorts *)

(** [PyOrd A] is what the aggregation component needs of a value type:
    a boolean equality ([==]) and Python's strict order ([<]), with the
    laws of a strict total order. *)
Class PyOrd (A : Type) := {
  py_eqb : A -> A -> bool;
  py_ltb : A -> A -> bool;
  py_eqb_spec : forall x y, py_eqb x y = true <-> x = y;
  py_ltb_irrefl : forall x, py_ltb x x = false;
  py_ltb_trans : forall x y z, py_ltb x y = true -> py_ltb y z = true -> py_ltb x z = true;
  py_ltb_total : forall x y, x <> y -> py_ltb x y = true \/ py_ltb y x = true
}.

Notation "x == y" := (py_eqb x y) (at level 70, no associativity) : py_scope.
Notation "x <? y" := (py_ltb x y) : py_scope.

Lemma Z_ltb_trans (x y z : Z) : (x <? y)%Z = true -> (y <? z)%Z = true -> (x <? z)%Z = true.
Proof. rewrite !Z.ltb_lt. lia. Qed.

Lemma Z_ltb_total (x y : Z) : x <> y -> (x <? y)%Z = true \/ (y <? x)%Z = true.
Proof. rewrite !Z.ltb_lt. lia. Qed.

#[export] Instance PyOrd_Z : PyOrd Z := {
  py_eqb := Z.eqb;
  py_ltb := Z.ltb;
  py_eqb_spec := Z.eqb_eq;
  py_ltb_irrefl := Z.ltb_irrefl;
  py_ltb_trans := Z_ltb_trans;
  py_ltb_total := Z_ltb_total
}.

Section PyOrdFacts.
Context {A : Type} `{PyOrd A}.

Lemma py_eqb_refl (x : A) : py_eqb x x = true.
Proof. apply py_eqb_spec. reflexivity. Qed.

Lemma py_eqb_neq (x y : A) : py_eqb x y = false <-> x <> y.
Proof.
  rewrite <- py_eqb_spec. destruct (py_eqb x y); split; congruence.
Qed.

Lemma py_eqb_sym (x y : A) : py_eqb x y = py_eqb y x.
Proof.
  destruct (py_eqb x y) eqn:E1, (py_eqb y x) eqn:E2; auto;
    rewrite ?py_eqb_spec, ?py_eqb_neq in *; congruence.
Qed.

Lemma py_ltb_asym (x y : A) : py_ltb x y = true -> py_ltb y x = false.
Proof.
  intros Hxy. destruct (py_ltb y x) eqn:Hyx; auto.
  pose proof (py_ltb_trans _ _ _ Hxy Hyx) as Hxx.
  rewrite py_ltb_irrefl in Hxx. discriminate.
Qed.

(** Python's [<=], derived from [<] and [==]. *)
Definition py_leb (x y : A) : bool := py_ltb x y || py_eqb x y.

Lemma py_leb_total (x y : A) : py_leb x y = true \/ py_leb y x = true.
Proof.
  unfold py_leb. destruct (py_eqb x y) eqn:E.
  - rewrite orb_true_r. auto.
  - apply py_eqb_neq in E. destruct (py_ltb_total x y E) as [-> | ->]; auto.
Qed.

Lemma py_leb_ltb_false (x y : A) : py_leb x y = true -> py_ltb y x = false.
Proof.
  unfold py_leb. intros [Hlt | Heq]%orb_true_iff.
  - now apply py_ltb_asym.
  - apply py_eqb_spec in Heq. subst. apply py_ltb_irrefl.
Qed.

Lemma py_ltb_false_leb (x y : A) : py_ltb x y = false -> py_leb y x = true.
Proof.
  intros H1. destruct (py_leb_total y x) as [Hyx | Hxy]; auto.
  unfold py_leb in *. apply orb_true_iff in Hxy as [Hxy | Hxy]; [congruence |].
  apply py_eqb_spec in Hxy. subst. rewrite py_eqb_refl, orb_true_r. reflexivity.
Qed.

Lemma py_leb_trans (x y z : A) :
  py_leb x y = true -> py_leb y z = true -> py_leb x z = true.
Proof.
  unfold py_leb. intros [H1 | H1]%orb_true_iff [H2 | H2]%orb_true_iff;
    rewrite ?py_eqb_spec in *; subst; rewrite ?H1, ?H2, ?py_eqb_refl, ?orb_true_r; auto.
  rewrite (py_ltb_trans _ _ _ H1 H2). reflexivity.
Qed.

(** Python's [x in l] and [l.count(x)] on lists of such values. *)
Definition py_in (x : A) (l : list A) : bool := existsb (py_eqb x) l.

Definition py_count (x : A) (l : list A) : nat :=
  length (filter (py_eqb x) l).

(** [l.index(x)]: the position of the first [x], [None] where Python
    raises [ValueError]. *)
Fixpoint py_index (x : A) (l : list A) : option nat :=
  match l with
  | [] => None
  | y :: l' => if py_eqb x y then Some 0 else option_map S (py_index x l')
  end.

Lemma py_in_In (x : A) (l : list A) : py_in x l = true <-> In x l.
Proof.
  unfold py_in. rewrite existsb_exists. split.
  - intros [y [Hy Heq]]. apply py_eqb_spec in Heq. subst. exact Hy.
  - intros Hx. exists x. split; auto. apply py_eqb_refl.
Qed.

Lemma py_count_cons (x y : A) (l : list A) :
  py_count x (y :: l) = (if py_eqb x y then 1 else 0) + py_count x l.
Proof. unfold py_count. simpl. destruct (py_eqb x y); reflexivity. Qed.

Lemma py_count_app (x : A) (l1 l2 : list A) :
  py_count x (l1 ++ l2) = py_count x l1 + py_count x l2.
Proof. unfold py_count. rewrite filter_app, length_app. reflexivity. Qed.

Lemma py_count_pos_In (x : A) (l : list A) : py_count x l <> 0 <-> In x l.
Proof.
  induction l as [| y l IH]; [unfold py_count; simpl; split; [lia | tauto] |].
  rewrite py_count_cons. simpl. destruct (py_eqb x y) eqn:E.
  - apply py_eqb_spec in E. subst. split; [auto | lia].
  - apply py_eqb_neq in E. rewrite <- IH. split; [lia |].
    intros [-> | Hin]; [congruence | lia].
Qed.

Lemma py_count_not_In (x : A) (l : list A) : ~ In x l -> py_count x l = 0.
Proof. rewrite <- py_count_pos_In. lia. Qed.

Lemma py_index_Some (x : A) (l : list A) (i : nat) :
  py_index x l = Some i -> nth_error l i = Some x /\ forall j, j < i -> nth_error l j <> Some x.
Proof.
  revert i. induction l as [| y l IH]; intros i; simpl; [discriminate |].
  destruct (py_eqb x y) eqn:E.
  - intros [= <-]. apply py_eqb_spec in E. subst. split; [reflexivity | lia].
  - destruct (py_index x l) as [k |] eqn:Ek; simpl; [| discriminate].
    intros [= <-]. destruct (IH k eq_refl) as [Hk Hbef]. split; [exact Hk |].
    intros [| j] Hj; simpl.
    + apply py_eqb_neq in E. congruence.
    + apply Hbef. lia.
Qed.

Lemma py_index_None (x : A) (l : list A) : py_index x l = None <-> ~ In x l.
Proof.
  induction l as [| y l IH]; simpl; [tauto |].
  destruct (py_eqb x y) eqn:E.
  - apply py_eqb_spec in E. subst. split; [discriminate | tauto].
  - apply py_eqb_neq in E. destruct (py_index x l); simpl.
    + split; [discriminate |]. intros Hn. exfalso. apply Hn. right.
      destruct (py_in x l) eqn:Hin; [now apply py_in_In |].
      assert (Hnin : ~ In x l) by (rewrite <- py_in_In; congruence).
      apply IH in Hnin. discriminate.
    + split; [| reflexivity]. intros _ [Hyx | Hin]; [congruence | now apply IH].
Qed.

Lemma py_index_lt (x : A) (l : list A) (i : nat) : py_index x l = Some i -> i < length l.
Proof.
  intros Hi. apply py_index_Some in Hi as [Hn _].
  apply nth_error_Some. rewrite Hn. discriminate.
Qed.

Lemma py_index_app_In (x : A) (l1 l2 : list A) :
  In x l1 -> py_index x (l1 ++ l2) = py_index x l1.
Proof.
  induction l1 as [| y l1 IH]; simpl; [tauto |]. intros Hx.
  destruct (py_eqb x y) eqn:E; [reflexivity |].
  apply py_eqb_neq in E. destruct Hx as [-> | Hx]; [congruence |]. rewrite IH by exact Hx. reflexivity.
Qed.

Lemma py_index_app_notIn (x : A) (l1 l2 : list A) :
  ~ In x l1 -> py_index x (l1 ++ x :: l2) = Some (length l1).
Proof.
  induction l1 as [| y l1 IH]; simpl; intros Hx.
  - rewrite py_eqb_refl. reflexivity.
  - destruct (py_eqb x y) eqn:E; [apply py_eqb_spec in E; subst; tauto |].
    rewrite IH by tauto. reflexivity.
Qed.
End PyOrdFacts.

#[export] Hint Resolve py_eqb_refl py_ltb_irrefl : pybase.
#[export] Hint Rewrite @py_count_cons @py_count_app : pybase.

(** ** Python exceptions and fallible results *)

(** The exceptions the script can raise: [KeyError] (a missing dict key,
    and [Series.__getitem__(0)] on an empty [mode()]), [ValueError]
    ([list.index] of a missing value, an unparsable date, [round] of
    NaN), [FileNotFoundError] ([pd.read_csv] of a missing file) and
    [EOFError] ([input()] at the end of the input stream). *)
Inductive py_exc : Type :=
  | KeyError
  | ValueError
  | FileNotFoundError
  | EOFError.

(** A computation that returns a value or raises. *)
Inductive result (A : Type) : Type :=
  | Ok (a : A)
  | Err (e : py_exc).
Arguments Ok {A} a.
Arguments Err {A} e.

Definition result_bind {A B : Type} (r : result A) (k : A -> result B) : result B :=
  match r with
  | Ok a => k a
  | Err e => Err e
  end.

(** [None] (a missing key or value) raises [e]. *)
Definition of_option {A : Type} (e : py_exc) (o : option A) : result A :=
  match o with
  | Some a => Ok a
  | None => Err e
  end.

Declare Scope result_scope.
Delimit Scope result_scope with result.
Notation "x <-? c ;; k" := (result_bind c (fun x => k))
  (at level 61, c at next level, right associativity) : result_scope.

(** Map a fallible function over a list, failing at the first error. *)
Fixpoint map_result {A B : Type} (f : A -> result B) (l : list A) : result (list B) :=
  match l with
  | [] => Ok []
  | x :: l' =>
      match f x with
      | Ok y => match map_result f l' with Ok ys => Ok (y :: ys) | Err e => Err e end
      | Err e => Err e
      end
  end.

Lemma map_result_Ok {A B : Type} (f : A -> result B) (l : list A) (l' : list B) :
  map_result f l = Ok l' -> Forall2 (fun x y => f x = Ok y) l l'.
Proof.
  revert l'. induction l as [| x l IH]; intros l' H; simpl in H.
  - injection H as <-. constructor.
  - destruct (f x) eqn:Hx; [| discriminate].
    destruct (map_result f l) eqn:Hl; [| discriminate].
    injection H as <-. constructor; auto.
Qed.

(** Fail fast: one failing element makes the whole map fail. *)
Lemma map_result_Err {A B : Type} (f : A -> result B) (l : list A) (x : A) (e : py_exc) :
  In x l -> f x = Err e -> exists e', map_result f l = Err e'.
Proof.
  induction l as [| y l IH]; simpl; [tauto |]. intros [-> | Hin] Hx.
  - rewrite Hx. eauto.
  - destruct (f y); [| eauto]. destruct (IH Hin Hx) as [e' ->]. eauto.
Qed.

Lemma map_result_all_Ok {A B : Type} (f : A -> result B) (l : list A) :
  (forall x, In x l -> exists y, f x = Ok y) -> exists l', map_result f l = Ok l'.
Proof.
  induction l as [| x l IH]; simpl; intros Hall; [eauto |].
  destruct (Hall x (or_introl eq_refl)) as [y ->].
  destruct IH as [l' ->]; eauto.
Qed.

(** ** Slicing: [l[a:b]] for [0 <= a <= b] *)

Definition py_slice {A : Type} (l : list A) (a b : nat) : list A :=
  firstn (b - a) (skipn a l).

Notation "l .[ a : b ]" := (py_slice l a b) (at level 1, a at level 99) : py_scope.

Lemma py_slice_app_firstn {A : Type} (l : list A) (a k : nat) :
  firstn a l ++ py_slice l a (a + k) = firstn (a + k) l.
Proof.
  unfold py_slice. replace (a + k - a) with k by lia.
  revert l. induction a as [| a IH]; intros [| x l]; simpl; auto.
  - now rewrite firstn_nil.
  - f_equal. apply IH.
Qed.

Lemma py_slice_length {A : Type} (l : list A) (a k : nat) :
  length (py_slice l a (a + k)) = Nat.min k (length l - a).
Proof.
  unfold py_slice. rewrite length_firstn, length_skipn. f_equal. lia.
Qed.

(** ** Python's [round] on floats: to nearest, ties to even *)

Section PyNumbers.
Local Open Scope Q_scope.

(** A float is modelled by its exact rational value. *)
Definition py_round (q : Q) : Z :=
let f := Qfloor q in
match Qcompare (q - inject_Z f) (1 # 2) with
| Lt => f
| Gt => f + 1
| Eq => if Z.even f then f else f + 1
end.

(** [divmod(a, b)] on floats ([b > 0]): the floor of the quotient and
  the remainder [a - q * b]. *)
Definition py_divmod_q (a b : Q) : Z * Q :=
let q := Qfloor (a / b) in (q, a - inject_Z q * b).

(** [divmod(a, b)] on integers: Python's [//] and [%] round towards
  minus infinity, as [Z.div] and [Z.modulo] do. *)
Definition py_divmod (a b : Z) : Z * Z := (a / b, a mod b)%Z.

Lemma Qfloor_bounds (q : Q) : inject_Z (Qfloor q) <= q < inject_Z (Qfloor q) + 1.
Proof.
split; [apply Qfloor_le |].
pose proof (Qlt_floor q) as H. rewrite inject_Z_plus in H. exact H.
Qed.

Lemma py_round_spec (q : Q) :
q - (1 # 2) <= inject_Z (py_round q) <= q + (1 # 2).
Proof.
unfold py_round. destruct (Qfloor_bounds q) as [Hlo Hhi].
set (f := Qfloor q) in *.
destruct (Qcompare_spec (q - inject_Z f) (1 # 2)) as [Heq | Hlt | Hgt].
- destruct (Z.even f); rewrite ?inject_Z_plus; change (inject_Z 1) with 1; lra.
- lra.
- rewrite inject_Z_plus. change (inject_Z 1) with 1. lra.
Qed.

Lemma py_round_Z (z : Z) : py_round (inject_Z z) = z.
Proof.
unfold py_round. cbv zeta. rewrite Qfloor_Z.
destruct (Qcompare_spec (inject_Z z - inject_Z z) (1 # 2)); auto; exfalso; lra.
Qed.

Lemma py_round_comp (q1 q2 : Q) : q1 == q2 -> py_round q1 = py_round q2.
Proof.
intros Heq. unfold py_round. rewrite (Qfloor_comp _ _ Heq).
replace (q1 - inject_Z (Qfloor q2) ?= 1 # 2) with (q2 - inject_Z (Qfloor q2) ?= 1 # 2);
  [reflexivity |].
apply Qcompare_comp; [rewrite Heq |]; reflexivity.
Qed.

Lemma py_round_nonneg (q : Q) : 0 <= q -> (0 <= py_round q)%Z.
Proof.
intros Hq. pose proof (py_round_spec q) as [Hlo _].
destruct (Z_lt_le_dec (py_round q) 0) as [Hneg |]; auto.
assert (Hle : inject_Z (py_round q) <= inject_Z (-1)) by (rewrite <- Zle_Qle; lia).
change (inject_Z (-1)) with (-1 # 1) in Hle. lra.
Qed.

(** Rounding never leaves an integer upper bound. *)
Lemma py_round_le (q : Q) (n : Z) : q <= inject_Z n -> (py_round q <= n)%Z.
Proof.
intros Hq. pose proof (py_round_spec q) as [_ Hhi].
destruct (Z_le_gt_dec (py_round q) n) as [| Hgt]; auto.
assert (inject_Z (n + 1) <= inject_Z (py_round q)) by (rewrite <- Zle_Qle; lia).
rewrite inject_Z_plus in H. change (inject_Z 1) with 1 in H. lra.
Qed.

Lemma py_divmod_q_spec (a b : Q) :
0 < b ->
let '(q, r) := py_divmod_q a b in a == inject_Z q * b + r /\ 0 <= r < b.
Proof.
intros Hb. unfold py_divmod_q.
destruct (Qfloor_bounds (a / b)) as [Hlo Hhi].
set (x := a / b) in *. set (f := inject_Z (Qfloor x)) in *.
assert (Ha : a == b * x) by (symmetry; apply Qmult_div_r; lra).
split; [lra |]. rewrite Ha. split; nra.
Qed.

Lemma py_divmod_q_comp (a1 a2 b : Q) :
a1 == a2 ->
fst (py_divmod_q a1 b) = fst (py_divmod_q a2 b) /\ snd (py_divmod_q a1 b) == snd (py_divmod_q a2 b).
Proof.
intros Heq. unfold py_divmod_q. cbn [fst snd].
assert (Hf : Qfloor (a1 / b) = Qfloor (a2 / b)) by (apply Qfloor_comp; rewrite Heq; reflexivity).
rewrite Hf. split; [reflexivity | rewrite Heq; reflexivity].
Qed.

(** On integral floats, float [divmod] is integer [divmod]. *)
Lemma py_divmod_q_Z (a b : Z) :
(0 < b)%Z ->
fst (py_divmod_q (inject_Z a) (inject_Z b)) = fst (py_divmod a b) /\
snd (py_divmod_q (inject_Z a) (inject_Z b)) == inject_Z (snd (py_divmod a b)).
Proof.
intros Hb. unfold py_divmod_q, py_divmod. cbn [fst snd]. rewrite <- Zdiv_Qdiv. split; [reflexivity |].
rewrite (Z.mod_eq a b) by lia.
unfold Z.sub. rewrite inject_Z_plus, inject_Z_opp, inject_Z_mult. ring.
Qed.

(** The quotient of a [divmod] by [b] of a value in [[0, m * b)] is in
  [[0, m)]. *)
Lemma py_divmod_q_quot_range (a b : Q) (m : Z) :
0 < b -> 0 <= a < inject_Z m * b ->
(0 <= fst (py_divmod_q a b) < m)%Z.
Proof.
intros Hb Ha. pose proof (py_divmod_q_spec a b Hb) as Hs.
destruct (py_divmod_q a b) as [q r]. cbn [fst]. destruct Hs as [Heq [Hr0 Hrb]].
assert (Hlt : inject_Z q < inject_Z m) by nra.
assert (Hgt : inject_Z (-1) < inject_Z q) by (change (inject_Z (-1)) with (-1 # 1); nra).
rewrite <- Zlt_Qlt in Hlt, Hgt. lia.
Qed.

Lemma py_divmod_spec (a b : Z) :
(0 < b)%Z ->
let '(q, r) := py_divmod a b in a = (q * b + r)%Z /\ (0 <= r < b)%Z.
Proof.
intros Hb. unfold py_divmod. split.
- rewrite Z.mul_comm. apply Z.div_mod. lia.
- apply Z.mod_pos_bound. exact Hb.
Qed.

(** The floor of a rational is the integer below it by less than one. *)
Lemma Qfloor_unique (q : Q) (k : Z) : inject_Z k <= q < inject_Z k + 1 -> Qfloor q = k.
Proof.
intros [Hlo Hhi]. destruct (Qfloor_bounds q) as [Flo Fhi].
assert (H1 : inject_Z (Qfloor q) < inject_Z (k + 1)) by (rewrite inject_Z_plus; change (inject_Z 1) with 1; lra).
assert (H2 : inject_Z k < inject_Z (Qfloor q + 1)) by (rewrite inject_Z_plus; change (inject_Z 1) with 1; lra).
rewrite <- Zlt_Qlt in H1, H2. lia.
Qed.

End PyNumbers.

(** ** Monotone integer sequences *)

(** A function on an interval of integers that grows at each step is
    strictly increasing on it. *)
Lemma Z_lt_mono_step (f : Z -> Z) (lo hi : Z) :
  (forall x, (lo <= x)%Z -> (x < hi)%Z -> (f x < f (x + 1))%Z) ->
  forall a b, (lo <= a)%Z -> (a < b)%Z -> (b <= hi)%Z -> (f a < f b)%Z.
Proof.
  intros Hstep a b Ha Hab Hb.
  assert (Hk : forall k : nat, (a + Z.of_nat k + 1 <= hi)%Z -> (f a < f (a + Z.of_nat k + 1))%Z).
  { induction k as [| k IH]; intros Hk.
    - rewrite Z.add_0_r. apply Hstep; lia.
    - specialize (IH ltac:(lia)). specialize (Hstep (a + Z.of_nat k + 1)%Z ltac:(lia) ltac:(lia)).
      replace (a + Z.of_nat (S k) + 1)%Z with (a + Z.of_nat k + 1 + 1)%Z by lia. lia. }
  replace b with (a + Z.of_nat (Z.to_nat (b - a - 1)) + 1)%Z by lia. apply Hk. lia.
Qed.

(** ** Shared list lemmas *)

Section ListFacts.
Context {A : Type}.

Lemma filter_filter (f g : A -> bool) (l : list A) :
  filter f (filter g l) = filter (fun x => g x && f x) l.
Proof.
  induction l as [| x l IH]; simpl; auto.
  destruct (g x); simpl; rewrite ?IH; auto.
Qed.

Lemma filter_ext_in (f g : A -> bool) (l : list A) :
  (forall x, In x l -> f x = g x) -> filter f l = filter g l.
Proof.
  induction l as [| x l IH]; simpl; intros Hfg; auto.
  rewrite (Hfg x (or_introl eq_refl)), IH by auto. reflexivity.
Qed.

Lemma filter_all_true (f : A -> bool) (l : list A) :
  (forall x, In x l -> f x = true) -> filter f l = l.
Proof.
  induction l as [| x l IH]; simpl; intros Hf; auto.
  rewrite (Hf x (or_introl eq_refl)), IH by auto. reflexivity.
Qed.

(** Two lists sorted by an asymmetric relation that are permutations
    of each other are equal: such an order determines the list. *)
Lemma StronglySorted_perm_eq (R : A -> A -> Prop) (l1 l2 : list A) :
  (forall a b, R a b -> R b a -> False) ->
  StronglySorted R l1 -> StronglySorted R l2 -> Permutation l1 l2 -> l1 = l2.
Proof.
  intros Hasym. revert l2. induction l1 as [| a l1 IH]; intros l2 H1 H2 Hp.
  - symmetry. apply Permutation_nil. exact Hp.
  - destruct l2 as [| b l2]; [apply Permutation_sym, Permutation_nil in Hp; discriminate |].
    apply StronglySorted_inv in H1 as [S1 F1]. apply StronglySorted_inv in H2 as [S2 F2].
    assert (Hab : a = b).
    { destruct (Permutation_in a Hp (or_introl eq_refl)) as [-> | Ha]; [reflexivity |].
      destruct (Permutation_in b (Permutation_sym Hp) (or_introl eq_refl)) as [-> | Hb];
        [reflexivity |].
      rewrite Forall_forall in F1, F2. exfalso. exact (Hasym a b (F1 b Hb) (F2 a Ha)). }
    subst b. f_equal. apply IH; auto. exact (Permutation_cons_inv Hp).
Qed.

(** Appending an element that is above every element keeps the list sorted. *)
Lemma StronglySorted_app_last (R : A -> A -> Prop) (l : list A) (x : A) :
  StronglySorted R l -> Forall (fun a => R a x) l -> StronglySorted R (l ++ [x]).
Proof.
  induction l as [| a l IH]; simpl; intros Hs Hf.
  - repeat constructor.
  - apply StronglySorted_inv in Hs as [Hs Ha]. inversion Hf as [| ? ? Hax Hf']; subst.
    constructor; [auto |]. apply Forall_app. split; [exact Ha | constructor; auto].
Qed.

Lemma StronglySorted_map_inv {B : Type} (R : B -> B -> Prop) (f : A -> B) (l : list A) :
  StronglySorted R (map f l) -> StronglySorted (fun a b => R (f a) (f b)) l.
Proof.
  induction l as [| a l IH]; simpl; intros Hs; [constructor |].
  apply StronglySorted_inv in Hs as [Hs Ha]. constructor; [auto |].
  rewrite Forall_forall in *. intros b Hb. apply Ha, in_map, Hb.
Qed.
End ListFacts.

#[export] Hint Rewrite @filter_filter : pybase.

(** Case analysis on the boolean tests of Python conditions. *)
Ltac py_cases :=
  repeat match goal with
  | |- context [if ?b then _ else _] =>
      lazymatch b with
      | context [if _ then _ else _] => fail
      | _ => destruct b eqn:?
      end
  end.
