(* ===== verification/PyString.v ===== *)
(** * PyString: the Python string methods the script calls

    [str.lower] (the user's answers, lines 22, 35, 48, 222, 236, and the
    month and day names, lines 32, 45, 83), [str.title] (the weekday
    filter, line 93) on ASCII strings, and Python's order on strings
    (code point by code point), which pandas uses to sort the modes of
    a text column.  The string order is an instance of the [PyOrd]
    interface of the prelude. *)

From Stdlib Require Import String Ascii Arith NArith List Lia Bool.
From S2P Require Import Prelude.
Import ListNotations.
Local Open Scope nat_scope.

Module PyString.

(** ** Case mapping on ASCII *)

Definition is_upper (c : ascii) : bool :=
  (65 <=? nat_of_ascii c) && (nat_of_ascii c <=? 90).

Definition is_lower (c : ascii) : bool :=
  (97 <=? nat_of_ascii c) && (nat_of_ascii c <=? 122).

(** A cased character: a letter. *)
Definition is_cased (c : ascii) : bool := is_upper c || is_lower c.

Definition char_lower (c : ascii) : ascii :=
  if is_upper c then ascii_of_nat (nat_of_ascii c + 32) else c.

Definition char_upper (c : ascii) : ascii :=
  if is_lower c then ascii_of_nat (nat_of_ascii c - 32) else c.

(** [s.lower()]. *)
Fixpoint py_lower (s : string) : string :=
  match s with
  | EmptyString => EmptyString
  | String c s' => String (char_lower c) (py_lower s')
  end.

(** [s.title()]: a letter that follows a cased character is lowered,
    any other letter is raised (CPython's [do_title] with its
    [previous_is_cased] flag). *)
Fixpoint title_from (previous_is_cased : bool) (s : string) : string :=
  match s with
  | EmptyString => EmptyString
  | String c s' =>
      let c' := if previous_is_cased then char_lower c else char_upper c in
      String c' (title_from (is_cased c) s')
  end.

Definition py_title (s : string) : string := title_from false s.

(** ** Python's order on strings *)

Definition str_ltb (s1 s2 : string) : bool := String.ltb s1 s2.

(** ** Lemmas *)

Lemma char_lower_idem (c : ascii) : char_lower (char_lower c) = char_lower c.
Proof.
  unfold char_lower, is_upper. destruct c as [[] [] [] [] [] [] [] []]; reflexivity.
Qed.

Lemma char_lower_not_upper (c : ascii) : is_upper (char_lower c) = false.
Proof. destruct c as [[] [] [] [] [] [] [] []]; reflexivity. Qed.

Lemma char_lower_cased (c : ascii) : is_cased (char_lower c) = is_cased c.
Proof. destruct c as [[] [] [] [] [] [] [] []]; reflexivity. Qed.

Lemma char_lower_upper (c : ascii) : char_lower (char_upper c) = char_lower c.
Proof. destruct c as [[] [] [] [] [] [] [] []]; reflexivity. Qed.

Lemma py_lower_idem (s : string) : py_lower (py_lower s) = py_lower s.
Proof. induction s as [| c s IH]; simpl; rewrite ?char_lower_idem, ?IH; reflexivity. Qed.

Lemma py_lower_length (s : string) : String.length (py_lower s) = String.length s.
Proof. induction s as [| c s IH]; simpl; auto. Qed.

(** Lowering a title-cased string is lowering the string. *)
Lemma py_lower_title_from (b : bool) (s : string) : py_lower (title_from b s) = py_lower s.
Proof.
  revert b. induction s as [| c s IH]; intros b; simpl; auto.
  rewrite IH. destruct b; rewrite ?char_lower_idem, ?char_lower_upper; reflexivity.
Qed.

(** A string whose characters are all lowered is its own [lower()]. *)
Lemma py_lower_fixed (s : string) :
  (forall c, In c (list_ascii_of_string s) -> is_upper c = false) -> py_lower s = s.
Proof.
  induction s as [| c s IH]; intros Hs; simpl; auto.
  rewrite IH by (intros d Hd; apply Hs; simpl; auto).
  unfold char_lower. rewrite (Hs c (or_introl eq_refl)). reflexivity.
Qed.

Lemma ascii_compare_refl (c : ascii) : Ascii.compare c c = Eq.
Proof. unfold Ascii.compare. apply N.compare_refl. Qed.

Lemma string_compare_refl (s : string) : String.compare s s = Eq.
Proof. induction s as [| c s IH]; simpl; rewrite ?ascii_compare_refl; auto. Qed.

Lemma string_compare_lt_trans (s1 s2 s3 : string) :
  String.compare s1 s2 = Lt -> String.compare s2 s3 = Lt -> String.compare s1 s3 = Lt.
Proof.
  revert s2 s3. induction s1 as [| c1 s1 IH]; intros [| c2 s2] [| c3 s3]; simpl;
    try discriminate; auto.
  unfold Ascii.compare.
  destruct (N.compare_spec (N_of_ascii c1) (N_of_ascii c2)) as [E12 | E12 | E12];
  destruct (N.compare_spec (N_of_ascii c2) (N_of_ascii c3)) as [E23 | E23 | E23];
  destruct (N.compare_spec (N_of_ascii c1) (N_of_ascii c3)) as [E13 | E13 | E13];
  intros H1 H2; try discriminate; try lia; eauto.
Qed.

Lemma str_ltb_irrefl (s : string) : str_ltb s s = false.
Proof. unfold str_ltb, String.ltb. rewrite string_compare_refl. reflexivity. Qed.

Lemma str_ltb_trans (s1 s2 s3 : string) :
  str_ltb s1 s2 = true -> str_ltb s2 s3 = true -> str_ltb s1 s3 = true.
Proof.
  unfold str_ltb, String.ltb.
  destruct (String.compare s1 s2) eqn:E12; try discriminate.
  destruct (String.compare s2 s3) eqn:E23; try discriminate.
  rewrite (string_compare_lt_trans _ _ _ E12 E23). reflexivity.
Qed.

Lemma str_ltb_total (s1 s2 : string) : s1 <> s2 -> str_ltb s1 s2 = true \/ str_ltb s2 s1 = true.
Proof.
  intros Hne. unfold str_ltb, String.ltb. rewrite (String.compare_antisym s2 s1).
  destruct (String.compare s1 s2) eqn:E; simpl; auto.
  apply String.compare_eq_iff in E. contradiction.
Qed.

#[export] Instance PyOrd_string : PyOrd string := {
  py_eqb := String.eqb;
  py_ltb := str_ltb;
  py_eqb_spec := String.eqb_eq;
  py_ltb_irrefl := str_ltb_irrefl;
  py_ltb_trans := str_ltb_trans;
  py_ltb_total := str_ltb_total
}.

End PyString.
