(* ===== verification/TimeFormat.v ===== *)
(** * TimeFormat: [format_time] (src/bikeshare_2.py, lines 167-179)

    [format_time] breaks a number of seconds into days, hours, minutes
    and seconds by three successive [divmod]s and rounds the seconds.
    [trip_duration_stats] calls it on the column sum (an integer for the
    integer "Trip Duration" columns, a float for the fractional ones)
    and on the rounded mean (always an integer).

    [format_time_int] is the function on Python integers, [format_time]
    the function on floats (exact rationals).  The theorems: integer
    totals are reconstructed exactly and every component is in range;
    the breakdown is the unique one with components in range; both
    functions agree on integral floats; a fractional total is
    reconstructed to within half a second, but its seconds can be 60. *)

From Stdlib Require Import ZArith QArith Qround Lqa Lia.
From S2P Require Import Prelude.
Local Open Scope Z_scope.

Module TimeFormat.

(** The tuple [(days, hours, minutes, seconds)] returned at line 179. *)
Record breakdown := mk_breakdown {
  days : Z;
  hours : Z;
  minutes : Z;
  seconds : Z
}.

(** [format_time(total_seconds)] on a Python [int]: [round] of an
    integer is the integer itself. *)
Definition format_time_int (total_seconds : Z) : breakdown :=
  let '(days, remaining_time) := py_divmod total_seconds 86400 in
  let '(hours, remaining_time) := py_divmod remaining_time 3600 in
  let '(minutes, seconds) := py_divmod remaining_time 60 in
  mk_breakdown days hours minutes seconds.

(** [format_time(total_seconds)] on a Python [float]. *)
Definition format_time (total_seconds : Q) : breakdown :=
  let '(days, remaining_time) := py_divmod_q total_seconds 86400%Q in
  let '(hours, remaining_time) := py_divmod_q remaining_time 3600%Q in
  let '(minutes, seconds) := py_divmod_q remaining_time 60%Q in
  mk_breakdown days hours minutes (py_round seconds).

(** The number of seconds a breakdown stands for. *)
Definition to_seconds (b : breakdown) : Z :=
  days b * 86400 + hours b * 3600 + minutes b * 60 + seconds b.

(** The range the display relies on: hours, minutes and seconds are
    each below their unit; days are unbounded. *)
Definition in_range (b : breakdown) : Prop :=
  0 <= hours b < 24 /\ 0 <= minutes b < 60 /\ 0 <= seconds b < 60.

Definition in_rangeb (b : breakdown) : bool :=
  (0 <=? hours b) && (hours b <? 24) && (0 <=? minutes b) && (minutes b <? 60)
  && (0 <=? seconds b) && (seconds b <? 60).

(** ** Lemmas on the three integer divisions *)

Lemma format_time_int_eq (n : Z) :
  format_time_int n =
  mk_breakdown (n / 86400) (n mod 86400 / 3600) (n mod 86400 mod 3600 / 60)
    (n mod 86400 mod 3600 mod 60).
Proof. reflexivity. Qed.

Lemma in_rangeb_spec (b : breakdown) : in_rangeb b = true <-> in_range b.
Proof.
  unfold in_rangeb, in_range.
  rewrite !andb_true_iff, !Z.leb_le, !Z.ltb_lt. tauto.
Qed.

Lemma to_seconds_format_time_int (n : Z) : to_seconds (format_time_int n) = n.
Proof.
  rewrite format_time_int_eq. unfold to_seconds. cbn [days hours minutes seconds].
  pose proof (Z.div_mod n 86400 ltac:(lia)).
  pose proof (Z.div_mod (n mod 86400) 3600 ltac:(lia)).
  pose proof (Z.div_mod (n mod 86400 mod 3600) 60 ltac:(lia)).
  lia.
Qed.

Lemma format_time_int_in_range (n : Z) : in_range (format_time_int n).
Proof.
  rewrite format_time_int_eq. unfold in_range. cbn [hours minutes seconds].
  pose proof (Z.mod_pos_bound n 86400 ltac:(lia)).
  pose proof (Z.mod_pos_bound (n mod 86400) 3600 ltac:(lia)).
  pose proof (Z.mod_pos_bound (n mod 86400 mod 3600) 60 ltac:(lia)).
  repeat split; try apply Z.div_pos; try lia; apply Z.div_lt_upper_bound; lia.
Qed.

(** The breakdown of a number of seconds with components in range is
    unique. *)
Lemma in_range_to_seconds_inj (b1 b2 : breakdown) :
  in_range b1 -> in_range b2 -> to_seconds b1 = to_seconds b2 -> b1 = b2.
Proof.
  destruct b1 as [d1 h1 m1 s1], b2 as [d2 h2 m2 s2].
  unfold in_range, to_seconds. cbn. intros R1 R2 E.
  assert (d1 = d2) by lia. assert (h1 = h2) by lia. assert (m1 = m2) by lia.
  assert (s1 = s2) by lia. subst. reflexivity.
Qed.

(** ** Lemmas on the float version *)

Section FloatFormat.
Local Open Scope Q_scope.

(** The three remainders of [format_time t] before the rounding. *)
Definition format_time_exact (t : Q) : Z * Z * Z * Q :=
  let '(d, r1) := py_divmod_q t 86400%Q in
  let '(h, r2) := py_divmod_q r1 3600%Q in
  let '(m, s) := py_divmod_q r2 60%Q in (d, h, m, s).

Lemma format_time_exact_spec (t : Q) :
  let '(d, h, m, s) := format_time_exact t in
  format_time t = mk_breakdown d h m (py_round s) /\
  t == inject_Z d * 86400 + inject_Z h * 3600 + inject_Z m * 60 + s /\
  (0 <= h < 24)%Z /\ (0 <= m < 60)%Z /\ 0 <= s < 60.
Proof.
  unfold format_time_exact, format_time.
  pose proof (py_divmod_q_spec t 86400 ltac:(lra)) as H1.
  pose proof (py_divmod_q_quot_range (snd (py_divmod_q t 86400)) 3600 24 ltac:(lra)) as Hh.
  destruct (py_divmod_q t 86400) as [d r1]. destruct H1 as [E1 B1]. cbn [snd] in Hh.
  pose proof (py_divmod_q_spec r1 3600 ltac:(lra)) as H2.
  pose proof (py_divmod_q_quot_range (snd (py_divmod_q r1 3600)) 60 60 ltac:(lra)) as Hm.
  destruct (py_divmod_q r1 3600) as [h r2]. destruct H2 as [E2 B2]. cbn [fst snd] in Hh, Hm.
  pose proof (py_divmod_q_spec r2 60 ltac:(lra)) as H3.
  destruct (py_divmod_q r2 60) as [m s]. destruct H3 as [E3 B3].
  specialize (Hh ltac:(change (inject_Z 24) with (24 # 1); lra)).
  specialize (Hm ltac:(change (inject_Z 60) with (60 # 1); lra)).
  split; [reflexivity |]. split; [lra |]. auto.
Qed.

(** One [divmod] step of [format_time] on a remainder equal to an
    integer is the integer step. *)
Lemma divmod_q_step (r : Q) (a b : Z) :
  (0 < b)%Z -> r == inject_Z a ->
  fst (py_divmod_q r (inject_Z b)) = (a / b)%Z /\
  snd (py_divmod_q r (inject_Z b)) == inject_Z (a mod b).
Proof.
  intros Hb Hr. destruct (py_divmod_q_comp r (inject_Z a) (inject_Z b) Hr) as [F S].
  destruct (py_divmod_q_Z a b Hb) as [F' S']. rewrite F, F', S. split; [reflexivity | exact S'].
Qed.

End FloatFormat.

(** ** Properties of [format_time] *)

(** C4: for every non-negative integer number of seconds, [format_time]
    returns non-negative days and hours, minutes and seconds within their
    units, and [days*86400 + hours*3600 + minutes*60 + seconds] is the
    input. *)
Theorem format_time_int_correct (total_seconds : Z) :
  0 <= total_seconds ->
  let b := format_time_int total_seconds in
  to_seconds b = total_seconds /\ 0 <= days b /\ in_range b.
Proof.
  intros Hn b. split; [apply to_seconds_format_time_int |]. split.
  - subst b. rewrite format_time_int_eq. cbn. apply Z.div_pos; lia.
  - apply format_time_int_in_range.
Qed.

Lemma format_time_int_correct_witness :
  0 <= 90061 /\ format_time_int 90061 = mk_breakdown 1 1 1 1 /\
  (let b := format_time_int 90061 in to_seconds b = 90061 /\ 0 <= days b /\ in_range b).
Proof.
  split; [lia |]. split; [reflexivity |].
  apply (format_time_int_correct 90061). lia.
Defined.

(** C26: decoding then encoding is the identity: a breakdown whose hours,
    minutes and seconds are in range is what [format_time] returns for
    the number of seconds it stands for. *)
Theorem format_time_int_to_seconds (b : breakdown) :
  in_range b -> format_time_int (to_seconds b) = b.
Proof.
  intros Hb. apply in_range_to_seconds_inj; auto.
  - apply format_time_int_in_range.
  - apply to_seconds_format_time_int.
Qed.

Lemma format_time_int_to_seconds_witness :
  in_range (mk_breakdown 2 23 59 59) /\
  format_time_int (to_seconds (mk_breakdown 2 23 59 59)) = mk_breakdown 2 23 59 59.
Proof.
  assert (H : in_range (mk_breakdown 2 23 59 59)) by (apply in_rangeb_spec; reflexivity).
  split; [exact H | apply (format_time_int_to_seconds (mk_breakdown 2 23 59 59) H)].
Defined.

(** C25: on a float with an integral value, [format_time] returns what it
    returns on the integer: the float path and the int path of
    [trip_duration_stats] agree. *)
Theorem format_time_inject_Z (n : Z) : format_time (inject_Z n) = format_time_int n.
Proof.
  unfold format_time.
  destruct (divmod_q_step (inject_Z n) n 86400 ltac:(lia) (Qeq_refl _)) as [F1 S1].
  change 86400%Q with (inject_Z 86400).
  destruct (py_divmod_q (inject_Z n) (inject_Z 86400)) as [d r1]. cbn [fst snd] in F1, S1.
  destruct (divmod_q_step r1 (n mod 86400) 3600 ltac:(lia) S1) as [F2 S2].
  change 3600%Q with (inject_Z 3600).
  destruct (py_divmod_q r1 (inject_Z 3600)) as [h r2]. cbn [fst snd] in F2, S2.
  destruct (divmod_q_step r2 (n mod 86400 mod 3600) 60 ltac:(lia) S2) as [F3 S3].
  change 60%Q with (inject_Z 60).
  destruct (py_divmod_q r2 (inject_Z 60)) as [m s]. cbn [fst snd] in F3, S3.
  rewrite (py_round_comp _ _ S3), py_round_Z, format_time_int_eq. subst. reflexivity.
Qed.

(** C27: on any non-negative float, [format_time] returns hours and
    minutes within their units and seconds in [[0, 60]], and the
    breakdown differs from the input by at most half a second. *)
Theorem format_time_approx (t : Q) :
  (0 <= t)%Q ->
  let b := format_time t in
  (inject_Z (to_seconds b) - (1 # 2) <= t <= inject_Z (to_seconds b) + (1 # 2))%Q /\
  0 <= hours b < 24 /\ 0 <= minutes b < 60 /\ 0 <= seconds b <= 60.
Proof.
  intros Ht. pose proof (format_time_exact_spec t) as Hs.
  destruct (format_time_exact t) as [[[d h] m] s]. destruct Hs as (-> & Heq & Hh & Hm & Hs0 & Hs60).
  pose proof (py_round_spec s) as Hr. cbv zeta. unfold to_seconds. cbn [days hours minutes seconds].
  rewrite !inject_Z_plus, !inject_Z_mult. change (inject_Z 86400) with 86400%Q.
  change (inject_Z 3600) with 3600%Q. change (inject_Z 60) with 60%Q.
  split; [lra |]. split; [lia |]. split; [lia |]. split.
  - apply py_round_nonneg. exact Hs0.
  - apply py_round_le. change (inject_Z 60) with 60%Q. lra.
Qed.

Lemma format_time_approx_witness :
  (0 <= 1782 # 4)%Q /\ format_time (1782 # 4) = mk_breakdown 0 0 7 26 /\
  (let b := format_time (1782 # 4) in
   (inject_Z (to_seconds b) - (1 # 2) <= 1782 # 4 <= inject_Z (to_seconds b) + (1 # 2))%Q /\
   0 <= hours b < 24 /\ 0 <= minutes b < 60 /\ 0 <= seconds b <= 60).
Proof.
  split; [discriminate |]. split; [reflexivity |].
  apply (format_time_approx (1782 # 4)). discriminate.
Defined.

(** Push [inject_Z] through sums and products of integer constants. *)
Ltac push_inject_Z :=
  repeat rewrite ?inject_Z_plus, ?inject_Z_mult in *;
  try change (inject_Z 60) with 60%Q in *; try change (inject_Z 1440) with 1440%Q in *;
  try change (inject_Z 1) with 1%Q in *.

(** [round] sends the half-open interval [[59.5, 60)] to 60: ties go
    to the even neighbour, and 59 is odd. *)
Lemma py_round_sixty (s : Q) : (119 # 2 <= s < 60)%Q -> py_round s = 60.
Proof.
  intros Hs. unfold py_round. rewrite (Qfloor_unique s 59) by (change (inject_Z 59) with (59 # 1); lra).
  change (inject_Z 59) with (59 # 1).
  destruct (Qcompare_spec (s - (59 # 1)) (1 # 2)); [reflexivity | lra | reflexivity].
Qed.

(** C28: [format_time] shows 60 seconds exactly on the totals whose
    remainder modulo 60 is at least 59.5: [round] of that remainder is
    60, and the breakdown is then out of range.  Such totals occur once
    every minute, so a fractional sum of trip durations is shown as
    "1 minute 60 seconds" rather than "2 minutes 0 seconds". *)
Theorem format_time_sixty_seconds (t : Q) :
  seconds (format_time t) = 60 <->
  exists k : Z, (inject_Z (60 * k) + (119 # 2) <= t < inject_Z (60 * k) + 60)%Q.
Proof.
  pose proof (format_time_exact_spec t) as Hs.
  destruct (format_time_exact t) as [[[d h] m] s]. destruct Hs as (-> & Heq & Hh & Hm & Hs0 & Hs60).
  cbn [seconds]. split.
  - intros H60. exists (1440 * d + 60 * h + m). pose proof (py_round_spec s) as [_ Hr].
    rewrite H60 in Hr. push_inject_Z. lra.
  - intros [k Hk]. apply py_round_sixty.
    assert (Hlo : (inject_Z (60 * k) < inject_Z (60 * (1440 * d + 60 * h + m) + 1))%Q) by (push_inject_Z; lra).
    assert (Hhi : (inject_Z (60 * (1440 * d + 60 * h + m)) < inject_Z (60 * k + 60))%Q) by (push_inject_Z; lra).
    rewrite <- Zlt_Qlt in Hlo, Hhi. assert (Ek : k = 1440 * d + 60 * h + m) by lia. subst k.
    revert Hk. push_inject_Z. lra.
Qed.

(** 119.5 seconds is shown as 1 minute and 60 seconds. *)
Lemma format_time_sixty_seconds_witness :
  format_time (239 # 2) = mk_breakdown 0 0 1 60 /\ ~ in_range (format_time (239 # 2)) /\
  (seconds (format_time (239 # 2)) = 60 <->
   exists k : Z, (inject_Z (60 * k) + (119 # 2) <= 239 # 2 < inject_Z (60 * k) + 60)%Q).
Proof.
  split; [reflexivity |]. split; [rewrite <- in_rangeb_spec; discriminate |].
  exact (format_time_sixty_seconds (239 # 2)).
Defined.

End TimeFormat.
