(* ===== verification/Calendar.v ===== *)
(** * Calendar: month and day names, start timestamps and weekdays

    The script takes the names of months and weekdays from Python's
    [calendar] module ([c.month_name], [c.day_name], lines 30, 43, 83),
    converts the "Start Time" column with [pd.to_datetime] (line 73) and
    derives [dt.month], [dt.day_name()] (lines 76-77) and [dt.hour]
    (line 112).  This file models those library values and functions on
    the format of the datasets' "Start Time" column,
    ["YYYY-MM-DD HH:MM:SS"]: the timestamp record, its validity, the
    parser with its error case and the printer, and the proleptic
    Gregorian weekday.  The range check of [pd.to_datetime] is shown to
    be the [int64] bound of the nanoseconds it stores.  Other formats
    that [pd.to_datetime] infers are not modelled. *)

From Stdlib Require Import String Ascii ZArith List Lia Bool.
From S2P Require Import Prelude PyString.
Import ListNotations PyString.
Local Open Scope string_scope.
Local Open Scope Z_scope.

Module Calendar.

(** [calendar.month_name]: index 0 is the empty string. *)
Definition month_name : list string :=
  [""; "January"; "February"; "March"; "April"; "May"; "June"; "July";
   "August"; "September"; "October"; "November"; "December"].

(** [calendar.day_name]: Monday first, as [datetime.weekday()]. *)
Definition day_name : list string :=
  ["Monday"; "Tuesday"; "Wednesday"; "Thursday"; "Friday"; "Saturday"; "Sunday"].

(** A value of the converted "Start Time" column. *)
Record timestamp := mk_timestamp {
  ts_year : Z;
  ts_month : Z;
  ts_day : Z;
  ts_hour : Z;
  ts_minute : Z;
  ts_second : Z
}.

Definition is_leap (y : Z) : bool :=
  (Z.eqb (y mod 4) 0 && negb (Z.eqb (y mod 100) 0)) || Z.eqb (y mod 400) 0.

Definition days_in_month (y m : Z) : Z :=
  match m with
  | 2 => if is_leap y then 29 else 28
  | 4 | 6 | 9 | 11 => 30
  | _ => 31
  end.

(** The fields of a timestamp as one number, in their lexicographic
    order (each field but the year is below 100). *)
Definition timestamp_key (t : timestamp) : Z :=
  ((((ts_year t * 100 + ts_month t) * 100 + ts_day t) * 100 + ts_hour t) * 100
     + ts_minute t) * 100 + ts_second t.

(** The range of pandas' nanosecond [datetime64]: from
    1677-09-21 00:12:43.145224193 to 2262-04-11 23:47:16.854775807.
    [pd.to_datetime] raises [OutOfBoundsDatetime], a [ValueError],
    outside it; at a whole second the range is
    [1677-09-21 00:12:44, 2262-04-11 23:47:16]. *)
Definition in_datetime64_range (t : timestamp) : bool :=
  (16770921001244 <=? timestamp_key t) && (timestamp_key t <=? 22620411234716).

(** A date and time of the calendar with a four-digit year. *)
Definition calendar_timestamp (t : timestamp) : bool :=
  (0 <=? ts_year t) && (ts_year t <=? 9999) &&
  (1 <=? ts_month t) && (ts_month t <=? 12) &&
  (1 <=? ts_day t) && (ts_day t <=? days_in_month (ts_year t) (ts_month t)) &&
  (0 <=? ts_hour t) && (ts_hour t <? 24) &&
  (0 <=? ts_minute t) && (ts_minute t <? 60) &&
  (0 <=? ts_second t) && (ts_second t <? 60).

(** A timestamp of the calendar that [pd.to_datetime] accepts. *)
Definition valid_timestamp (t : timestamp) : bool :=
  calendar_timestamp t && in_datetime64_range t.

(** ** The parser and the printer of ["YYYY-MM-DD HH:MM:SS"] *)

Fixpoint pow10 (n : nat) : Z :=
  match n with
  | O => 1
  | S n' => 10 * pow10 n'
  end.

Definition is_digit (c : ascii) : bool :=
  (48 <=? Z.of_nat (nat_of_ascii c)) && (Z.of_nat (nat_of_ascii c) <=? 57).

Definition digit_value (c : ascii) : Z := Z.of_nat (nat_of_ascii c) - 48.

Definition digit_char (d : Z) : ascii := ascii_of_nat (Z.to_nat (d + 48)).

(** Read exactly [n] decimal digits after an accumulated value. *)
Fixpoint parse_digits (n : nat) (acc : Z) (s : string) : option (Z * string) :=
  match n with
  | O => Some (acc, s)
  | S n' =>
      match s with
      | String c s' => if is_digit c then parse_digits n' (acc * 10 + digit_value c) s' else None
      | EmptyString => None
      end
  end.

Definition expect (c : ascii) (s : string) : option string :=
  match s with
  | String c' s' => if Ascii.eqb c c' then Some s' else None
  | EmptyString => None
  end.

(** [pd.to_datetime] on one cell; [None] where it raises. *)
Definition parse_timestamp (s : string) : option timestamp :=
  match parse_digits 4 0 s with
  | Some (y, s1) =>
  match expect "-" s1 with
  | Some s2 =>
  match parse_digits 2 0 s2 with
  | Some (mo, s3) =>
  match expect "-" s3 with
  | Some s4 =>
  match parse_digits 2 0 s4 with
  | Some (d, s5) =>
  match expect " " s5 with
  | Some s6 =>
  match parse_digits 2 0 s6 with
  | Some (h, s7) =>
  match expect ":" s7 with
  | Some s8 =>
  match parse_digits 2 0 s8 with
  | Some (mi, s9) =>
  match expect ":" s9 with
  | Some s10 =>
  match parse_digits 2 0 s10 with
  | Some (se, EmptyString) =>
      let t := mk_timestamp y mo d h mi se in
      if valid_timestamp t then Some t else None
  | _ => None
  end | None => None end | None => None end | None => None end | None => None end
  | None => None end | None => None end | None => None end | None => None end
  | None => None end | None => None end.

(** The [n] low decimal digits of [v], most significant first. *)
Fixpoint show_digits (n : nat) (v : Z) : string :=
  match n with
  | O => EmptyString
  | S n' => String (digit_char ((v / pow10 n') mod 10)) (show_digits n' v)
  end.

Definition show_timestamp (t : timestamp) : string :=
  show_digits 4 (ts_year t) ++ "-" ++ show_digits 2 (ts_month t) ++ "-" ++
  show_digits 2 (ts_day t) ++ " " ++ show_digits 2 (ts_hour t) ++ ":" ++
  show_digits 2 (ts_minute t) ++ ":" ++ show_digits 2 (ts_second t).

(** ** Weekdays *)

(** Days since 1970-01-01 of a proleptic Gregorian date (the civil
    calendar numpy's [datetime64] counts in). *)
Definition days_from_civil (y m d : Z) : Z :=
  let y' := if m <=? 2 then y - 1 else y in
  let era := y' / 400 in
  let yoe := y' - era * 400 in
  let mp := if m <=? 2 then m + 9 else m - 3 in
  let doy := (153 * mp + 2) / 5 + d - 1 in
  let doe := yoe * 365 + yoe / 4 - yoe / 100 + doy in
  era * 146097 + doe - 719468.

(** Seconds since 1970-01-01 00:00:00 of a timestamp. *)
Definition epoch_seconds (t : timestamp) : Z :=
  days_from_civil (ts_year t) (ts_month t) (ts_day t) * 86400
  + ts_hour t * 3600 + ts_minute t * 60 + ts_second t.

(** The [int64] value [pd.to_datetime] stores for a timestamp: its
    nanoseconds since the epoch ([datetime64[ns]]). *)
Definition datetime64_ns (t : timestamp) : Z := epoch_seconds t * 10 ^ 9.

(** [datetime.weekday()]: Monday is 0; 1970-01-01 was a Thursday. *)
Definition weekday (t : timestamp) : Z :=
  (days_from_civil (ts_year t) (ts_month t) (ts_day t) + 3) mod 7.

(** [Series.dt.day_name()]. *)
Definition dt_day_name (t : timestamp) : string :=
  nth (Z.to_nat (weekday t)) day_name "".

(** The calendar day after [y-m-d]: the next day of the month, the
    first of the next month, or New Year's Day. *)
Definition next_date (y m d : Z) : Z * Z * Z :=
  if d <? days_in_month y m then (y, m, d + 1)
  else if m <? 12 then (y, m + 1, 1)
  else (y + 1, 1, 1).

(** A timestamp of the next day, at the time [h:mi:s]. *)
Definition next_day_at (t : timestamp) (h mi s : Z) : timestamp :=
  let '(y, m, d) := next_date (ts_year t) (ts_month t) (ts_day t) in mk_timestamp y m d h mi s.

(** The weekday name after [n] in the week of [calendar.day_name]. *)
Definition next_weekday_name (n : string) : string :=
  match py_index n day_name with
  | Some i => nth ((i + 1) mod 7)%nat day_name ""
  | None => ""
  end.

(** ** Lemmas *)

Lemma digit_char_spec (d : Z) :
  0 <= d < 10 -> is_digit (digit_char d) = true /\ digit_value (digit_char d) = d.
Proof.
  intros Hd. rewrite <- (Z2Nat.id d) by lia.
  assert (Hk : (Z.to_nat d < 10)%nat) by lia. revert Hk. generalize (Z.to_nat d) as k.
  intros k Hk. do 10 (destruct k as [| k]; [split; reflexivity |]). lia.
Qed.

Lemma pow10_pos (n : nat) : 0 < pow10 n.
Proof. induction n; cbn [pow10]; lia. Qed.

(** Reading back the digits [show_digits] writes gives the value modulo
    the power of ten, whatever follows. *)
Lemma parse_digits_show (n : nat) (acc v : Z) (rest : string) :
  parse_digits n acc (show_digits n v ++ rest) = Some (acc * pow10 n + v mod pow10 n, rest).
Proof.
  revert acc. induction n as [| n IH]; intros acc; cbn [parse_digits show_digits pow10 append].
  - rewrite Z.mod_1_r, Z.add_0_r, Z.mul_1_r. reflexivity.
  - pose proof (pow10_pos n) as Hp.
    destruct (digit_char_spec ((v / pow10 n) mod 10) (Z.mod_pos_bound _ 10 ltac:(lia)))
      as [-> ->].
    rewrite IH. f_equal. f_equal.
    rewrite (Z.mul_comm 10 (pow10 n)), Z.rem_mul_r by lia. ring.
Qed.

Lemma parse_digits_show_small (n : nat) (v : Z) (rest : string) :
  0 <= v < pow10 n -> parse_digits n 0 (show_digits n v ++ rest) = Some (v, rest).
Proof.
  intros Hv. rewrite parse_digits_show, Z.mod_small by exact Hv. reflexivity.
Qed.

Lemma string_append_empty_r (s : string) : (s ++ "")%string = s.
Proof. induction s as [| c s IH]; simpl; rewrite ?IH; reflexivity. Qed.

(** Case analysis on every [match] of a hypothesis, keeping equations. *)
Ltac destruct_match_in H :=
  repeat match type of H with
  | context [match ?x with _ => _ end] =>
      lazymatch x with
      | context [match _ with _ => _ end] => fail
      | _ => destruct x eqn:?; try discriminate H
      end
  end.

Lemma days_in_month_le (y m : Z) : days_in_month y m <= 31.
Proof.
  unfold days_in_month.
  repeat match goal with |- context [match ?x with _ => _ end] => destruct x end; lia.
Qed.

Lemma valid_timestamp_bounds (t : timestamp) :
  valid_timestamp t = true ->
  1 <= ts_month t <= 12 /\ 0 <= ts_hour t < 24 /\ 1 <= ts_day t.
Proof.
  unfold valid_timestamp, calendar_timestamp. rewrite !andb_true_iff, !Z.leb_le, !Z.ltb_lt. lia.
Qed.

Lemma weekday_range (t : timestamp) : 0 <= weekday t < 7.
Proof. unfold weekday. apply Z.mod_pos_bound. lia. Qed.

(** The derived weekday name is one of [calendar.day_name]. *)
Lemma dt_day_name_In (t : timestamp) : In (dt_day_name t) day_name.
Proof.
  unfold dt_day_name. apply nth_In. pose proof (weekday_range t). simpl. lia.
Qed.

Lemma expect_same (c : ascii) (s : string) : expect c (String c s) = Some s.
Proof. unfold expect. rewrite Ascii.eqb_refl. reflexivity. Qed.

Lemma digit_char_value (c : ascii) :
  is_digit c = true -> digit_char (digit_value c) = c /\ 0 <= digit_value c < 10.
Proof.
  unfold is_digit, digit_value, digit_char. rewrite andb_true_iff, !Z.leb_le. intros Hc.
  split; [| lia].
  replace (Z.of_nat (nat_of_ascii c) - 48 + 48) with (Z.of_nat (nat_of_ascii c)) by lia.
  rewrite Nat2Z.id. apply ascii_nat_embedding.
Qed.

(** [show_digits n] only sees its argument modulo [10^n]. *)
Lemma show_digits_add (n : nat) (v k : Z) : show_digits n (v + k * pow10 n) = show_digits n v.
Proof.
  revert k. induction n as [| n IH]; intros k; [reflexivity |].
  cbn [show_digits pow10]. pose proof (pow10_pos n) as Hp.
  replace (v + k * (10 * pow10 n)) with (v + (k * 10) * pow10 n) by ring.
  rewrite IH. f_equal. f_equal.
  rewrite Z.div_add by lia. replace (v / pow10 n + k * 10) with (v / pow10 n + k * 10) by ring.
  rewrite Z.mod_add by lia. reflexivity.
Qed.

Lemma parse_digits_inv (n : nat) (acc v : Z) (s rest : string) :
  parse_digits n acc s = Some (v, rest) ->
  exists w, 0 <= w < pow10 n /\ v = acc * pow10 n + w /\ s = (show_digits n w ++ rest)%string.
Proof.
  revert acc s. induction n as [| n IH]; intros acc s Hp; cbn [parse_digits] in Hp.
  - injection Hp as <- <-. exists 0. cbn. split; [lia |]. split; [ring | reflexivity].
  - destruct s as [| c s']; [discriminate |].
    destruct (is_digit c) eqn:Hc; [| discriminate].
    destruct (IH _ _ Hp) as [w' (Hw' & -> & ->)]. destruct (digit_char_value c Hc) as [Hch Hdv].
    pose proof (pow10_pos n) as Hpos.
    exists (digit_value c * pow10 n + w'). cbn [pow10 show_digits append].
    split; [nia |]. split; [ring |].
    rewrite Z.div_add_l, Z.div_small, Z.add_0_r, Z.mod_small by lia.
    rewrite Z.add_comm, show_digits_add, Hch. reflexivity.
Qed.

Lemma expect_inv (c : ascii) (s s' : string) : expect c s = Some s' -> s = String c s'.
Proof.
  destruct s as [| c' s0]; cbn; [discriminate |].
  destruct (Ascii.eqb_spec c c') as [<- |]; [congruence | discriminate].
Qed.

(** ** Properties of the timestamp conversion *)


(** Printing a calendar timestamp and parsing it back gives its fields
    back, and the parser then checks the range. *)
Lemma parse_show_calendar (t : timestamp) :
  calendar_timestamp t = true ->
  parse_timestamp (show_timestamp t) = if valid_timestamp t then Some t else None.
Proof.
  intros Hb. unfold calendar_timestamp in Hb.
  rewrite !andb_true_iff, !Z.leb_le, !Z.ltb_lt in Hb.
  destruct t as [y mo d h mi se]. cbn [ts_year ts_month ts_day ts_hour ts_minute ts_second] in Hb.
  pose proof (days_in_month_le y mo) as Hd.
  unfold show_timestamp, parse_timestamp. cbn [ts_year ts_month ts_day ts_hour ts_minute ts_second append].
  rewrite <- (string_append_empty_r (show_digits 2 se)).
  repeat first [rewrite expect_same | rewrite parse_digits_show_small by (cbn [pow10]; lia)].
  reflexivity.
Qed.

(** Printing a valid timestamp and parsing it back gives it back. *)
Lemma parse_show (t : timestamp) :
  valid_timestamp t = true -> parse_timestamp (show_timestamp t) = Some t.
Proof.
  intros Hv. rewrite parse_show_calendar, Hv; [reflexivity |].
  unfold valid_timestamp in Hv. apply andb_true_iff in Hv. tauto.
Qed.

(** The parser only produces timestamps of the calendar. *)
Lemma parse_timestamp_sound (s : string) (t : timestamp) :
  parse_timestamp s = Some t -> valid_timestamp t = true.
Proof.
  intros H. unfold parse_timestamp in H. cbv zeta in H. destruct_match_in H.
  injection H as <-. assumption.
Qed.

(** C35: [pd.to_datetime] in the datasets' format accepts exactly the
    printed forms of the valid timestamps: it returns [t] on [s] if and
    only if [t] is a calendar timestamp and [s] is its
    ["YYYY-MM-DD HH:MM:SS"] form. *)
Theorem parse_timestamp_iff (s : string) (t : timestamp) :
  parse_timestamp s = Some t <-> valid_timestamp t = true /\ show_timestamp t = s.
Proof.
  split.
  - intros H. split; [eapply parse_timestamp_sound; exact H |].
    unfold parse_timestamp in H. cbv zeta in H. destruct_match_in H. injection H as <-.
    repeat match goal with
    | Hd : parse_digits _ _ _ = Some _ |- _ =>
        apply parse_digits_inv in Hd; destruct Hd as (? & ? & ? & ->)
    | He : expect _ _ = Some _ |- _ => apply expect_inv in He; subst
    end.
    unfold show_timestamp. cbn [ts_year ts_month ts_day ts_hour ts_minute ts_second].
    subst. rewrite !Z.mul_0_l, !Z.add_0_l, string_append_empty_r. reflexivity.
  - intros [Hv <-]. apply parse_show. exact Hv.
Qed.

Lemma parse_timestamp_iff_witness :
  valid_timestamp (mk_timestamp 2016 2 29 0 0 0) = true /\
  parse_timestamp "2016-02-29 00:00:00" = Some (mk_timestamp 2016 2 29 0 0 0) /\
  parse_timestamp "2017-02-29 00:00:00" = None.
Proof.
  split; [reflexivity |]. split; [| reflexivity].
  apply parse_timestamp_iff. split; reflexivity.
Defined.

(** ** The weekday is the calendar's *)

Lemma is_leap_spec (y : Z) :
  is_leap y = true <-> (y mod 4 = 0 /\ y mod 100 <> 0) \/ y mod 400 = 0.
Proof.
  unfold is_leap. rewrite orb_true_iff, andb_true_iff, negb_true_iff, !Z.eqb_eq, Z.eqb_neq. tauto.
Qed.

(** The day number of March 1st of [y] is one more than that of the
    last day of February. *)
Lemma days_from_civil_march (y : Z) :
  days_from_civil y 3 1 = days_from_civil y 2 (days_in_month y 2) + 1.
Proof.
  unfold days_from_civil, days_in_month. cbn -[Z.div Z.modulo is_leap].
  destruct (is_leap y) eqn:E; [apply is_leap_spec in E | 
    assert (E' : ~ ((y mod 4 = 0 /\ y mod 100 <> 0) \/ y mod 400 = 0)) by (rewrite <- is_leap_spec; congruence)];
  Z.div_mod_to_equations; lia.
Qed.

(** Consecutive calendar days have consecutive day numbers, across the
    ends of months, of February in leap and common years, of years and of
    the 400-year eras of the formula. *)
Lemma days_from_civil_next (y m d : Z) :
  1 <= m <= 12 -> 1 <= d <= days_in_month y m ->
  let '(y2, m2, d2) := next_date y m d in days_from_civil y2 m2 d2 = days_from_civil y m d + 1.
Proof.
  intros Hm Hd. unfold next_date.
  destruct (d <? days_in_month y m) eqn:Hlt.
  - unfold days_from_civil. destruct (m <=? 2); lia.
  - apply Z.ltb_ge in Hlt. assert (d = days_in_month y m) as -> by lia.
    destruct (m <? 12) eqn:H12.
    + apply Z.ltb_lt in H12.
      assert (m = 2 \/ m = 1 \/ m = 3 \/ m = 4 \/ m = 5 \/ m = 6 \/ m = 7 \/ m = 8 \/ m = 9 \/ m = 10 \/ m = 11)
        as [-> | Hm'] by lia; [apply days_from_civil_march |].
      repeat (destruct Hm' as [-> | Hm']; [unfold days_from_civil, days_in_month; cbn -[Z.div];
                                          Z.div_mod_to_equations; lia |]).
      subst. unfold days_from_civil, days_in_month; cbn -[Z.div]. Z.div_mod_to_equations; lia.
    + apply Z.ltb_ge in H12. assert (m = 12) as -> by lia.
      unfold days_from_civil, days_in_month; cbn -[Z.div]. Z.div_mod_to_equations; lia.
Qed.

Lemma weekday_next_day (t : timestamp) (h mi s : Z) :
  1 <= ts_month t <= 12 -> 1 <= ts_day t <= days_in_month (ts_year t) (ts_month t) ->
  weekday (next_day_at t h mi s) = (weekday t + 1) mod 7.
Proof.
  intros Hm Hd. pose proof (days_from_civil_next _ _ _ Hm Hd) as Hn.
  unfold next_day_at, weekday. destruct (next_date (ts_year t) (ts_month t) (ts_day t)) as [[y m] d].
  cbn [ts_year ts_month ts_day]. rewrite Hn. Z.div_mod_to_equations. lia.
Qed.

Lemma next_weekday_name_nth (w : Z) :
  0 <= w < 7 ->
  next_weekday_name (nth (Z.to_nat w) day_name "") = nth (Z.to_nat ((w + 1) mod 7)) day_name "".
Proof.
  intros Hw. assert (w = 0 \/ w = 1 \/ w = 2 \/ w = 3 \/ w = 4 \/ w = 5 \/ w = 6) as Hc by lia.
  repeat (destruct Hc as [-> | Hc]; [reflexivity |]). subst. reflexivity.
Qed.

(** C9: [dt.day_name()] names the day of the proleptic Gregorian
    calendar: 1970-01-01 is a Thursday, and the day after any valid
    start timestamp (the next day of the month, the first of the next
    month, or New Year's Day, at any time) has the next name of the
    week. *)
Theorem dt_day_name_weekday (t : timestamp) (h mi s : Z) :
  valid_timestamp t = true ->
  dt_day_name (mk_timestamp 1970 1 1 h mi s) = "Thursday" /\
  dt_day_name (next_day_at t h mi s) = next_weekday_name (dt_day_name t).
Proof.
  intros Hv. split; [reflexivity |].
  destruct (valid_timestamp_bounds t Hv) as (Hm & _ & Hd1).
  assert (Hd : 1 <= ts_day t <= days_in_month (ts_year t) (ts_month t)).
  { split; [exact Hd1 |]. unfold valid_timestamp, calendar_timestamp in Hv. rewrite !andb_true_iff, !Z.leb_le in Hv. tauto. }
  unfold dt_day_name. rewrite weekday_next_day by assumption.
  rewrite next_weekday_name_nth by (unfold weekday; apply Z.mod_pos_bound; lia). reflexivity.
Qed.

Lemma dt_day_name_weekday_witness :
  valid_timestamp (mk_timestamp 2017 2 28 9 0 0) = true /\
  dt_day_name (mk_timestamp 2017 2 28 9 0 0) = "Tuesday" /\
  next_day_at (mk_timestamp 2017 2 28 9 0 0) 8 0 0 = mk_timestamp 2017 3 1 8 0 0 /\
  dt_day_name (mk_timestamp 2017 3 1 8 0 0) = "Wednesday" /\
  (dt_day_name (mk_timestamp 1970 1 1 8 0 0) = "Thursday" /\
   dt_day_name (next_day_at (mk_timestamp 2017 2 28 9 0 0) 8 0 0) =
     next_weekday_name (dt_day_name (mk_timestamp 2017 2 28 9 0 0))).
Proof.
  assert (Hv : valid_timestamp (mk_timestamp 2017 2 28 9 0 0) = true) by reflexivity.
  split; [exact Hv |]. split; [reflexivity |]. split; [reflexivity |]. split; [reflexivity |].
  exact (dt_day_name_weekday _ 8 0 0 Hv).
Defined.

(** ** The datetime64 range is the int64 range of nanoseconds *)

Lemma days_in_month_ge (y m : Z) : 28 <= days_in_month y m.
Proof.
  unfold days_in_month. destruct (is_leap y);
    repeat match goal with |- context [match ?x with _ => _ end] => destruct x end; lia.
Qed.

(** Inside a month the day number counts the days. *)
Lemma days_from_civil_day (y m d : Z) : days_from_civil y m d = days_from_civil y m 1 + (d - 1).
Proof. unfold days_from_civil. cbv zeta. destruct (m <=? 2); lia. Qed.

Lemma days_from_civil_month_end (y m : Z) :
  1 <= m < 12 -> days_from_civil y (m + 1) 1 = days_from_civil y m 1 + days_in_month y m.
Proof.
  intros Hm. pose proof (days_in_month_ge y m).
  pose proof (days_from_civil_next y m (days_in_month y m) ltac:(lia) ltac:(lia)) as Hn.
  unfold next_date in Hn. rewrite Z.ltb_irrefl in Hn. replace (m <? 12) with true in Hn by (symmetry; apply Z.ltb_lt; lia).
  rewrite Hn, (days_from_civil_day y m (days_in_month y m)). lia.
Qed.

Lemma days_from_civil_year_end (y : Z) : days_from_civil (y + 1) 1 1 = days_from_civil y 12 1 + 31.
Proof.
  pose proof (days_from_civil_next y 12 31 ltac:(lia) ltac:(cbn; lia)) as Hn.
  cbn in Hn. rewrite Hn, (days_from_civil_day y 12 31). lia.
Qed.

(** The first days of the months of a year come in order. *)
Lemma days_from_civil_month_le (y k k' : Z) :
  1 <= k <= k' -> k' <= 12 -> days_from_civil y k 1 <= days_from_civil y k' 1.
Proof.
  intros Hk Hk'. destruct (Z.eq_dec k k') as [<- | Hne]; [lia |].
  enough (days_from_civil y k 1 < days_from_civil y k' 1) by lia.
  apply (Z_lt_mono_step (fun k => days_from_civil y k 1) 1 12); try lia.
  intros x Hx1 Hx2. rewrite days_from_civil_month_end by lia. pose proof (days_in_month_ge y x). lia.
Qed.

(** Within a year, a later day has a larger day number. *)
Lemma days_from_civil_lt_same_year (y m d m' d' : Z) :
  1 <= m <= 12 -> 1 <= d <= days_in_month y m -> 1 <= m' <= 12 -> 1 <= d' ->
  m < m' \/ (m = m' /\ d < d') -> days_from_civil y m d < days_from_civil y m' d'.
Proof.
  intros Hm Hd Hm' Hd' Hlt. rewrite (days_from_civil_day y m d), (days_from_civil_day y m' d').
  destruct Hlt as [Hlt | [<- Hlt]]; [| lia].
  pose proof (days_from_civil_month_end y m ltac:(lia)).
  pose proof (days_from_civil_month_le y (m + 1) m' ltac:(lia) ltac:(lia)). lia.
Qed.

(** A day of a year lies between New Year's Day and the next one. *)
Lemma days_from_civil_year_bounds (y m d : Z) :
  1 <= m <= 12 -> 1 <= d <= days_in_month y m ->
  days_from_civil y 1 1 <= days_from_civil y m d < days_from_civil (y + 1) 1 1.
Proof.
  intros Hm Hd. rewrite days_from_civil_year_end. split.
  - rewrite (days_from_civil_day y m d). pose proof (days_from_civil_month_le y 1 m ltac:(lia) ltac:(lia)). lia.
  - destruct (Z.eq_dec m 12) as [-> | Hne].
    + rewrite (days_from_civil_day y 12 d). cbn in Hd. lia.
    + pose proof (days_from_civil_lt_same_year y m d 12 1 Hm Hd ltac:(lia) ltac:(lia) ltac:(lia)). lia.
Qed.

(** A later calendar date has a larger day number. *)
Lemma days_from_civil_lt (y m d y' m' d' : Z) :
  1 <= m <= 12 -> 1 <= d <= days_in_month y m -> 1 <= m' <= 12 -> 1 <= d' <= days_in_month y' m' ->
  y < y' \/ (y = y' /\ (m < m' \/ (m = m' /\ d < d'))) ->
  days_from_civil y m d < days_from_civil y' m' d'.
Proof.
  intros Hm Hd Hm' Hd' [Hy | [<- Hlt]]; [| apply days_from_civil_lt_same_year; lia].
  pose proof (days_from_civil_year_bounds y m d Hm Hd).
  pose proof (days_from_civil_year_bounds y' m' d' Hm' Hd').
  destruct (Z.eq_dec (y + 1) y') as [<- | Hne]; [lia |].
  enough (days_from_civil (y + 1) 1 1 < days_from_civil y' 1 1) by lia.
  apply (Z_lt_mono_step (fun k => days_from_civil k 1 1) (y + 1) y'); try lia.
  intros x _ _. cbn beta. pose proof (days_from_civil_year_bounds x 1 1 ltac:(lia) ltac:(cbn; lia)). lia.
Qed.

Lemma calendar_timestamp_bounds (t : timestamp) :
  calendar_timestamp t = true ->
  0 <= ts_year t <= 9999 /\ 1 <= ts_month t <= 12 /\ 1 <= ts_day t <= days_in_month (ts_year t) (ts_month t) /\
  0 <= ts_hour t < 24 /\ 0 <= ts_minute t < 60 /\ 0 <= ts_second t < 60.
Proof. unfold calendar_timestamp. rewrite !andb_true_iff, !Z.leb_le, !Z.ltb_lt. lia. Qed.

(** On calendar timestamps the order of the fields is the order of
    time. *)
Lemma timestamp_key_lt_epoch (t u : timestamp) :
  calendar_timestamp t = true -> calendar_timestamp u = true ->
  timestamp_key t < timestamp_key u -> epoch_seconds t < epoch_seconds u.
Proof.
  intros Ht Hu Hk. apply calendar_timestamp_bounds in Ht, Hu.
  destruct t as [y m d h mi se], u as [y' m' d' h' mi' se']. cbn in *. unfold timestamp_key, epoch_seconds in *. cbn in *.
  pose proof (days_in_month_le y m). pose proof (days_in_month_le y' m').
  assert (Hlex : (y < y' \/ (y = y' /\ (m < m' \/ (m = m' /\ d < d')))) \/
                 (y = y' /\ m = m' /\ d = d' /\ h * 3600 + mi * 60 + se < h' * 3600 + mi' * 60 + se')) by lia.
  destruct Hlex as [Hlt | (-> & -> & -> & Hlt)]; [| lia].
  pose proof (days_from_civil_lt y m d y' m' d' ltac:(lia) ltac:(lia) ltac:(lia) ltac:(lia) Hlt). lia.
Qed.

Lemma timestamp_key_eq_epoch (t u : timestamp) :
  calendar_timestamp t = true -> calendar_timestamp u = true ->
  timestamp_key t = timestamp_key u -> epoch_seconds t = epoch_seconds u.
Proof.
  intros Ht Hu Hk. apply calendar_timestamp_bounds in Ht, Hu.
  destruct t as [y m d h mi se], u as [y' m' d' h' mi' se']. cbn in *. unfold timestamp_key, epoch_seconds in *. cbn in *.
  pose proof (days_in_month_le y m). pose proof (days_in_month_le y' m').
  assert (y = y' /\ m = m' /\ d = d' /\ h = h' /\ mi = mi' /\ se = se') as (-> & -> & -> & -> & -> & ->) by lia.
  reflexivity.
Qed.

Lemma timestamp_key_le_iff (t u : timestamp) :
  calendar_timestamp t = true -> calendar_timestamp u = true ->
  timestamp_key t <= timestamp_key u <-> epoch_seconds t <= epoch_seconds u.
Proof.
  intros Ht Hu. split; intros H.
  - destruct (Z.eq_dec (timestamp_key t) (timestamp_key u)) as [E | E];
      [rewrite (timestamp_key_eq_epoch t u Ht Hu E); lia | pose proof (timestamp_key_lt_epoch t u Ht Hu); lia].
  - destruct (Z_le_gt_dec (timestamp_key t) (timestamp_key u)) as [| Hgt]; [assumption |].
    pose proof (timestamp_key_lt_epoch u t Hu Ht ltac:(lia)). lia.
Qed.

(** C36: the range check of [pd.to_datetime] is the [int64] bound of
    the nanosecond value it stores: the parser accepts a calendar
    timestamp exactly when its nanoseconds since 1970-01-01 lie strictly
    between [-2^63] (the [NaT] value) and [2^63], and fails, which
    [load_data] reports as [ValueError], when they would overflow. *)
Theorem datetime64_range_int64 (t : timestamp) :
  calendar_timestamp t = true ->
  parse_timestamp (show_timestamp t) = Some t <-> - 2 ^ 63 < datetime64_ns t < 2 ^ 63.
Proof.
  intros Hc. rewrite parse_show_calendar by exact Hc. unfold valid_timestamp. rewrite Hc. cbn [andb].
  assert (Hr : in_datetime64_range t = true <->
               epoch_seconds (mk_timestamp 1677 9 21 0 12 44) <= epoch_seconds t <=
               epoch_seconds (mk_timestamp 2262 4 11 23 47 16)).
  { unfold in_datetime64_range. rewrite andb_true_iff, !Z.leb_le.
    change 16770921001244 with (timestamp_key (mk_timestamp 1677 9 21 0 12 44)).
    change 22620411234716 with (timestamp_key (mk_timestamp 2262 4 11 23 47 16)).
    rewrite !timestamp_key_le_iff by (reflexivity || exact Hc). reflexivity. }
  replace (epoch_seconds (mk_timestamp 1677 9 21 0 12 44)) with (-9223372036) in Hr by reflexivity.
  replace (epoch_seconds (mk_timestamp 2262 4 11 23 47 16)) with 9223372036 in Hr by reflexivity.
  unfold datetime64_ns. replace (2 ^ 63) with 9223372036854775808 by reflexivity.
  destruct (in_datetime64_range t); split; intros H; try discriminate.
  - pose proof (proj1 Hr eq_refl). nia.
  - reflexivity.
  - assert (false = true) by (apply Hr; nia). discriminate.
Qed.

(** The two ends of the range, and the seconds just outside them. *)
Lemma datetime64_range_int64_witness :
  calendar_timestamp (mk_timestamp 2262 4 11 23 47 16) = true /\
  datetime64_ns (mk_timestamp 2262 4 11 23 47 16) = 9223372036000000000 /\
  parse_timestamp "2262-04-11 23:47:17" = None /\
  datetime64_ns (mk_timestamp 1677 9 21 0 12 44) = -9223372036000000000 /\
  parse_timestamp "1677-09-21 00:12:43" = None /\
  (parse_timestamp (show_timestamp (mk_timestamp 2262 4 11 23 47 16)) = Some (mk_timestamp 2262 4 11 23 47 16) <->
   - 2 ^ 63 < datetime64_ns (mk_timestamp 2262 4 11 23 47 16) < 2 ^ 63).
Proof.
  assert (Hc : calendar_timestamp (mk_timestamp 2262 4 11 23 47 16) = true) by reflexivity.
  split; [exact Hc |]. repeat (split; [reflexivity |]). exact (datetime64_range_int64 _ Hc).
Defined.

End Calendar.
