(* ===== verification/Frame.v ===== *)
(** * Frame: the data frame, [load_data] and its filters

    [load_data(city, month, day)] (src/bikeshare_2.py, lines 58-95)
    looks the city's file up in [CITY_DATA] (lines 6-8), reads it with
    [pd.read_csv], converts "Start Time" with [pd.to_datetime], adds the
    derived columns [month] and [day_of_week], and keeps the rows of the
    requested month (found by [list.index] in the lowered
    [calendar.month_name] without its empty first entry) and of the
    requested weekday (compared with [day.title()]).

    A frame is a schema (which optional columns the CSV file has, one
    flag per column for the whole frame) and its rows; a missing cell is
    [None].  The file system is the [FileSystem] interface: what
    [pd.read_csv] returns for a path, [None] where it raises
    [FileNotFoundError].  The theorems: the result of a successful load
    is the filtered converted file, each error path raises what Python
    raises, every loaded row satisfies the row invariant, and on such
    rows the month and weekday masks keep, in order, exactly the rows of
    the answered month and weekday, named as [calendar] names them. *)

From Stdlib Require Import String Ascii ZArith QArith List Lia Bool.
From S2P Require Import Prelude PyString Calendar.
Import ListNotations.
Import PyString Calendar.
Local Open Scope string_scope.
Local Open Scope Z_scope.

Module Frame.

(** ** Data *)

(** The optional columns of a city file: one flag per column, for the
    whole file ([ 'Start Station' in df.columns ] and the like). *)
Record schema := mk_schema {
  has_start_station : bool;
  has_end_station : bool;
  has_trip_duration : bool;
  has_user_type : bool;
  has_gender : bool;
  has_birth_year : bool
}.

(** A row as [pd.read_csv] returns it; [None] is a missing cell (NaN).
    A field of a column the schema lacks is never read. *)
Record raw_row := mk_raw_row {
  raw_start_time : string;
  raw_start_station : option string;
  raw_end_station : option string;
  raw_trip_duration : option Q;
  raw_user_type : option string;
  raw_gender : option string;
  raw_birth_year : option Z
}.

Record raw_frame := mk_raw_frame {
  raw_schema : schema;
  raw_rows : list raw_row
}.

(** A row after lines 73-77: the converted start time and the two
    derived columns. *)
Record row := mk_row {
  start_time : timestamp;
  start_station : option string;
  end_station : option string;
  trip_duration : option Q;
  user_type : option string;
  gender : option string;
  birth_year : option Z;
  month : Z;
  day_of_week : string
}.

Record frame := mk_frame {
  columns : schema;
  rows : list row
}.

(** [CITY_DATA] (lines 6-8). *)
Definition CITY_DATA : list (string * string) :=
  [("chicago", "chicago.csv"); ("new york city", "new_york_city.csv");
   ("washington", "washington.csv")].

(** [d[key]] on a dict given by its items: [None] raises [KeyError]. *)
Fixpoint dict_get (d : list (string * string)) (key : string) : option string :=
  match d with
  | [] => None
  | (k, v) :: d' => if String.eqb k key then Some v else dict_get d' key
  end.

(** What [pd.read_csv] finds at a path. *)
Class FileSystem := {
  read_csv : string -> option raw_frame
}.

(** ** [load_data] *)

(** Lines 73-77 on one row: [pd.to_datetime] of the start time, then
    [dt.month] and [dt.day_name()]. *)
Definition convert_row (r : raw_row) : result row :=
  match parse_timestamp (raw_start_time r) with
  | Some t =>
      Ok (mk_row t (raw_start_station r) (raw_end_station r) (raw_trip_duration r)
            (raw_user_type r) (raw_gender r) (raw_birth_year r) (ts_month t) (dt_day_name t))
  | None => Err ValueError
  end.

(** Lines 73-77 on the frame: one unparsable start time fails the whole
    conversion. *)
Definition convert_frame (raw : raw_frame) : result frame :=
  match map_result convert_row (raw_rows raw) with
  | Ok rs => Ok (mk_frame (raw_schema raw) rs)
  | Err e => Err e
  end.

(** [months] of lines 83-84: the lowered month names without the empty
    first entry. *)
Definition months : list string := tl (map py_lower month_name).

(** [months.index(month) + 1] (line 85). *)
Definition month_number (month : string) : result Z :=
  match py_index month months with
  | Some i => Ok (Z.of_nat i + 1)
  | None => Err ValueError
  end.

(** [df[df.month == month]] (line 88). *)
Definition filter_month (m : Z) (df : frame) : frame :=
  mk_frame (columns df) (filter (fun r => Z.eqb (month r) m) (rows df)).

(** [df[df.day_of_week == day.title()]] (line 93). *)
Definition filter_day (day : string) (df : frame) : frame :=
  mk_frame (columns df) (filter (fun r => String.eqb (day_of_week r) (py_title day)) (rows df)).

(** Lines 80-93. *)
Definition apply_filters (month day : string) (df : frame) : result frame :=
  match (if String.eqb month "all" then Ok df
         else match month_number month with
              | Ok m => Ok (filter_month m df)
              | Err e => Err e
              end) with
  | Ok df1 => Ok (if String.eqb day "all" then df1 else filter_day day df1)
  | Err e => Err e
  end.

Section Load.
Context `{FileSystem}.

(** [load_data(city, month, day)] (lines 58-95). *)
Definition load_data (city month day : string) : result frame :=
  match dict_get CITY_DATA city with
  | None => Err KeyError
  | Some file =>
      match read_csv file with
      | None => Err FileNotFoundError
      | Some raw =>
          match convert_frame raw with
          | Ok df => apply_filters month day df
          | Err e => Err e
          end
      end
  end.

End Load.

(** ** The row invariant *)

(** The derived columns are those of the start time, and the start
    time is a calendar timestamp. *)
Definition wf_row (r : row) : Prop :=
  valid_timestamp (start_time r) = true /\
  month r = ts_month (start_time r) /\
  day_of_week r = dt_day_name (start_time r).

Definition wf_frame (df : frame) : Prop := Forall wf_row (rows df).

(** What the filters keep: [month_ok m r] and [day_ok d r] are the
    predicates the script's masks compute, ["all"] keeping every row. *)
Definition month_ok (m : option Z) (r : row) : bool :=
  match m with
  | None => true
  | Some k => Z.eqb (month r) k
  end.

Definition day_ok (day : string) (r : row) : bool :=
  String.eqb day "all" || String.eqb (day_of_week r) (py_title day).

(** The month argument as the mask of line 88 uses it: [None] for
    ["all"], the month number otherwise. *)
Definition month_filter_value (month : string) : result (option Z) :=
  if String.eqb month "all" then Ok None
  else match month_number month with
       | Ok m => Ok (Some m)
       | Err e => Err e
       end.

(** ** Lemmas *)

Lemma filter_month_rows (m : Z) (df : frame) :
  rows (filter_month m df) = filter (month_ok (Some m)) (rows df).
Proof. reflexivity. Qed.

Lemma filter_day_rows (day : string) (df : frame) :
  day <> "all" -> rows (filter_day day df) = filter (day_ok day) (rows df).
Proof.
  intros Hd. apply filter_ext_in. intros r _. unfold day_ok.
  apply String.eqb_neq in Hd. rewrite Hd. reflexivity.
Qed.

Lemma filter_month_filter_day (m : Z) (day : string) (df : frame) :
  filter_day day (filter_month m df) = filter_month m (filter_day day df).
Proof.
  unfold filter_day, filter_month. simpl. f_equal. rewrite !filter_filter.
  apply filter_ext_in. intros r _. apply andb_comm.
Qed.

Lemma filter_month_idem (m : Z) (df : frame) : filter_month m (filter_month m df) = filter_month m df.
Proof.
  unfold filter_month. simpl. f_equal. rewrite filter_filter.
  apply filter_ext_in. intros r _. apply andb_diag.
Qed.

Lemma filter_day_idem (day : string) (df : frame) : filter_day day (filter_day day df) = filter_day day df.
Proof.
  unfold filter_day. simpl. f_equal. rewrite filter_filter.
  apply filter_ext_in. intros r _. apply andb_diag.
Qed.

Lemma month_number_Ok (month : string) (m : Z) :
  month_number month = Ok m -> In month months /\ 1 <= m <= 12.
Proof.
  unfold month_number. destruct (py_index month months) as [i |] eqn:Hi; [| discriminate].
  intros [= <-]. apply py_index_Some in Hi as [Hnth _]. split.
  - eapply nth_error_In. exact Hnth.
  - assert (Hlt : (i < length months)%nat) by (apply nth_error_Some; congruence).
    change (length months) with 12%nat in Hlt. lia.
Qed.

Lemma month_number_Err (month : string) (e : py_exc) :
  month_number month = Err e -> e = ValueError /\ ~ In month months.
Proof.
  unfold month_number. destruct (py_index month months) eqn:Hi; [discriminate |].
  intros [= <-]. split; [reflexivity |]. now apply py_index_None.
Qed.

(** Lines 80-93 as one mask: the month mask and the weekday mask, in
    the order of the rows. *)
Lemma apply_filters_eq (month day : string) (df : frame) :
  apply_filters month day df =
  match month_filter_value month with
  | Ok mo => Ok (mk_frame (columns df) (filter (fun r => month_ok mo r && day_ok day r) (rows df)))
  | Err e => Err e
  end.
Proof.
  destruct df as [cols rs]. unfold apply_filters, month_filter_value, day_ok.
  destruct (String.eqb month "all"); [| destruct (month_number month) as [m | e]; [| reflexivity]];
    destruct (String.eqb day "all"); unfold filter_day, filter_month; cbn [columns rows month_ok orb andb];
    rewrite ?filter_filter; f_equal; f_equal.
  - symmetry. apply filter_all_true. reflexivity.
  - apply filter_ext_in. intros r _. rewrite andb_true_r. reflexivity.
Qed.

Lemma convert_row_wf (r : raw_row) (r' : row) : convert_row r = Ok r' -> wf_row r'.
Proof.
  unfold convert_row. destruct (parse_timestamp (raw_start_time r)) as [t |] eqn:Ht; [| discriminate].
  intros [= <-]. unfold wf_row. cbn. split; [| split]; auto.
  eapply parse_timestamp_sound. exact Ht.
Qed.

Lemma convert_frame_wf (raw : raw_frame) (df : frame) : convert_frame raw = Ok df -> wf_frame df.
Proof.
  unfold convert_frame. destruct (map_result convert_row (raw_rows raw)) as [rs |] eqn:Hm; [| discriminate].
  intros [= <-]. apply map_result_Ok in Hm. unfold wf_frame. cbn.
  induction Hm; constructor; eauto using convert_row_wf.
Qed.

(** The only error of the conversion is [ValueError]. *)
Lemma map_convert_row_Err (l : list raw_row) (e : py_exc) :
  map_result convert_row l = Err e -> e = ValueError.
Proof.
  induction l as [| r l IH]; simpl; [discriminate |].
  destruct (convert_row r) eqn:Hr.
  - destruct (map_result convert_row l); [discriminate | exact IH].
  - unfold convert_row in Hr. destruct (parse_timestamp (raw_start_time r)); congruence.
Qed.

(** [load_data] raises [KeyError], [FileNotFoundError] or
    [ValueError], never [EOFError]. *)
Lemma load_data_Err `{FileSystem} (city month day : string) (e : py_exc) :
  load_data city month day = Err e -> e = KeyError \/ e = FileNotFoundError \/ e = ValueError.
Proof.
  unfold load_data. destruct (dict_get CITY_DATA city) as [file |]; [| intros [= <-]; auto].
  destruct (read_csv file) as [raw |]; [| intros [= <-]; auto].
  unfold convert_frame. destruct (map_result convert_row (raw_rows raw)) as [rs | e'] eqn:Hc.
  - rewrite apply_filters_eq. unfold month_filter_value.
    destruct (String.eqb month "all"); [discriminate |].
    destruct (month_number month) as [k | e'] eqn:Hm; [discriminate |].
    intros [= <-]. apply month_number_Err in Hm. tauto.
  - intros [= <-]. apply map_convert_row_Err in Hc. tauto.
Qed.

Lemma Forall_filter_sub {A : Type} (P : A -> Prop) (f : A -> bool) (l : list A) :
  Forall P l -> Forall P (filter f l).
Proof.
  rewrite !Forall_forall. intros H x Hx. apply filter_In in Hx. apply H. tauto.
Qed.

Lemma apply_filters_wf (month day : string) (df df' : frame) :
  wf_frame df -> apply_filters month day df = Ok df' -> wf_frame df'.
Proof.
  rewrite apply_filters_eq. destruct (month_filter_value month); [| discriminate].
  intros Hwf [= <-]. apply Forall_filter_sub. exact Hwf.
Qed.

Lemma apply_filters_all_all (df : frame) : apply_filters "all" "all" df = Ok df.
Proof.
  rewrite apply_filters_eq. destruct df as [cols rs]. cbn. f_equal. f_equal.
  apply filter_all_true. reflexivity.
Qed.

(** ** Sample data for the witnesses *)

Definition full_schema : schema := mk_schema true true true true true true.

Definition sample_rows : list raw_row :=
  [mk_raw_row "2017-01-01 09:07:57" (Some "Canal St & Adams St") (Some "Clark St & Randolph St")
     (Some 300%Q) (Some "Subscriber") (Some "Male") (Some 1992);
   mk_raw_row "2017-01-02 17:30:00" (Some "Canal St & Adams St") None
     (Some 1200%Q) (Some "Customer") None None;
   mk_raw_row "2017-03-06 08:15:00" (Some "Lake Shore Dr & Monroe St") (Some "Canal St & Adams St")
     (Some 600%Q) (Some "Subscriber") (Some "Female") (Some 1985)].

Definition sample_fs : FileSystem :=
  {| read_csv := fun path =>
       if String.eqb path "chicago.csv" then Some (mk_raw_frame full_schema sample_rows) else None |}.

(** A file with a start time [pd.to_datetime] rejects. *)
Definition broken_fs : FileSystem :=
  {| read_csv := fun path =>
       if String.eqb path "washington.csv"
       then Some (mk_raw_frame full_schema
                    (sample_rows ++ [mk_raw_row "2017-13-01 00:00:00" None None None None None None]))
       else None |}.

(** The converted sample file. *)
Definition sample_frame : frame :=
  mk_frame full_schema (match map_result convert_row sample_rows with Ok rs => rs | Err _ => [] end).

(** ** Properties of [load_data] *)

(** C2: a successful [load_data] is the converted file of the city with
    the month and weekday masks applied, in the file's row order; it
    succeeds exactly when the city is a key of [CITY_DATA], its file
    exists, every start time parses, and the month is "all" or a month
    name. *)
Theorem load_data_Ok `{FileSystem} (city month day : string) (df : frame) :
  load_data city month day = Ok df <->
  exists file raw cf mo,
    dict_get CITY_DATA city = Some file /\ read_csv file = Some raw /\
    convert_frame raw = Ok cf /\ month_filter_value month = Ok mo /\
    df = mk_frame (raw_schema raw) (filter (fun r => month_ok mo r && day_ok day r) (rows cf)).
Proof.
  unfold load_data. split.
  - destruct (dict_get CITY_DATA city) as [file |]; [| discriminate].
    destruct (read_csv file) as [raw |] eqn:Hr; [| discriminate].
    destruct (convert_frame raw) as [cf |] eqn:Hc; [| discriminate].
    rewrite apply_filters_eq. destruct (month_filter_value month) as [mo |] eqn:Hm; [| discriminate].
    intros [= <-]. exists file, raw, cf, mo. repeat split; auto.
    unfold convert_frame in Hc. destruct (map_result convert_row (raw_rows raw)); [| discriminate].
    injection Hc as <-. reflexivity.
  - intros (file & raw & cf & mo & -> & Hr & Hc & Hm & ->). rewrite Hr, Hc, apply_filters_eq, Hm.
    unfold convert_frame in Hc. destruct (map_result convert_row (raw_rows raw)); [| discriminate].
    injection Hc as <-. reflexivity.
Qed.

Lemma load_data_Ok_witness :
  @load_data sample_fs "chicago" "january" "all" =
    Ok (mk_frame full_schema
          (filter (fun r => month_ok (Some 1) r && day_ok "all" r)
             (rows (mk_frame full_schema
                      (match map_result convert_row sample_rows with Ok rs => rs | Err _ => [] end))))) /\
  exists file raw cf mo,
    dict_get CITY_DATA "chicago" = Some file /\ @read_csv sample_fs file = Some raw /\
    convert_frame raw = Ok cf /\ month_filter_value "january" = Ok mo /\
    mk_frame full_schema
      (filter (fun r => month_ok (Some 1) r && day_ok "all" r)
         (rows (mk_frame full_schema
                  (match map_result convert_row sample_rows with Ok rs => rs | Err _ => [] end)))) =
    mk_frame (raw_schema raw) (filter (fun r => month_ok mo r && day_ok "all" r) (rows cf)).
Proof.
  assert (E : @load_data sample_fs "chicago" "january" "all" =
    Ok (mk_frame full_schema
          (filter (fun r => month_ok (Some 1) r && day_ok "all" r)
             (rows (mk_frame full_schema
                      (match map_result convert_row sample_rows with Ok rs => rs | Err _ => [] end))))))
    by reflexivity.
  split; [exact E |]. apply (proj1 (@load_data_Ok sample_fs _ _ _ _) E).
Defined.

(** C22: a month that is neither "all" nor one of the twelve lowered
    month names makes [load_data] raise [ValueError] at
    [months.index(month)] (line 85), once the file is read. *)
Theorem load_data_bad_month `{FileSystem} (city month day file : string) (raw : raw_frame) (cf : frame) :
  dict_get CITY_DATA city = Some file -> read_csv file = Some raw -> convert_frame raw = Ok cf ->
  month <> "all" -> ~ In month months ->
  load_data city month day = Err ValueError.
Proof.
  intros Hc Hr Hv Hall Hm. unfold load_data. rewrite Hc, Hr, Hv, apply_filters_eq.
  unfold month_filter_value, month_number. apply String.eqb_neq in Hall. rewrite Hall.
  apply py_index_None in Hm. rewrite Hm. reflexivity.
Qed.

(** The empty answer that [get_filters] accepts as a month (line 36)
    is such a month. *)
Lemma load_data_bad_month_witness :
  @load_data sample_fs "chicago" "" "all" = Err ValueError.
Proof.
  apply (@load_data_bad_month sample_fs "chicago" "" "all" "chicago.csv"
           (mk_raw_frame full_schema sample_rows)
           (mk_frame full_schema (match map_result convert_row sample_rows with Ok rs => rs | Err _ => [] end)));
    try reflexivity; try discriminate.
  cbn. intuition discriminate.
Defined.

(** C23: loading is fail-fast: one start time that [pd.to_datetime]
    cannot parse makes the whole [load_data] raise [ValueError], whatever
    the filters. *)
Theorem load_data_fail_fast `{FileSystem} (city month day file : string) (raw : raw_frame) (r : raw_row) :
  dict_get CITY_DATA city = Some file -> read_csv file = Some raw ->
  In r (raw_rows raw) -> parse_timestamp (raw_start_time r) = None ->
  load_data city month day = Err ValueError.
Proof.
  intros Hc Hr Hin Hp. unfold load_data, convert_frame. rewrite Hc, Hr.
  assert (Hcr : convert_row r = Err ValueError) by (unfold convert_row; rewrite Hp; reflexivity).
  destruct (map_result_Err convert_row (raw_rows raw) r ValueError Hin Hcr) as [e He].
  rewrite He. f_equal. exact (map_convert_row_Err _ _ He).
Qed.

Lemma load_data_fail_fast_witness :
  @load_data broken_fs "washington" "all" "all" = Err ValueError.
Proof.
  apply (@load_data_fail_fast broken_fs "washington" "all" "all" "washington.csv"
           (mk_raw_frame full_schema
              (sample_rows ++ [mk_raw_row "2017-13-01 00:00:00" None None None None None None]))
           (mk_raw_row "2017-13-01 00:00:00" None None None None None None));
    try reflexivity.
  cbn. intuition.
Defined.

(** C24: every row of a loaded frame satisfies the row invariant: its
    start time is a calendar timestamp and its [month] and
    [day_of_week] columns are the month and weekday name of that
    start time. *)
Theorem load_data_wf `{FileSystem} (city month day : string) (df : frame) :
  load_data city month day = Ok df -> wf_frame df.
Proof.
  unfold load_data. destruct (dict_get CITY_DATA city) as [file |]; [| discriminate].
  destruct (read_csv file) as [raw |]; [| discriminate].
  destruct (convert_frame raw) as [cf |] eqn:Hc; [| discriminate].
  apply apply_filters_wf. eapply convert_frame_wf. exact Hc.
Qed.

Lemma load_data_wf_witness :
  exists df, @load_data sample_fs "chicago" "all" "sunday" = Ok df /\ wf_frame df.
Proof.
  eexists. split; [reflexivity |]. apply (@load_data_wf sample_fs "chicago" "all" "sunday").
  reflexivity.
Defined.

(** The title of each lowered weekday name [get_filters] accepts is a
    name of [calendar.day_name], and lowering it gives the answer back. *)
Lemma day_title_in_day_name (day : string) :
  In day (map py_lower day_name) -> In (py_title day) day_name /\ py_lower (py_title day) = day.
Proof.
  intros Hd. split.
  - repeat (destruct Hd as [<- | Hd]; [cbn; tauto |]). destruct Hd.
  - unfold py_title. rewrite py_lower_title_from.
    apply in_map_iff in Hd as [d [<- _]]. apply py_lower_idem.
Qed.

Lemma title_lower_day_name (d : string) : In d day_name -> py_title (py_lower d) = d.
Proof. intros Hd. repeat (destruct Hd as [<- | Hd]; [reflexivity |]). destruct Hd. Qed.

(** C38: on a frame whose weekday column was produced by
    [dt.day_name()], the weekday mask [df['day_of_week'] == day.title()]
    keeps exactly the rows whose weekday, lowered, is the answer the user
    gave, for every lowercase weekday name [get_filters] accepts. *)
Theorem filter_day_selects_day (day : string) (df : frame) :
  wf_frame df -> In day (map py_lower day_name) ->
  forall r, In r (rows (filter_day day df)) <-> In r (rows df) /\ py_lower (day_of_week r) = day.
Proof.
  intros Hwf Hd r. unfold filter_day. cbn [rows]. rewrite filter_In, String.eqb_eq.
  split; intros [Hr Heq]; split; auto.
  - rewrite Heq. apply day_title_in_day_name, Hd.
  - unfold wf_frame in Hwf. rewrite Forall_forall in Hwf.
    destruct (Hwf r Hr) as [_ [_ Hdow]]. rewrite <- Heq, Hdow.
    symmetry. apply title_lower_day_name, dt_day_name_In.
Qed.

Lemma filter_day_selects_day_witness :
  wf_frame sample_frame /\ In "sunday" (map py_lower day_name) /\
  (forall r, In r (rows (filter_day "sunday" sample_frame)) <->
     In r (rows sample_frame) /\ py_lower (day_of_week r) = "sunday").
Proof.
  assert (Hwf : wf_frame sample_frame).
  { apply (convert_frame_wf (mk_raw_frame full_schema sample_rows)). reflexivity. }
  assert (H : In "sunday" (map py_lower day_name)) by (cbn; tauto).
  split; [exact Hwf |]. split; [exact H |]. exact (filter_day_selects_day "sunday" sample_frame Hwf H).
Defined.

(** The month of each row of a loaded frame is the index in
    [calendar.month_name] of the name its answer lowers to. *)
Lemma month_number_name (k : Z) :
  1 <= k <= 12 -> month_number (py_lower (nth (Z.to_nat k) month_name "")) = Ok k.
Proof.
  intros Hk. assert (k = 1 \/ k = 2 \/ k = 3 \/ k = 4 \/ k = 5 \/ k = 6 \/ k = 7 \/ k = 8 \/ k = 9 \/
                     k = 10 \/ k = 11 \/ k = 12) as Hc by lia.
  repeat (destruct Hc as [-> | Hc]; [reflexivity |]). subst. reflexivity.
Qed.

Lemma month_number_In_name (month : string) (k : Z) :
  month_number month = Ok k -> month = py_lower (nth (Z.to_nat k) month_name "").
Proof.
  intros Hk. destruct (month_number_Ok month k Hk) as [Hin _].
  repeat (destruct Hin as [<- | Hin]; [injection Hk as <-; reflexivity |]). destruct Hin.
Qed.

(** On a well-formed row, the month mask compares the month names. *)
Lemma month_ok_name (month : string) (k : Z) (r : row) :
  wf_row r -> month_number month = Ok k ->
  month_ok (Some k) r = String.eqb (py_lower (nth (Z.to_nat (ts_month (start_time r))) month_name "")) month.
Proof.
  intros (Hv & Hm & _) Hk. destruct (valid_timestamp_bounds _ Hv) as [Hr _].
  cbn [month_ok]. rewrite Hm. destruct (Z.eqb_spec (ts_month (start_time r)) k) as [-> | Hne].
  - symmetry. apply String.eqb_eq. symmetry. apply month_number_In_name, Hk.
  - symmetry. apply String.eqb_neq. intros He. rewrite <- He, month_number_name in Hk by exact Hr.
    injection Hk. exact Hne.
Qed.

(** On a well-formed row, the weekday mask compares the weekday names. *)
Lemma day_ok_name (day : string) (r : row) :
  wf_row r -> In day (map py_lower day_name) ->
  String.eqb (day_of_week r) (py_title day) = String.eqb (py_lower (dt_day_name (start_time r))) day.
Proof.
  intros (_ & _ & Hd) Hin. rewrite <- Hd. destruct (day_title_in_day_name day Hin) as [Ht Hl].
  destruct (String.eqb_spec (day_of_week r) (py_title day)) as [-> | Hne]; symmetry.
  - apply String.eqb_eq. exact Hl.
  - apply String.eqb_neq. intros He. apply Hne. rewrite <- He, title_lower_day_name; [reflexivity |].
    rewrite Hd. apply dt_day_name_In.
Qed.

(** C8: on a frame whose derived columns come from the start times, the
    filters of lines 80-93 keep, in their order, exactly the rows whose
    start time falls in the answered month (the lowered name of
    [calendar.month_name] at its [dt.month]) and on the answered weekday
    (the lowered [dt.day_name()]), each answer "all" keeping every row,
    for every answer [get_filters] offers other than the empty month. *)
Theorem apply_filters_selects (month day : string) (df : frame) :
  wf_frame df -> month = "all" \/ In month months -> day = "all" \/ In day (map py_lower day_name) ->
  apply_filters month day df =
    Ok (mk_frame (columns df)
          (filter (fun r => (String.eqb month "all" ||
                             String.eqb (py_lower (nth (Z.to_nat (ts_month (start_time r))) month_name "")) month) &&
                            (String.eqb day "all" || String.eqb (py_lower (dt_day_name (start_time r))) day))
             (rows df))).
Proof.
  intros Hwf Hm Hd. rewrite apply_filters_eq. unfold month_filter_value.
  assert (Hday : forall r, In r (rows df) -> day_ok day r =
            (String.eqb day "all" || String.eqb (py_lower (dt_day_name (start_time r))) day)).
  { intros r Hr. unfold day_ok. destruct Hd as [-> | Hd]; [reflexivity |].
    rewrite (day_ok_name day r (proj1 (Forall_forall _ _) Hwf r Hr) Hd). reflexivity. }
  destruct (String.eqb_spec month "all") as [-> | Hne].
  - do 2 f_equal. apply filter_ext_in. intros r Hr. rewrite Hday by exact Hr. reflexivity.
  - destruct Hm as [Hm | Hm]; [contradiction |].
    destruct (month_number month) as [k | e] eqn:Hk.
    + do 2 f_equal. apply filter_ext_in. intros r Hr. rewrite Hday by exact Hr. cbn [orb].
      rewrite (month_ok_name month k r (proj1 (Forall_forall _ _) Hwf r Hr) Hk). reflexivity.
    + apply month_number_Err in Hk. tauto.
Qed.

Lemma apply_filters_selects_witness :
  wf_frame sample_frame /\ In "january" months /\ In "sunday" (map py_lower day_name) /\
  apply_filters "january" "sunday" sample_frame =
    Ok (mk_frame (columns sample_frame)
          (filter (fun r => (String.eqb "january" "all" ||
                             String.eqb (py_lower (nth (Z.to_nat (ts_month (start_time r))) month_name "")) "january") &&
                            (String.eqb "sunday" "all" || String.eqb (py_lower (dt_day_name (start_time r))) "sunday"))
             (rows sample_frame))).
Proof.
  assert (Hwf : wf_frame sample_frame).
  { apply (convert_frame_wf (mk_raw_frame full_schema sample_rows)). reflexivity. }
  assert (Hm : In "january" months) by (cbn; tauto).
  assert (Hd : In "sunday" (map py_lower day_name)) by (cbn; tauto).
  split; [exact Hwf |]. split; [exact Hm |]. split; [exact Hd |].
  exact (apply_filters_selects "january" "sunday" sample_frame Hwf (or_intror Hm) (or_intror Hd)).
Defined.

End Frame.
