(* ===== verification/Aggregate.v ===== *)
(** * Aggregate: the pandas reductions the statistics call

    The statistics of src/bikeshare_2.py call pandas' [Series.mode()]
    (lines 105, 109, 113, 129, 135, 142, 207), [Series.value_counts()]
    (lines 190, 198), [sum()] (line 155), [mean()] (line 159), [min()]
    and [max()] (lines 205-206).  All of them skip missing values
    (pandas' [skipna] / [dropna] defaults).  This file models them over
    a column given as a list of optional values, generic in the value
    type through the [PyOrd] interface.

    [mode] is modelled the way pandas computes it: a frequency tally in
    one pass over the values (first-seen order), the values whose count
    is the largest, sorted in Python's order; [mode()[0]] is the first
    of them and raises [KeyError] when there is none.  [value_counts] is
    the tally sorted by decreasing count, ties kept in first-seen order
    (the order the spec states).  The theorems prove [mode()[0]] equal
    to the declarative specification "most frequent value, smallest
    among the most frequent", and give the counts of [value_counts];
    its order is the subject of [ValueCounts]. *)

From Stdlib Require Import ZArith QArith Qfield List Lia Bool Sorted Permutation.
From S2P Require Import Prelude.
Import ListNotations.
Local Open Scope nat_scope.

Module Aggregate.

Section Reductions.
Context {A : Type} `{PyOrd A}.

(** ** Definitions *)

(** The non-missing values of a column ([dropna]). *)
Fixpoint dropna (l : list (option A)) : list A :=
  match l with
  | [] => []
  | Some x :: l' => x :: dropna l'
  | None :: l' => dropna l'
  end.

(** One step of the tally: count [x] once more, or append it with
    count 1 where it is seen for the first time. *)
Fixpoint tally_add (x : A) (t : list (A * nat)) : list (A * nat) :=
  match t with
  | [] => [(x, 1)]
  | (y, n) :: t' => if py_eqb x y then (y, S n) :: t' else (y, n) :: tally_add x t'
  end.

(** The frequency tally of a list, built in one pass. *)
Definition tally (l : list A) : list (A * nat) :=
  fold_left (fun t x => tally_add x t) l [].

Definition max_count (t : list (A * nat)) : nat :=
  fold_right (fun p m => Nat.max (snd p) m) 0 t.

(** Insertion sort in Python's order. *)
Fixpoint insert_sorted (x : A) (l : list A) : list A :=
  match l with
  | [] => [x]
  | y :: l' => if py_ltb y x then y :: insert_sorted x l' else x :: l
  end.

Definition sort_values (l : list A) : list A := fold_right insert_sorted [] l.

(** [Series.mode()]: the most frequent non-missing values, sorted. *)
Definition mode (col : list (option A)) : list A :=
  let t := tally (dropna col) in
  let m := max_count t in
  sort_values (map fst (filter (fun p => Nat.eqb (snd p) m) t)).

(** [Series.mode()[0]]: [KeyError] on an empty mode. *)
Definition mode0 (col : list (option A)) : result A :=
  match mode col with
  | x :: _ => Ok x
  | [] => Err KeyError
  end.

(** Insert a (value, count) pair before the first pair whose count is
    not larger: a stable sort by decreasing count. *)
Fixpoint insert_desc (p : A * nat) (l : list (A * nat)) : list (A * nat) :=
  match l with
  | [] => [p]
  | q :: l' => if Nat.leb (snd q) (snd p) then p :: l else q :: insert_desc p l'
  end.

(** [Series.value_counts()]. *)
Definition value_counts (col : list (option A)) : list (A * nat) :=
  fold_right insert_desc [] (tally (dropna col)).

(** ** The specification of a mode *)

(** [x] is a most frequent value of [vs], and the smallest of them. *)
Definition is_mode (vs : list A) (x : A) : Prop :=
  In x vs /\
  (forall y, py_count y vs <= py_count x vs) /\
  (forall y, py_count y vs = py_count x vs -> py_leb x y = true).

(** Membership decided with [==]. *)
Definition in_dec_py (x : A) (l : list A) : {In x l} + {~ In x l}.
Proof.
  destruct (py_in x l) eqn:E.
  - left. apply py_in_In. exact E.
  - right. intros Hin. apply py_in_In in Hin. congruence.
Defined.

(** The count a tally holds for [y] (its first entry), 0 if none. *)
Fixpoint tally_get (y : A) (t : list (A * nat)) : nat :=
  match t with
  | [] => 0
  | (z, n) :: t' => if py_eqb y z then n else tally_get y t'
  end.

(** ** The tally *)

Lemma tally_get_add (x y : A) (t : list (A * nat)) :
  tally_get y (tally_add x t) = tally_get y t + (if py_eqb y x then 1 else 0).
Proof.
  induction t as [| [z n] t IH]; simpl.
  - destruct (py_eqb y x); reflexivity.
  - destruct (py_eqb x z) eqn:Exz; simpl.
    + apply py_eqb_spec in Exz. subst z. destruct (py_eqb y x); lia.
    + destruct (py_eqb y z) eqn:Eyz; [| exact IH].
      apply py_eqb_spec in Eyz. subst z. rewrite py_eqb_sym, Exz. lia.
Qed.

Lemma tally_from_get (y : A) (l : list A) (t : list (A * nat)) :
  tally_get y (fold_left (fun t x => tally_add x t) l t) = tally_get y t + py_count y l.
Proof.
  revert t. induction l as [| x l IH]; intros t; simpl.
  - unfold py_count. simpl. lia.
  - rewrite IH, tally_get_add, py_count_cons. lia.
Qed.

(** The tally counts every value. *)
Lemma tally_get_count (y : A) (l : list A) : tally_get y (tally l) = py_count y l.
Proof. unfold tally. rewrite tally_from_get. reflexivity. Qed.

Lemma tally_add_keys (x z : A) (t : list (A * nat)) :
  In z (map fst (tally_add x t)) <-> z = x \/ In z (map fst t).
Proof.
  induction t as [| [y n] t IH]; simpl; [intuition congruence |].
  destruct (py_eqb x y) eqn:Exy; simpl.
  - apply py_eqb_spec in Exy. subst y. intuition congruence.
  - rewrite IH. intuition congruence.
Qed.

Lemma tally_add_nodup (x : A) (t : list (A * nat)) :
  NoDup (map fst t) -> NoDup (map fst (tally_add x t)).
Proof.
  induction t as [| [y n] t IH]; simpl; intros Hnd.
  - repeat constructor. simpl. tauto.
  - inversion Hnd as [| ? ? Hy Hnd']; subst.
    destruct (py_eqb x y) eqn:Exy; simpl; constructor; auto.
    rewrite tally_add_keys. apply py_eqb_neq in Exy. intuition.
Qed.

Lemma tally_from_keys (z : A) (l : list A) (t : list (A * nat)) :
  In z (map fst (fold_left (fun t x => tally_add x t) l t)) <-> In z (map fst t) \/ In z l.
Proof.
  revert t. induction l as [| x l IH]; intros t; simpl; [tauto |].
  rewrite IH, tally_add_keys. intuition.
Qed.

Lemma tally_from_nodup (l : list A) (t : list (A * nat)) :
  NoDup (map fst t) -> NoDup (map fst (fold_left (fun t x => tally_add x t) l t)).
Proof.
  revert t. induction l as [| x l IH]; intros t Hnd; simpl; auto using tally_add_nodup.
Qed.

Lemma tally_keys (z : A) (l : list A) : In z (map fst (tally l)) <-> In z l.
Proof. unfold tally. rewrite tally_from_keys. simpl. tauto. Qed.

Lemma tally_nodup (l : list A) : NoDup (map fst (tally l)).
Proof. apply tally_from_nodup. constructor. Qed.

Lemma tally_get_In (z : A) (n : nat) (t : list (A * nat)) :
  NoDup (map fst t) -> In (z, n) t -> tally_get z t = n.
Proof.
  induction t as [| [y m] t IH]; simpl; [tauto |]. intros Hnd [Heq | Hin].
  - injection Heq as -> ->. rewrite py_eqb_refl. reflexivity.
  - inversion Hnd as [| ? ? Hy Hnd']; subst.
    destruct (py_eqb z y) eqn:Ezy; auto.
    apply py_eqb_spec in Ezy. subst y. exfalso. apply Hy.
    apply in_map_iff. exists (z, n). auto.
Qed.

(** An entry of the tally of [l] is a value of [l] with its count. *)
Lemma tally_In (z : A) (n : nat) (l : list A) :
  In (z, n) (tally l) <-> In z l /\ n = py_count z l.
Proof.
  split.
  - intros Hin. split.
    + apply tally_keys. apply in_map_iff. exists (z, n). auto.
    + rewrite <- tally_get_count. symmetry. apply tally_get_In; auto using tally_nodup.
  - intros [Hz ->]. apply tally_keys, in_map_iff in Hz as [[z' m] [Heq Hin]].
    simpl in Heq. subst z'. rewrite <- tally_get_count.
    rewrite (tally_get_In z m); auto using tally_nodup.
Qed.

(** ** The largest count *)

Lemma max_count_ge (t : list (A * nat)) (p : A * nat) : In p t -> snd p <= max_count t.
Proof.
  induction t as [| q t IH]; simpl; [tauto |]. intros [-> | Hin]; [lia |].
  specialize (IH Hin). lia.
Qed.

Lemma max_count_attained (t : list (A * nat)) :
  t <> [] -> exists p, In p t /\ snd p = max_count t.
Proof.
  induction t as [| q t IH]; intros Hne; [congruence |]. simpl.
  destruct t as [| q' t'].
  - exists q. simpl. split; [auto | lia].
  - destruct (IH ltac:(discriminate)) as [p [Hp Hm]].
    destruct (Nat.le_ge_cases (snd q) (max_count (q' :: t'))).
    + exists p. split; [right; exact Hp | lia].
    + exists q. split; [left; reflexivity | lia].
Qed.

(** Every value of [vs] is counted at most [max_count (tally vs)] times. *)
Lemma count_le_max (vs : list A) (y : A) : py_count y vs <= max_count (tally vs).
Proof.
  destruct (in_dec_py y vs) as [Hin | Hnin].
  - apply (max_count_ge _ (y, py_count y vs)). apply tally_In. auto.
  - rewrite py_count_not_In by exact Hnin. lia.
Qed.

(** ** Sorting *)

Definition leR (x y : A) : Prop := py_leb x y = true.

Lemma leR_trans : Transitive leR.
Proof. intros x y z. apply py_leb_trans. Qed.

Lemma leb_antisym (x y : A) : py_leb x y = true -> py_leb y x = true -> x = y.
Proof.
  intros Hxy Hyx. unfold py_leb in *. apply orb_true_iff in Hxy as [Hxy | Hxy].
  - rewrite (py_ltb_asym _ _ Hxy) in Hyx. simpl in Hyx. apply py_eqb_spec in Hyx. auto.
  - apply py_eqb_spec in Hxy. exact Hxy.
Qed.

Lemma insert_sorted_perm (x : A) (l : list A) : Permutation (insert_sorted x l) (x :: l).
Proof.
  induction l as [| y l IH]; simpl; auto.
  destruct (py_ltb y x); auto.
  rewrite IH. apply perm_swap.
Qed.

Lemma sort_values_perm (l : list A) : Permutation (sort_values l) l.
Proof.
  induction l as [| x l IH]; simpl; auto.
  rewrite insert_sorted_perm, IH. reflexivity.
Qed.

Lemma insert_sorted_hd (x z : A) (l : list A) :
  HdRel leR z l -> leR z x -> HdRel leR z (insert_sorted x l).
Proof.
  destruct l as [| y l]; simpl; intros Hz Hzx; [auto |].
  destruct (py_ltb y x); constructor; auto. inversion Hz; auto.
Qed.

Lemma insert_sorted_sorted (x : A) (l : list A) : Sorted leR l -> Sorted leR (insert_sorted x l).
Proof.
  induction l as [| y l IH]; simpl; intros Hs; [auto |].
  inversion Hs as [| ? ? Hl Hhd]; subst.
  destruct (py_ltb y x) eqn:Eyx; constructor; auto.
  - apply insert_sorted_hd; [exact Hhd |]. unfold leR, py_leb. rewrite Eyx. reflexivity.
  - constructor. apply py_ltb_false_leb. exact Eyx.
Qed.

Lemma sort_values_sorted (l : list A) : Sorted leR (sort_values l).
Proof. induction l as [| x l IH]; simpl; auto using insert_sorted_sorted. Qed.

(** The first of the sorted values is the smallest. *)
Lemma sort_values_head (l : list A) (x : A) (r : list A) :
  sort_values l = x :: r -> In x l /\ forall z, In z l -> py_leb x z = true.
Proof.
  intros Hs. pose proof (sort_values_perm l) as Hp. rewrite Hs in Hp. split.
  - apply (Permutation_in x Hp). left. reflexivity.
  - intros z Hz. apply (Permutation_in z (Permutation_sym Hp)) in Hz.
    destruct Hz as [<- | Hz].
    + unfold py_leb. rewrite py_eqb_refl, orb_true_r. reflexivity.
    + pose proof (sort_values_sorted l) as Hsort. rewrite Hs in Hsort.
      apply Sorted_extends in Hsort; [| exact leR_trans].
      rewrite Forall_forall in Hsort. exact (Hsort z Hz).
Qed.

Lemma sort_values_nil (l : list A) : sort_values l = [] -> l = [].
Proof.
  intros Hs. pose proof (sort_values_perm l) as Hp. rewrite Hs in Hp.
  apply Permutation_nil. exact Hp.
Qed.

(** ** The mode *)

Lemma mode_In (col : list (option A)) (z : A) :
  In z (mode col) <->
  In z (dropna col) /\ py_count z (dropna col) = max_count (tally (dropna col)).
Proof.
  unfold mode. split.
  - intros Hz. apply (Permutation_in z (sort_values_perm _)) in Hz.
    apply in_map_iff in Hz as [[z' n] [Heq Hin]]. simpl in Heq. subst z'.
    apply filter_In in Hin as [Hin Hn]. apply tally_In in Hin as [Hz ->].
    apply Nat.eqb_eq in Hn. auto.
  - intros [Hz Hc]. apply (Permutation_in z (Permutation_sym (sort_values_perm _))).
    apply in_map_iff. exists (z, py_count z (dropna col)). split; [reflexivity |].
    apply filter_In. split; [apply tally_In; auto | apply Nat.eqb_eq; exact Hc].
Qed.

Lemma is_mode_unique (vs : list A) (x y : A) : is_mode vs x -> is_mode vs y -> x = y.
Proof.
  intros (_ & Hxmax & Hxmin) (_ & Hymax & Hymin).
  assert (Hc : py_count x vs = py_count y vs) by (specialize (Hxmax y); specialize (Hymax x); lia).
  apply leb_antisym; [apply Hxmin | apply Hymin]; congruence.
Qed.

(** The head of [mode()] is a mode in the sense of the specification. *)
Lemma mode_head_is_mode (col : list (option A)) (x : A) (r : list A) :
  mode col = x :: r -> is_mode (dropna col) x.
Proof.
  intros Hm. pose proof Hm as Hm'. unfold mode in Hm'.
  apply sort_values_head in Hm' as [Hin Hmin].
  assert (Hx : In x (mode col)) by (rewrite Hm; left; reflexivity).
  apply mode_In in Hx as [Hx Hcx]. split; [exact Hx |]. split.
  - intros y. rewrite Hcx. apply count_le_max.
  - intros y Hy. apply Hmin.
    assert (Hy' : In y (mode col)).
    { apply mode_In. split; [| congruence].
      apply py_count_pos_In. rewrite Hy. apply py_count_pos_In. exact Hx. }
    unfold mode in Hy'. apply (Permutation_in y (sort_values_perm _)) in Hy'. exact Hy'.
Qed.

Lemma mode_nil_iff (col : list (option A)) : mode col = [] <-> dropna col = [].
Proof.
  split.
  - intros Hm. destruct (dropna col) as [| v vs] eqn:Hd; [reflexivity | exfalso].
    destruct (max_count_attained (tally (dropna col))) as [[z n] [Hin Hn]].
    { rewrite Hd. intros Ht. pose proof (proj2 (tally_keys v (v :: vs)) (or_introl eq_refl)) as Hv.
      rewrite Ht in Hv. destruct Hv. }
    apply tally_In in Hin as [Hz ->]. cbn [snd] in Hn.
    assert (Hz' : In z (mode col)) by (apply mode_In; auto).
    rewrite Hm in Hz'. destruct Hz'.
  - intros Hd. unfold mode. rewrite Hd. reflexivity.
Qed.

(** ** Properties of [mode()[0]] *)

(** C1: [Series.mode()[0]] returns exactly the most frequent
    non-missing value of the column, the smallest one in Python's order
    when several are equally frequent (the tie-break the spec asks to
    document). *)
Theorem mode0_spec (col : list (option A)) (x : A) :
  mode0 col = Ok x <-> is_mode (dropna col) x.
Proof.
  unfold mode0. split.
  - destruct (mode col) as [| h r] eqn:Hm; [discriminate |]. intros [= <-].
    exact (mode_head_is_mode col h r Hm).
  - intros Hx. destruct (mode col) as [| h r] eqn:Hm.
    + apply mode_nil_iff in Hm. destruct Hx as [Hin _]. rewrite Hm in Hin. destruct Hin.
    + f_equal. apply (is_mode_unique (dropna col)); [| exact Hx].
      exact (mode_head_is_mode col h r Hm).
Qed.

(** C29: [Series.mode()[0]] raises, and raises [KeyError], exactly when
    the column has no non-missing value: an empty frame, or a column of
    NaN only. *)
Theorem mode0_error (col : list (option A)) (e : py_exc) :
  mode0 col = Err e <-> e = KeyError /\ dropna col = [].
Proof.
  unfold mode0. rewrite <- mode_nil_iff. destruct (mode col); split; try discriminate.
  - intros [= <-]. auto.
  - intros [-> _]. reflexivity.
  - intros [_ Hm]. discriminate.
Qed.

(** ** [value_counts()] *)

Lemma insert_desc_perm (p : A * nat) (l : list (A * nat)) : Permutation (insert_desc p l) (p :: l).
Proof.
  induction l as [| q l IH]; simpl; auto.
  destruct (Nat.leb (snd q) (snd p)); auto.
  rewrite IH. apply perm_swap.
Qed.

Lemma value_counts_perm (col : list (option A)) :
  Permutation (value_counts col) (tally (dropna col)).
Proof.
  unfold value_counts. induction (tally (dropna col)) as [| p t IH]; simpl; auto.
  rewrite insert_desc_perm, IH. reflexivity.
Qed.

Lemma value_counts_In (col : list (option A)) (v : A) (n : nat) :
  In (v, n) (value_counts col) <-> In v (dropna col) /\ n = py_count v (dropna col).
Proof.
  pose proof (value_counts_perm col) as Hp. rewrite <- tally_In.
  split; apply Permutation_in; auto using Permutation_sym.
Qed.

Lemma value_counts_nodup (col : list (option A)) : NoDup (map fst (value_counts col)).
Proof.
  apply (Permutation_NoDup (Permutation_map fst (Permutation_sym (value_counts_perm col)))).
  apply tally_nodup.
Qed.

(** A non-empty column has a mode in the sense of the specification. *)
Lemma mode0_Ok_is_mode (col : list (option A)) :
  dropna col <> [] -> exists x, mode0 col = Ok x /\ is_mode (dropna col) x.
Proof.
  intros Hne. unfold mode0. destruct (mode col) as [| x r] eqn:Hm.
  - apply mode_nil_iff in Hm. contradiction.
  - exists x. split; [reflexivity | exact (mode_head_is_mode col x r Hm)].
Qed.

Lemma mode0_Err_KeyError (col : list (option A)) (e : py_exc) : mode0 col = Err e -> e = KeyError.
Proof. unfold mode0. destruct (mode col); [congruence | discriminate]. Qed.

Lemma mode0_Ok_nonempty (col : list (option A)) (x : A) : mode0 col = Ok x -> dropna col <> [].
Proof.
  unfold mode0. intros Hm He. apply mode_nil_iff in He. rewrite He in Hm. discriminate.
Qed.

Lemma mode0_Err_empty (col : list (option A)) (e : py_exc) : mode0 col = Err e -> dropna col = [].
Proof.
  unfold mode0. destruct (mode col) eqn:Hm; [| discriminate]. intros _. apply mode_nil_iff, Hm.
Qed.

(** A column holding one value, and at least once, has that value as
    its mode. *)
Lemma mode0_const (col : list (option A)) (a : A) :
  col <> [] -> (forall o, In o col -> o = Some a) -> mode0 col = Ok a.
Proof.
  intros Hne Hall.
  assert (Hd : dropna col <> []).
  { destruct col as [| o col]; [congruence |]. rewrite (Hall o (or_introl eq_refl)). discriminate. }
  destruct (mode0_Ok_is_mode col Hd) as [x [Hx [Hin _]]]. rewrite Hx. f_equal.
  clear Hx Hne Hd. induction col as [| o col IH]; simpl in Hin; [destruct Hin |].
  rewrite (Hall o (or_introl eq_refl)) in Hin. destruct Hin as [<- | Hin]; [reflexivity |].
  apply IH; auto. intros o' Ho'. apply Hall. right. exact Ho'.
Qed.

Lemma dropna_map_Some {B : Type} (f : B -> A) (l : list B) : dropna (map (fun b => Some (f b)) l) = map f l.
Proof. induction l as [| b l IH]; simpl; rewrite ?IH; reflexivity. Qed.

End Reductions.

(** ** Numeric reductions *)

(** [Series.sum()]: missing values skipped, 0 for none. *)
Definition col_sum (col : list (option Q)) : Q := fold_right Qplus 0%Q (dropna col).

(** [Series.mean()]: NaN ([None]) when there is no value. *)
Definition col_mean (col : list (option Q)) : option Q :=
  match dropna col with
  | [] => None
  | vs => Some (fold_right Qplus 0%Q vs / inject_Z (Z.of_nat (length vs)))%Q
  end.

(** [Series.min()] and [Series.max()]: NaN ([None]) when there is no
    value. *)
Definition col_min (col : list (option Z)) : option Z :=
  match dropna col with
  | [] => None
  | v :: vs => Some (fold_left Z.min vs v)
  end.

Definition col_max (col : list (option Z)) : option Z :=
  match dropna col with
  | [] => None
  | v :: vs => Some (fold_left Z.max vs v)
  end.

Lemma fold_min_spec (vs : list Z) (v : Z) :
  (In (fold_left Z.min vs v) (v :: vs)) /\ forall w, In w (v :: vs) -> (fold_left Z.min vs v <= w)%Z.
Proof.
  revert v. induction vs as [| u vs IH]; intros v; simpl.
  - split; [auto | intros w [<- | []]; lia].
  - destruct (IH (Z.min v u)) as [Hin Hle]. split.
    + simpl in Hin |- *. set (r := fold_left _ vs _) in *. destruct Hin as [Hm | Hin]; [| tauto].
      destruct (Z.min_spec v u) as [[_ Hmin] | [_ Hmin]]; rewrite Hmin in Hm; tauto.
    + intros w Hw. destruct Hw as [Hw | [Hw | Hw]]; [subst w .. | apply Hle; right; exact Hw];
        specialize (Hle (Z.min v u) (or_introl eq_refl)); lia.
Qed.

Lemma fold_max_spec (vs : list Z) (v : Z) :
  (In (fold_left Z.max vs v) (v :: vs)) /\ forall w, In w (v :: vs) -> (w <= fold_left Z.max vs v)%Z.
Proof.
  revert v. induction vs as [| u vs IH]; intros v; simpl.
  - split; [auto | intros w [<- | []]; lia].
  - destruct (IH (Z.max v u)) as [Hin Hle]. split.
    + simpl in Hin |- *. set (r := fold_left _ vs _) in *. destruct Hin as [Hm | Hin]; [| tauto].
      destruct (Z.max_spec v u) as [[_ Hmax] | [_ Hmax]]; rewrite Hmax in Hm; tauto.
    + intros w Hw. destruct Hw as [Hw | [Hw | Hw]]; [subst w .. | apply Hle; right; exact Hw];
        specialize (Hle (Z.max v u) (or_introl eq_refl)); lia.
Qed.

(** A column with a value has a minimum and a maximum among its values. *)
Lemma col_min_exists (col : list (option Z)) :
  dropna col <> [] ->
  exists lo, col_min col = Some lo /\ In lo (dropna col) /\ forall v, In v (dropna col) -> (lo <= v)%Z.
Proof.
  unfold col_min. destruct (dropna col) as [| v vs]; [congruence |]. intros _.
  eexists. split; [reflexivity | apply fold_min_spec].
Qed.

Lemma col_max_exists (col : list (option Z)) :
  dropna col <> [] ->
  exists hi, col_max col = Some hi /\ In hi (dropna col) /\ forall v, In v (dropna col) -> (v <= hi)%Z.
Proof.
  unfold col_max. destruct (dropna col) as [| v vs]; [congruence |]. intros _.
  eexists. split; [reflexivity | apply fold_max_spec].
Qed.

(** C39: [min()] and [max()] of a column are values of the column
    bounding all its non-missing values, and are NaN exactly when the
    column has none. *)
Theorem col_min_max_spec (col : list (option Z)) :
  (col_min col = None <-> dropna col = []) /\ (col_max col = None <-> dropna col = []) /\
  (forall m, col_min col = Some m -> In m (dropna col) /\ forall v, In v (dropna col) -> (m <= v)%Z) /\
  (forall m, col_max col = Some m -> In m (dropna col) /\ forall v, In v (dropna col) -> (v <= m)%Z).
Proof.
  unfold col_min, col_max. destruct (dropna col) as [| v vs].
  - repeat split; intros; try discriminate; auto.
  - split; [split; discriminate |]. split; [split; discriminate |].
    split; intros m [= <-]; [apply fold_min_spec | apply fold_max_spec].
Qed.

(** [mean() * count] is [sum()] when there is a value. *)
Lemma col_mean_sum (col : list (option Q)) (m : Q) :
  col_mean col = Some m ->
  (m * inject_Z (Z.of_nat (length (dropna col))) == col_sum col)%Q.
Proof.
  unfold col_mean, col_sum. destruct (dropna col) as [| v vs]; [discriminate |].
  remember (inject_Z (Z.of_nat (length (v :: vs)))) as d eqn:Hd.
  intros [= <-]. cbn [fold_right]. field. subst d. unfold Qeq. simpl. lia.
Qed.

(** The example of the spec: start hours [3, 3, 5, 5] have mode 3. *)
Lemma mode0_spec_witness :
  mode0 [Some 3%Z; Some 3%Z; Some 5%Z; Some 5%Z] = Ok 3%Z /\
  is_mode (dropna [Some 3%Z; Some 3%Z; Some 5%Z; Some 5%Z]) 3%Z.
Proof.
  assert (E : mode0 [Some 3%Z; Some 3%Z; Some 5%Z; Some 5%Z] = Ok 3%Z) by reflexivity.
  split; [exact E | apply (proj1 (mode0_spec _ _) E)].
Defined.

End Aggregate.
