(* ===== verification/ValueCounts.v ===== *)
(** * ValueCounts: the order of [Series.value_counts()]

    [user_stats] (src/bikeshare_2.py, lines 190 and 198) prints
    [df['User Type'].value_counts()] and [df['Gender'].value_counts()].
    [Aggregate.value_counts] builds the frequency tally of the column in
    one pass (first-seen order) and sorts it by decreasing count with a
    stable insertion.  This file proves the order the spec states: by
    decreasing count, and among equal counts by first appearance in the
    column.  It then shows that this order, together with "each distinct
    value once, with its count", determines the printed series: the model
    is the only list meeting that declarative specification. *)

From Stdlib Require Import Arith List Lia Bool Sorted Permutation.
From S2P Require Import Prelude Aggregate.
Import ListNotations Aggregate.
Local Open Scope nat_scope.

Module ValueCounts.

Section Order.
Context {A : Type} `{PyOrd A}.

(** ** The declarative specification *)

(** The position of the first occurrence of [x] in [vs]
    ([vs.index(x)]); the length of [vs] for a value it does not hold. *)
Definition first_pos (vs : list A) (x : A) : nat :=
  match py_index x vs with
  | Some i => i
  | None => length vs
  end.

(** [p] is printed before [q]: a larger count, or the same count and
    an earlier first occurrence. *)
Definition vc_before (vs : list A) (p q : A * nat) : Prop :=
  snd q < snd p \/ (snd q = snd p /\ first_pos vs (fst p) < first_pos vs (fst q)).

(** What [value_counts()] of the values [vs] prints, as a property of a
    list of (value, count) pairs. *)
Definition vc_spec (vs : list A) (l : list (A * nat)) : Prop :=
  NoDup (map fst l) /\
  (forall v n, In (v, n) l <-> In v vs /\ n = py_count v vs) /\
  StronglySorted (vc_before vs) l.

(** ** The tally lists its keys in first-seen order *)

Lemma tally_add_fst (x : A) (t : list (A * nat)) :
  map fst (tally_add x t) = if py_in x (map fst t) then map fst t else map fst t ++ [x].
Proof.
  induction t as [| [y n] t IH]; [reflexivity |]. cbn [tally_add map fst py_in existsb].
  destruct (py_eqb x y) eqn:E; [reflexivity |].
  cbn [map fst orb]. rewrite IH. unfold py_in. destruct (existsb (py_eqb x) (map fst t)); reflexivity.
Qed.

Lemma tally_app_last (l : list A) (x : A) : tally (l ++ [x]) = tally_add x (tally l).
Proof. unfold tally. rewrite fold_left_app. reflexivity. Qed.

Lemma first_pos_prefix (p s : list A) (k : A) :
  In k p -> first_pos (p ++ s) k < length p.
Proof.
  intros Hk. unfold first_pos. rewrite py_index_app_In by exact Hk.
  destruct (py_index k p) as [i |] eqn:Ei; [exact (py_index_lt _ _ _ Ei) |].
  apply py_index_None in Ei. contradiction.
Qed.

Lemma first_pos_new (p s : list A) (x : A) : ~ In x p -> first_pos (p ++ x :: s) x = length p.
Proof. intros Hx. unfold first_pos. rewrite py_index_app_notIn by exact Hx. reflexivity. Qed.

(** The keys of the tally of a prefix [p] of a list appear in the order
    of their first occurrence in the whole list. *)
Lemma tally_keys_first_seen (p s : list A) :
  StronglySorted (fun a b => first_pos (p ++ s) a < first_pos (p ++ s) b) (map fst (tally p)).
Proof.
  revert s. induction p as [| x p IH] using rev_ind; intros s; [constructor |].
  rewrite tally_app_last, tally_add_fst, <- app_assoc. cbn [app].
  destruct (py_in x (map fst (tally p))) eqn:Ex; [apply IH |].
  assert (Hx : ~ In x p) by (rewrite <- tally_keys, <- py_in_In; congruence).
  apply StronglySorted_app_last; [apply IH |]. apply Forall_forall. intros k Hk.
  rewrite tally_keys in Hk. rewrite first_pos_new by exact Hx. apply first_pos_prefix, Hk.
Qed.

(** ** The stable insertion *)

Lemma vc_before_count (vs : list A) (p q : A * nat) : vc_before vs p q -> snd q <= snd p.
Proof. unfold vc_before. lia. Qed.

Lemma vc_before_asym (vs : list A) (p q : A * nat) : vc_before vs p q -> vc_before vs q p -> False.
Proof. unfold vc_before. lia. Qed.

(** Inserting a pair whose first occurrence is earlier than those of
    every pair of equal count keeps the order. *)
Lemma insert_desc_stable (vs : list A) (p : A * nat) (l : list (A * nat)) :
  StronglySorted (vc_before vs) l ->
  (forall q, In q l -> snd q = snd p -> first_pos vs (fst p) < first_pos vs (fst q)) ->
  StronglySorted (vc_before vs) (insert_desc p l).
Proof.
  induction l as [| q l IH]; intros Hs Hp; [repeat constructor |]. cbn [insert_desc].
  apply StronglySorted_inv in Hs as [Hs Hq]. rewrite Forall_forall in Hq.
  destruct (Nat.leb (snd q) (snd p)) eqn:E; [apply Nat.leb_le in E | apply Nat.leb_gt in E].
  - constructor; [constructor; [exact Hs | apply Forall_forall, Hq] |].
    apply Forall_forall. intros r Hr.
    assert (Hrq : snd r <= snd q) by (destruct Hr as [<- | Hr]; [lia | exact (vc_before_count _ _ _ (Hq r Hr))]).
    unfold vc_before. destruct (Nat.eq_dec (snd r) (snd p)) as [Heq | Hne]; [| lia].
    right. split; [exact Heq | apply Hp; [exact Hr | exact Heq]].
  - constructor; [apply IH; [exact Hs | intros r Hr; apply Hp; right; exact Hr] |].
    apply Forall_forall. intros r Hr. apply (Permutation_in r (insert_desc_perm p l)) in Hr.
    destruct Hr as [<- | Hr]; [left; exact E | apply Hq, Hr].
Qed.

(** [value_counts()] is ordered by decreasing count, ties in the order
    of first appearance. *)
Lemma value_counts_stable (col : list (option A)) :
  StronglySorted (vc_before (dropna col)) (value_counts col).
Proof.
  pose proof (StronglySorted_map_inv _ fst _ (tally_keys_first_seen (dropna col) [])) as Hk.
  rewrite app_nil_r in Hk. unfold value_counts. revert Hk.
  induction (tally (dropna col)) as [| p t IH]; intros Hk; cbn [fold_right]; [constructor |].
  apply StronglySorted_inv in Hk as [Hk Hp]. rewrite Forall_forall in Hp.
  apply insert_desc_stable; [apply IH, Hk |]. intros q Hq _. apply Hp.
  revert Hq. apply Permutation_in. clear. induction t as [| r t IH]; cbn [fold_right]; [reflexivity |].
  rewrite insert_desc_perm, IH. reflexivity.
Qed.

(** ** The specification determines the series *)

(** C20: [value_counts()] is exactly the list the spec describes: a list
    of (value, count) pairs meets "each distinct non-missing value once
    with its number of occurrences, by decreasing count, equal counts in
    the order of first appearance" if and only if it is the series
    [value_counts()] returns. *)
Theorem value_counts_unique (col : list (option A)) (l : list (A * nat)) :
  vc_spec (dropna col) l <-> l = value_counts col.
Proof.
  split.
  - intros (Hnd & Hin & Hs). apply (StronglySorted_perm_eq _ _ _ (vc_before_asym (dropna col)));
      [exact Hs | apply value_counts_stable |].
    apply NoDup_Permutation; [exact (NoDup_map_inv _ _ Hnd) | exact (NoDup_map_inv _ _ (value_counts_nodup col)) |].
    intros [v n]. rewrite Hin, value_counts_In. reflexivity.
  - intros ->. split; [apply value_counts_nodup | split; [apply value_counts_In | apply value_counts_stable]].
Qed.

End Order.

End ValueCounts.
