(* ===== verification/PyIO.v ===== *)
(** * PyIO: the effects of the script as a state and exception monad

    The statistics and the shell of src/bikeshare_2.py print to standard
    output, read lines with [input()] and can raise.  A computation of
    [IO A] runs on a [world]: the input lines still to be read and the
    trace of what was written so far.  It ends with a value, a Python
    exception, or [OutOfFuel] when a loop model runs out of its fuel
    (the [Shell] theorems show the fuel they use is enough).

    The output events keep the values the script prints: constant text,
    a labelled value, a duration breakdown, a [value_counts()] series, a
    page of rows, the prompt [input()] writes, and the elapsed-time line
    (whose number is not modelled). *)

From Stdlib Require Import String ZArith List Lia.
From S2P Require Import Prelude TimeFormat Frame.
Import ListNotations.

Module PyIO.

(** A printed value: an integer, a string, or NaN. *)
Inductive value :=
  | VInt (z : Z)
  | VStr (s : string)
  | VNaN.

Inductive event :=
  | Out (s : string)
  | OutValue (label : string) (v : value)
  | OutDuration (label : string) (b : TimeFormat.breakdown)
  | OutCounts (c : list (string * nat))
  | OutRows (rs : list Frame.row)
  | OutPrompt (prompt : string)
  | OutElapsed.

Record world := mk_world {
  inputs : list string;
  trace : list event
}.

Inductive outcome (A : Type) :=
  | Ret (a : A)
  | Raise (e : py_exc)
  | OutOfFuel.
Arguments Ret {A} a.
Arguments Raise {A} e.
Arguments OutOfFuel {A}.

Definition IO (A : Type) : Type := world -> outcome A * world.

Definition ret {A : Type} (a : A) : IO A := fun w => (Ret a, w).

Definition bind {A B : Type} (m : IO A) (k : A -> IO B) : IO B :=
  fun w =>
    match m w with
    | (Ret a, w') => k a w'
    | (Raise e, w') => (Raise e, w')
    | (OutOfFuel, w') => (OutOfFuel, w')
    end.

Definition raise {A : Type} (e : py_exc) : IO A := fun w => (Raise e, w).

Definition out_of_fuel {A : Type} : IO A := fun w => (OutOfFuel, w).

(** [print(...)]: one event at the end of the trace. *)
Definition emit (e : event) : IO unit :=
  fun w => (Ret tt, mk_world (inputs w) (trace w ++ [e])).

(** [input(prompt)]: writes the prompt, then reads a line; [EOFError]
    when there is none. *)
Definition input (prompt : string) : IO string :=
  fun w =>
    let w1 := mk_world (inputs w) (trace w ++ [OutPrompt prompt]) in
    match inputs w with
    | [] => (Raise EOFError, w1)
    | l :: ls => (Ret l, mk_world ls (trace w1))
    end.

(** A fallible pure computation inside [IO]. *)
Definition lift {A : Type} (r : result A) : IO A :=
  match r with
  | Ok a => ret a
  | Err e => raise e
  end.

Declare Scope io_scope.
Delimit Scope io_scope with io.
Notation "x <- m ;; k" := (bind m (fun x => k))
  (at level 61, m at next level, right associativity) : io_scope.
Notation "m ;; k" := (bind m (fun _ => k))
  (at level 61, right associativity) : io_scope.

(** [print('-'*40)]. *)
Definition separator : string := String.concat "" (repeat "-"%string 40).

(** ** Lemmas *)

Lemma bind_ret_l {A B : Type} (a : A) (k : A -> IO B) (w : world) :
  bind (ret a) k w = k a w.
Proof. reflexivity. Qed.

Lemma bind_ret_r {A : Type} (m : IO A) (w : world) : bind m ret w = m w.
Proof. unfold bind, ret. destruct (m w) as [[a | e |] w']; reflexivity. Qed.

Lemma bind_assoc {A B C : Type} (m : IO A) (k : A -> IO B) (h : B -> IO C) (w : world) :
  bind (bind m k) h w = bind m (fun a => bind (k a) h) w.
Proof. unfold bind. destruct (m w) as [[a | e |] w']; reflexivity. Qed.

Lemma bind_run {A B : Type} (m : IO A) (k : A -> IO B) (w : world) (a : A) (w' : world) :
  m w = (Ret a, w') -> bind m k w = k a w'.
Proof. intros Hm. unfold bind. rewrite Hm. reflexivity. Qed.

Lemma bind_raise {A B : Type} (m : IO A) (k : A -> IO B) (w : world) (e : py_exc) (w' : world) :
  m w = (Raise e, w') -> bind m k w = (Raise e, w').
Proof. intros Hm. unfold bind. rewrite Hm. reflexivity. Qed.

Lemma emit_run (e : event) (w : world) :
  emit e w = (Ret tt, mk_world (inputs w) (trace w ++ [e])).
Proof. reflexivity. Qed.

Lemma lift_Ok {A : Type} (a : A) (w : world) : lift (Ok a) w = (Ret a, w).
Proof. reflexivity. Qed.

Lemma lift_Err {A : Type} (e : py_exc) (w : world) : lift (A := A) (Err e) w = (Raise e, w).
Proof. reflexivity. Qed.

Lemma bind_no_fuel {A B : Type} (m : IO A) (k : A -> IO B) (w : world) :
  fst (m w) <> OutOfFuel ->
  (forall a w', m w = (Ret a, w') -> fst (k a w') <> OutOfFuel) ->
  fst (bind m k w) <> OutOfFuel.
Proof.
  intros Hm Hk. unfold bind. destruct (m w) as [[a | e |] w'] eqn:E; simpl; auto; discriminate.
Qed.

(** ** Computations that read no input and have no loop *)

Definition keeps_inputs {A : Type} (m : IO A) : Prop :=
  forall w, inputs (snd (m w)) = inputs w /\ fst (m w) <> OutOfFuel.

Lemma keeps_inputs_ret {A : Type} (a : A) : keeps_inputs (ret a).
Proof. intros w. split; [reflexivity | discriminate]. Qed.

Lemma keeps_inputs_emit (e : event) : keeps_inputs (emit e).
Proof. intros w. split; [reflexivity | discriminate]. Qed.

Lemma keeps_inputs_lift {A : Type} (r : result A) : keeps_inputs (lift r).
Proof. intros w. destruct r; split; try reflexivity; discriminate. Qed.

Lemma keeps_inputs_bind {A B : Type} (m : IO A) (k : A -> IO B) :
  keeps_inputs m -> (forall a, keeps_inputs (k a)) -> keeps_inputs (bind m k).
Proof.
  intros Hm Hk w. unfold bind. specialize (Hm w).
  destruct (m w) as [[a | e |] w']; simpl in *; destruct Hm as [Hi Hf]; [| | congruence].
  - destruct (Hk a w') as [Hi' Hf']. rewrite Hi'. auto.
  - split; [exact Hi | discriminate].
Qed.

(** Running a computation that reads no input, then a continuation. *)
Lemma keeps_inputs_bind_no_fuel {A B : Type} (m : IO A) (k : A -> IO B) (w : world) :
  keeps_inputs m ->
  (forall a w', inputs w' = inputs w -> fst (k a w') <> OutOfFuel) ->
  fst (bind m k w) <> OutOfFuel.
Proof.
  intros Hm Hk. apply bind_no_fuel; [apply Hm |]. intros a w' E.
  apply Hk. destruct (Hm w) as [Hi _]. rewrite E in Hi. exact Hi.
Qed.

Ltac solve_keeps_inputs :=
  repeat first
    [ apply keeps_inputs_bind; intros
    | apply keeps_inputs_emit
    | apply keeps_inputs_lift
    | apply keeps_inputs_ret
    | match goal with |- keeps_inputs (if ?b then _ else _) => destruct b end
    | match goal with |- keeps_inputs (let '(_, _) := ?p in _) => destruct p end ].


(** ** Where [EOFError] comes from *)

(** [m] raises [EOFError] only when it has read every input line: the
    exception comes from an [input()] at the end of the input, never
    from a library call. *)
Definition eof_at_end {A : Type} (m : IO A) : Prop :=
  forall w w', m w = (Raise EOFError, w') -> inputs w' = [].

Lemma eof_at_end_ret {A : Type} (a : A) : eof_at_end (ret a).
Proof. intros w w' H. discriminate. Qed.

Lemma eof_at_end_emit (e : event) : eof_at_end (emit e).
Proof. intros w w' H. discriminate. Qed.

Lemma eof_at_end_out_of_fuel {A : Type} : eof_at_end (A := A) out_of_fuel.
Proof. intros w w' H. discriminate. Qed.

Lemma eof_at_end_input (prompt : string) : eof_at_end (input prompt).
Proof.
  intros [ins tr] w' H. unfold input in H. cbn [inputs trace] in H.
  destruct ins; [injection H as <-; reflexivity | discriminate].
Qed.

Lemma eof_at_end_lift {A : Type} (r : result A) :
  (forall e, r = Err e -> e <> EOFError) -> eof_at_end (lift r).
Proof.
  intros Hr w w' H. destruct r as [a | e]; [discriminate |].
  injection H as He _. subst e. exfalso. exact (Hr EOFError eq_refl eq_refl).
Qed.

Lemma eof_at_end_bind {A B : Type} (m : IO A) (k : A -> IO B) :
  eof_at_end m -> (forall a, eof_at_end (k a)) -> eof_at_end (bind m k).
Proof.
  intros Hm Hk w w' H. unfold bind in H.
  destruct (m w) as [[a | e |] w1] eqn:E; [exact (Hk a w1 w' H) | | discriminate].
  injection H as -> <-. exact (Hm w w1 E).
Qed.

(** Decompose a computation into its steps; the side conditions left
    are that the [lift]ed results raise no [EOFError].  [tac] is tried
    first at each step, to use what is known of the called routines. *)
Ltac solve_eof_at_end_with tac :=
  repeat first
    [ tac
    | apply eof_at_end_bind; intros
    | apply eof_at_end_emit
    | apply eof_at_end_input
    | apply eof_at_end_ret
    | apply eof_at_end_out_of_fuel
    | apply eof_at_end_lift; intros ?e ?He
    | match goal with |- eof_at_end (if ?b then _ else _) => destruct b end
    | match goal with |- eof_at_end (let '(_, _) := ?p in _) => destruct p end ].

Ltac solve_eof_at_end := solve_eof_at_end_with fail.

(** ** Computations that only write *)

(** [m] reads no input and acts alike on every world: it appends [evs]
    to the trace and ends with [o].  The statistics routines are such
    computations: their output depends on the frame alone. *)
Definition writes {A : Type} (m : IO A) (o : outcome A) (evs : list event) : Prop :=
  forall w, m w = (o, mk_world (inputs w) (trace w ++ evs)).

Definition output_only {A : Type} (m : IO A) : Prop := exists o evs, writes m o evs.

(** What [m] does, read off a run on the empty world. *)
Definition report {A : Type} (m : IO A) : outcome A * list event :=
  (fst (m (mk_world [] [])), trace (snd (m (mk_world [] [])))).

Lemma writes_ret {A : Type} (a : A) : writes (ret a) (Ret a) [].
Proof. intros [ins tr]. unfold ret. rewrite app_nil_r. reflexivity. Qed.

Lemma writes_emit (e : event) : writes (emit e) (Ret tt) [e].
Proof. intros w. reflexivity. Qed.

Lemma writes_lift {A : Type} (r : result A) :
  writes (lift r) (match r with Ok a => Ret a | Err e => Raise e end) [].
Proof. intros [ins tr]. destruct r; cbn; rewrite app_nil_r; reflexivity. Qed.

Lemma writes_bind {A B : Type} (m : IO A) (k : A -> IO B) (o : outcome A) (evs : list event) :
  writes m o evs ->
  (forall a, o = Ret a -> output_only (k a)) ->
  output_only (bind m k).
Proof.
  intros Hm Hk. destruct o as [a | e |].
  - destruct (Hk a eq_refl) as (o' & evs' & Hk'). exists o', (evs ++ evs'). intros w.
    unfold bind. rewrite Hm, Hk'. cbn [inputs trace]. rewrite app_assoc. reflexivity.
  - exists (Raise e), evs. intros w. unfold bind. rewrite Hm. reflexivity.
  - exists OutOfFuel, evs. intros w. unfold bind. rewrite Hm. reflexivity.
Qed.

Lemma output_only_bind {A B : Type} (m : IO A) (k : A -> IO B) :
  output_only m -> (forall a, output_only (k a)) -> output_only (bind m k).
Proof. intros (o & evs & Hm) Hk. apply (writes_bind m k o evs Hm). intros a _. apply Hk. Qed.

Lemma output_only_report {A : Type} (m : IO A) :
  output_only m -> writes m (fst (report m)) (snd (report m)).
Proof.
  intros (o & evs & Hm). unfold report. rewrite (Hm (mk_world [] [])). cbn [fst snd trace]. exact Hm.
Qed.

(** Running a computation that only writes and returns normally, then
    a continuation. *)
Lemma bind_report_Ret {A B : Type} (m : IO A) (k : A -> IO B) (a : A) (w : world) :
  output_only m -> fst (report m) = Ret a ->
  bind m k w = k a (mk_world (inputs w) (trace w ++ snd (report m))).
Proof.
  intros Ho Hr. apply bind_run. rewrite (output_only_report m Ho w), Hr. reflexivity.
Qed.

Ltac solve_output_only :=
  repeat first
    [ apply output_only_bind; intros
    | exact (ex_intro _ _ (ex_intro _ _ (writes_emit _)))
    | exact (ex_intro _ _ (ex_intro _ _ (writes_lift _)))
    | exact (ex_intro _ _ (ex_intro _ _ (writes_ret _)))
    | match goal with |- output_only (if ?b then _ else _) => destruct b end
    | match goal with |- output_only (let '(_, _) := ?p in _) => destruct p end ].


(** ** Inversion of runs that end normally *)

Lemma bind_Ret_inv {A B : Type} (m : IO A) (k : A -> IO B) (w w' : world) (b : B) :
  bind m k w = (Ret b, w') -> exists a w1, m w = (Ret a, w1) /\ k a w1 = (Ret b, w').
Proof.
  unfold bind. destruct (m w) as [[a | e |] w1]; [| discriminate | discriminate].
  intros Hk. exists a, w1. auto.
Qed.

Lemma bind_output_only_inv {A B : Type} (m : IO A) (k : A -> IO B) (w w' : world) (b : B) :
  output_only m -> bind m k w = (Ret b, w') ->
  exists a, fst (report m) = Ret a /\ k a (mk_world (inputs w) (trace w ++ snd (report m))) = (Ret b, w').
Proof.
  intros Ho Hb. apply bind_Ret_inv in Hb as (a & w1 & Hm & Hk).
  rewrite (output_only_report m Ho w) in Hm. injection Hm as Ha Hw. exists a. subst w1. auto.
Qed.

Lemma bind_input_inv {B : Type} (prompt : string) (k : string -> IO B) (w w' : world) (b : B) :
  bind (input prompt) k w = (Ret b, w') ->
  exists l ls, inputs w = l :: ls /\ k l (mk_world ls (trace w ++ [OutPrompt prompt])) = (Ret b, w').
Proof.
  intros Hb. apply bind_Ret_inv in Hb as (a & w1 & Hm & Hk). unfold input in Hm.
  destruct (inputs w) as [| l ls] eqn:E; [discriminate |]. injection Hm as <- <-. exists l, ls. auto.
Qed.


(** Continuations that agree on every value and world give the same run. *)
Lemma bind_ext {A B : Type} (m : IO A) (k1 k2 : A -> IO B) (w : world) :
  (forall a w1, k1 a w1 = k2 a w1) -> bind m k1 w = bind m k2 w.
Proof. intros Hk. unfold bind. destruct (m w) as [[a | e |] w1]; auto. Qed.

Lemma bind_Raise_inv {A B : Type} (m : IO A) (k : A -> IO B) (w w' : world) (e : py_exc) :
  bind m k w = (Raise e, w') ->
  m w = (Raise e, w') \/ exists a w1, m w = (Ret a, w1) /\ k a w1 = (Raise e, w').
Proof.
  unfold bind. destruct (m w) as [[a | e' |] w1]; intros H.
  - right. exists a, w1. auto.
  - left. injection H as -> ->. reflexivity.
  - discriminate.
Qed.

(** Running a computation that only writes, then a continuation. *)
Lemma bind_report {A B : Type} (m : IO A) (k : A -> IO B) (w : world) :
  output_only m ->
  bind m k w =
    match fst (report m) with
    | Ret a => k a (mk_world (inputs w) (trace w ++ snd (report m)))
    | Raise e => (Raise e, mk_world (inputs w) (trace w ++ snd (report m)))
    | OutOfFuel => (OutOfFuel, mk_world (inputs w) (trace w ++ snd (report m)))
    end.
Proof. intros Ho. unfold bind. rewrite (output_only_report m Ho w). reflexivity. Qed.

End PyIO.
