(* ===== verification/Stats.v ===== *)
(** * Stats: the four statistics routines of the script

    [time_stats] (src/bikeshare_2.py, lines 97-116), [station_stats]
    (lines 118-145), [trip_duration_stats] (lines 147-165) and
    [user_stats] (lines 181-212), each a computation of the [PyIO]
    monad on the filtered frame.  Each prints a header, its values (or a
    "No data" notice for a column the schema lacks), the elapsed time
    and a separator.  The pandas calls are those of [Aggregate];
    [mode()[0]] raises [KeyError] and [round] of the NaN mean raises
    [ValueError].

    [time_stats] also adds a [Start Hour] column to the shared frame
    (line 112); no later code reads it, so the model computes the hours
    without storing them.

    The theorems: each routine's output on a frame where its reductions
    are defined; the tolerance of missing columns (a "No data" notice,
    never an error); the most popular values are modes in the sense of
    [Aggregate.is_mode]; the exceptions on an empty frame, which the
    spec says should be a "no data" report; and the (start, end) pair
    formation of [station_stats]. *)

From Stdlib Require Import String ZArith QArith List Lia Bool.
From S2P Require Import Prelude PyString TimeFormat Calendar Frame Aggregate PyIO.
Import ListNotations.
Import PyString TimeFormat Calendar Frame Aggregate PyIO.
Local Open Scope string_scope.
Local Open Scope io_scope.

Module Stats.

(** ** Columns *)

Definition month_col (df : frame) : list (option Z) := map (fun r => Some (month r)) (rows df).

Definition day_col (df : frame) : list (option string) := map (fun r => Some (day_of_week r)) (rows df).

(** [df['Start Time'].dt.hour] (line 112). *)
Definition hour_col (df : frame) : list (option Z) :=
  map (fun r => Some (ts_hour (start_time r))) (rows df).

(** [df['Start Station'] + ' / ' + df['End Station']] (line 141): NaN
    when either station is missing. *)
Definition trip_name (r : row) : option string :=
  match start_station r, end_station r with
  | Some a, Some b => Some (a ++ " / " ++ b)
  | _, _ => None
  end.

Definition trips_col (df : frame) : list (option string) := map trip_name (rows df).

(** ** Printed texts *)

Definition time_header : string := "
Calculating The Most Frequent Times of Travel...
".

Definition station_header : string := "
Calculating The Most Popular Stations and Trip...
".

Definition duration_header : string := "
Calculating Trip Duration...
".

Definition user_header : string := "
Calculating User Stats...
".

Definition no_data_start : string :=
  "No data for start station. Skipping calculation and display of statistics on start station.".

Definition no_data_end : string :=
  "No data for end station. Skipping calculation and display of statistics on end station.".

Definition no_data_duration : string :=
  "No data for trip duration. Skipping calculation and display of statistics on trip duration.".

Definition no_data_user_type : string :=
  "No data for user types. Skipping calculation and display of statistics on user types.".

Definition no_data_gender : string :=
  "No data for gender. Skipping calculation and display of statistics on gender.".

Definition no_data_birth : string :=
  "No data for birth year. Skipping calculation and display of statistics on birth year.".

(** ** The routines *)

(** [time_stats(df)] (lines 97-116). *)
Definition time_stats (df : frame) : IO unit :=
  emit (Out time_header) ;;
  m <- lift (mode0 (month_col df)) ;;
  emit (OutValue "Most Popular Month:" (VInt m)) ;;
  d <- lift (mode0 (day_col df)) ;;
  emit (OutValue "Most Popular Day of Week:" (VStr d)) ;;
  h <- lift (mode0 (hour_col df)) ;;
  emit (OutValue "Most Popular Start Hour:" (VInt h)) ;;
  emit OutElapsed ;;
  emit (Out separator).

(** [station_stats(df)] (lines 118-145). *)
Definition station_stats (df : frame) : IO unit :=
  emit (Out station_header) ;;
  let has_start := has_start_station (columns df) in
  let has_end := has_end_station (columns df) in
  (if has_start then
     s <- lift (mode0 (map start_station (rows df))) ;;
     emit (OutValue "Most Commonly Used Start Station:" (VStr s))
   else emit (Out no_data_start)) ;;
  (if has_end then
     s <- lift (mode0 (map end_station (rows df))) ;;
     emit (OutValue "Most Commonly Used End Station:" (VStr s))
   else emit (Out no_data_end)) ;;
  (if has_start && has_end then
     t <- lift (mode0 (trips_col df)) ;;
     emit (OutValue "Most Frequent Combination of Start Station and End Station Trip:" (VStr t))
   else ret tt) ;;
  emit OutElapsed ;;
  emit (Out separator).

(** [trip_duration_stats(df)] (lines 147-165): the total goes through
    [format_time] as the column's sum, the mean through [round] (which
    raises [ValueError] on the NaN mean of an empty column) and then
    [format_time] of the integer. *)
Definition trip_duration_stats (df : frame) : IO unit :=
  emit (Out duration_header) ;;
  (if has_trip_duration (columns df) then
     let durations := map trip_duration (rows df) in
     emit (OutDuration "Total travel time" (format_time (col_sum durations))) ;;
     mean <- lift (of_option ValueError (col_mean durations)) ;;
     emit (OutDuration "Mean travel time" (format_time_int (py_round mean)))
   else emit (Out no_data_duration)) ;;
  emit OutElapsed ;;
  emit (Out separator).

(** A NaN-able integer as [print] shows it. *)
Definition value_of_option (o : option Z) : value :=
  match o with
  | Some z => VInt z
  | None => VNaN
  end.

(** [user_stats(df)] (lines 181-212). *)
Definition user_stats (df : frame) : IO unit :=
  emit (Out user_header) ;;
  (if has_user_type (columns df) then
     emit (Out "Counts of Users Types:") ;;
     emit (OutCounts (value_counts (map user_type (rows df))))
   else emit (Out no_data_user_type)) ;;
  emit (Out "") ;;
  (if has_gender (columns df) then
     emit (Out "Counts of Gender:") ;;
     emit (OutCounts (value_counts (map gender (rows df))))
   else emit (Out no_data_gender)) ;;
  emit (Out "") ;;
  (if has_birth_year (columns df) then
     let years := map birth_year (rows df) in
     emit (OutValue "Earliest birth year: " (value_of_option (col_min years))) ;;
     emit (OutValue "Recent birth year: " (value_of_option (col_max years))) ;;
     y <- lift (mode0 years) ;;
     emit (OutValue "Most common birth year: " (VInt y))
   else emit (Out no_data_birth)) ;;
  emit OutElapsed ;;
  emit (Out separator).

(** ** Lemmas *)

(** Running a computation made of [emit]s, [lift]s of known results and
    [ret]: reduce the monad and flatten the trace. *)
Ltac run_io :=
  cbv [bind emit lift ret raise of_option inputs trace andb orb negb];
  rewrite <- ?app_assoc; cbn [app].

(** The four routines read no input: each acts on the trace alone. *)
Lemma stats_output_only (df : frame) :
  output_only (time_stats df) /\ output_only (station_stats df) /\
  output_only (trip_duration_stats df) /\ output_only (user_stats df).
Proof.
  unfold time_stats, station_stats, trip_duration_stats, user_stats.
  repeat split; solve_output_only.
Qed.

Lemma map_nonempty {B C : Type} (f : B -> C) (l : list B) : l <> [] -> map f l <> [].
Proof. destruct l; simpl; congruence. Qed.

(** Every column of a frame with rows has a mode in the sense of the
    specification. *)
Lemma col_mode_exists {B : Type} `{PyOrd B} (f : row -> B) (df : frame) :
  rows df <> [] ->
  exists x, mode0 (map (fun r => Some (f r)) (rows df)) = Ok x /\ is_mode (map f (rows df)) x.
Proof.
  intros Hne. rewrite <- (dropna_map_Some f (rows df)).
  apply mode0_Ok_is_mode. rewrite dropna_map_Some. apply map_nonempty. exact Hne.
Qed.

(** ** Properties of [time_stats] *)

(** C5: on a frame with rows, [time_stats] prints, after its header,
    the most popular month, weekday and start hour, each the most
    frequent value of its column and the smallest among ties, then the
    elapsed time and the separator; it reads no input and raises
    nothing. *)
Theorem time_stats_ok (df : frame) (w : world) :
  rows df <> [] ->
  exists m d h,
    is_mode (map month (rows df)) m /\
    is_mode (map day_of_week (rows df)) d /\
    is_mode (map (fun r => ts_hour (start_time r)) (rows df)) h /\
    time_stats df w =
      (Ret tt, mk_world (inputs w)
                 (trace w ++ [Out time_header; OutValue "Most Popular Month:" (VInt m);
                              OutValue "Most Popular Day of Week:" (VStr d);
                              OutValue "Most Popular Start Hour:" (VInt h);
                              OutElapsed; Out separator])).
Proof.
  intros Hne.
  destruct (col_mode_exists month df Hne) as [m [Hm Hmm]].
  destruct (col_mode_exists day_of_week df Hne) as [d [Hd Hdm]].
  destruct (col_mode_exists (fun r => ts_hour (start_time r)) df Hne) as [h [Hh Hhm]].
  exists m, d, h. split; [exact Hmm |]. split; [exact Hdm |]. split; [exact Hhm |].
  unfold time_stats, month_col, day_col, hour_col. rewrite Hm, Hd, Hh. run_io. reflexivity.
Qed.

(** C13: on a frame without rows (a month or weekday with no trip),
    [time_stats] prints its header and raises [KeyError] at
    [df['month'].mode()[0]]; the spec asks for a "no data" report. *)
Theorem time_stats_empty (df : frame) (w : world) :
  rows df = [] ->
  time_stats df w = (Raise KeyError, mk_world (inputs w) (trace w ++ [Out time_header])).
Proof.
  intros He. unfold time_stats, month_col. rewrite He. reflexivity.
Qed.

Lemma time_stats_ok_witness :
  rows sample_frame <> [] /\
  exists m d h,
    is_mode (map month (rows sample_frame)) m /\
    is_mode (map day_of_week (rows sample_frame)) d /\
    is_mode (map (fun r => ts_hour (start_time r)) (rows sample_frame)) h /\
    time_stats sample_frame (mk_world [] []) =
      (Ret tt, mk_world [] ([] ++ [Out time_header; OutValue "Most Popular Month:" (VInt m);
                              OutValue "Most Popular Day of Week:" (VStr d);
                              OutValue "Most Popular Start Hour:" (VInt h);
                              OutElapsed; Out separator])).
Proof.
  assert (H : rows sample_frame <> []) by (vm_compute; discriminate).
  split; [exact H | exact (time_stats_ok sample_frame (mk_world [] []) H)].
Defined.

Lemma time_stats_empty_witness :
  rows (filter_month 12 sample_frame) = [] /\
  time_stats (filter_month 12 sample_frame) (mk_world [] []) =
    (Raise KeyError, mk_world [] ([] ++ [Out time_header])).
Proof.
  assert (H : rows (filter_month 12 sample_frame) = []) by reflexivity.
  split; [exact H | exact (time_stats_empty _ (mk_world [] []) H)].
Defined.

(** The mode of a derived column is the value of one of its rows. *)
Lemma mode0_col_row {B : Type} `{PyOrd B} (f : row -> B) (df : frame) (x : B) :
  mode0 (map (fun r => Some (f r)) (rows df)) = Ok x -> exists r, In r (rows df) /\ f r = x.
Proof.
  unfold mode0. destruct (mode _) as [| y l] eqn:Hm; [discriminate |]. intros [= <-].
  assert (Hy : In y (mode (map (fun r => Some (f r)) (rows df)))) by (rewrite Hm; left; reflexivity).
  apply mode_In in Hy as [Hy _]. rewrite dropna_map_Some in Hy.
  apply in_map_iff in Hy as (r & Hr & Hin). exists r. auto.
Qed.

(** C14: the values [time_stats] prints have the types of their
    columns: on a frame produced by [load_data] (rows whose derived
    columns are those of a calendar start time) with at least one row,
    the most popular month is a month number, the most popular weekday is
    a name of [calendar.day_name], and the most popular start hour is an
    hour of the day. *)
Theorem time_stats_values_typed (df : frame) (w : world) :
  wf_frame df -> rows df <> [] ->
  exists m d h,
    time_stats df w =
      (Ret tt, mk_world (inputs w)
                 (trace w ++ [Out time_header; OutValue "Most Popular Month:" (VInt m);
                              OutValue "Most Popular Day of Week:" (VStr d);
                              OutValue "Most Popular Start Hour:" (VInt h);
                              OutElapsed; Out separator])) /\
    (1 <= m <= 12)%Z /\ In d day_name /\ (0 <= h < 24)%Z.
Proof.
  intros Hwf Hne. unfold wf_frame in Hwf. rewrite Forall_forall in Hwf.
  destruct (col_mode_exists month df Hne) as [m [Hm _]].
  destruct (col_mode_exists day_of_week df Hne) as [d [Hd _]].
  destruct (col_mode_exists (fun r => ts_hour (start_time r)) df Hne) as [h [Hh _]].
  exists m, d, h. split; [unfold time_stats, month_col, day_col, hour_col; rewrite Hm, Hd, Hh; run_io; reflexivity |].
  destruct (mode0_col_row _ _ _ Hm) as (r1 & R1 & <-). destruct (mode0_col_row _ _ _ Hd) as (r2 & R2 & <-).
  destruct (mode0_col_row _ _ _ Hh) as (r3 & R3 & <-).
  destruct (Hwf r1 R1) as (V1 & -> & _). destruct (Hwf r2 R2) as (_ & _ & ->).
  destruct (Hwf r3 R3) as (V3 & _).
  split; [apply (valid_timestamp_bounds _ V1) |]. split; [apply dt_day_name_In |].
  apply (valid_timestamp_bounds _ V3).
Qed.

Lemma time_stats_values_typed_witness :
  wf_frame sample_frame /\ rows sample_frame <> [] /\
  exists m d h,
    time_stats sample_frame (mk_world [] []) =
      (Ret tt, mk_world [] ([] ++ [Out time_header; OutValue "Most Popular Month:" (VInt m);
                              OutValue "Most Popular Day of Week:" (VStr d);
                              OutValue "Most Popular Start Hour:" (VInt h);
                              OutElapsed; Out separator])) /\
    (1 <= m <= 12)%Z /\ In d day_name /\ (0 <= h < 24)%Z.
Proof.
  assert (Hwf : wf_frame sample_frame).
  { apply (convert_frame_wf (mk_raw_frame full_schema sample_rows)). reflexivity. }
  assert (Hne : rows sample_frame <> []) by (vm_compute; discriminate).
  split; [exact Hwf |]. split; [exact Hne |]. exact (time_stats_values_typed sample_frame (mk_world [] []) Hwf Hne).
Defined.

(** ** Properties of [station_stats] *)

(** C10: a frame without a "Start Station" column still gets its end
    station reported: [station_stats] prints the "No data" notice for the
    start station, the most common end station, skips the pair, and
    raises nothing for the missing column. *)
Theorem station_stats_missing_start (df : frame) (w : world) (e : string) :
  has_start_station (columns df) = false -> has_end_station (columns df) = true ->
  mode0 (map end_station (rows df)) = Ok e ->
  station_stats df w =
    (Ret tt, mk_world (inputs w)
               (trace w ++ [Out station_header; Out no_data_start;
                            OutValue "Most Commonly Used End Station:" (VStr e);
                            OutElapsed; Out separator])).
Proof.
  intros Hs He Hm. unfold station_stats. rewrite Hs, He, Hm. run_io. reflexivity.
Qed.

Definition no_start_frame : frame :=
  mk_frame (mk_schema false true true true true true) (rows sample_frame).

Lemma station_stats_missing_start_witness :
  station_stats no_start_frame (mk_world [] []) =
    (Ret tt, mk_world [] ([] ++ [Out station_header; Out no_data_start;
                                 OutValue "Most Commonly Used End Station:"
                                   (VStr "Canal St & Adams St");
                                 OutElapsed; Out separator])).
Proof.
  apply station_stats_missing_start; reflexivity.
Defined.

(** C31: when every trip of a non-empty frame goes from station [a] to
    station [b], [station_stats] reports [a], [b] and the combination
    ["a / b"] formed with the separator of line 141. *)
Theorem station_stats_pair (df : frame) (w : world) (a b : string) :
  has_start_station (columns df) = true -> has_end_station (columns df) = true -> rows df <> [] ->
  (forall r, In r (rows df) -> start_station r = Some a /\ end_station r = Some b) ->
  station_stats df w =
    (Ret tt, mk_world (inputs w)
               (trace w ++ [Out station_header;
                            OutValue "Most Commonly Used Start Station:" (VStr a);
                            OutValue "Most Commonly Used End Station:" (VStr b);
                            OutValue "Most Frequent Combination of Start Station and End Station Trip:"
                              (VStr (a ++ " / " ++ b));
                            OutElapsed; Out separator])).
Proof.
  intros Hs He Hne Hall.
  assert (Ha : mode0 (map start_station (rows df)) = Ok a).
  { apply mode0_const; [apply map_nonempty; exact Hne |].
    intros o Ho. apply in_map_iff in Ho as [r [<- Hr]]. apply Hall. exact Hr. }
  assert (Hb : mode0 (map end_station (rows df)) = Ok b).
  { apply mode0_const; [apply map_nonempty; exact Hne |].
    intros o Ho. apply in_map_iff in Ho as [r [<- Hr]]. apply Hall. exact Hr. }
  assert (Hab : mode0 (trips_col df) = Ok (a ++ " / " ++ b)).
  { apply mode0_const; [apply map_nonempty; exact Hne |].
    intros o Ho. apply in_map_iff in Ho as [r [<- Hr]]. unfold trip_name.
    destruct (Hall r Hr) as [-> ->]. reflexivity. }
  unfold station_stats. rewrite Hs, He, Ha, Hb, Hab. run_io. reflexivity.
Qed.

Definition pair_frame : frame :=
  mk_frame full_schema
    (map (fun r => mk_row (start_time r) (Some "A") (Some "B") (trip_duration r) (user_type r)
                     (gender r) (birth_year r) (month r) (day_of_week r)) (rows sample_frame)).

Lemma station_stats_pair_witness :
  station_stats pair_frame (mk_world [] []) =
    (Ret tt, mk_world [] ([] ++ [Out station_header;
                                 OutValue "Most Commonly Used Start Station:" (VStr "A");
                                 OutValue "Most Commonly Used End Station:" (VStr "B");
                                 OutValue "Most Frequent Combination of Start Station and End Station Trip:"
                                   (VStr ("A" ++ " / " ++ "B"));
                                 OutElapsed; Out separator])).
Proof.
  apply station_stats_pair; try reflexivity.
  - vm_compute. discriminate.
  - intros r Hr. unfold pair_frame in Hr. cbn [rows] in Hr.
    apply in_map_iff in Hr as [r' [<- _]]. split; reflexivity.
Defined.

(** ** Properties of [trip_duration_stats] *)

Definition durations (df : frame) : list (option Q) := map trip_duration (rows df).

(** C12: on a frame whose "Trip Duration" column has a value,
    [trip_duration_stats] prints the breakdown of the column's sum and
    the breakdown of the rounded mean, which adds back up to the rounded
    mean, and the mean times the number of values is the sum. *)
Theorem trip_duration_stats_ok (df : frame) (w : world) :
  has_trip_duration (columns df) = true -> dropna (durations df) <> [] ->
  exists mean,
    (mean * inject_Z (Z.of_nat (length (dropna (durations df)))) == col_sum (durations df))%Q /\
    to_seconds (format_time_int (py_round mean)) = py_round mean /\
    trip_duration_stats df w =
      (Ret tt, mk_world (inputs w)
                 (trace w ++ [Out duration_header;
                              OutDuration "Total travel time" (format_time (col_sum (durations df)));
                              OutDuration "Mean travel time" (format_time_int (py_round mean));
                              OutElapsed; Out separator])).
Proof.
  intros Hd Hne.
  destruct (col_mean (durations df)) as [mean |] eqn:Hm.
  - exists mean. split; [exact (col_mean_sum _ _ Hm) |]. split; [apply to_seconds_format_time_int |].
    unfold trip_duration_stats. fold (durations df). rewrite Hd, Hm. run_io. reflexivity.
  - exfalso. unfold col_mean in Hm. destruct (dropna (durations df)); [contradiction | discriminate].
Qed.

Lemma trip_duration_stats_ok_witness :
  exists mean,
    (mean * inject_Z (Z.of_nat (length (dropna (durations sample_frame)))) ==
       col_sum (durations sample_frame))%Q /\
    to_seconds (format_time_int (py_round mean)) = py_round mean /\
    trip_duration_stats sample_frame (mk_world [] []) =
      (Ret tt, mk_world [] ([] ++ [Out duration_header;
                                   OutDuration "Total travel time" (format_time (col_sum (durations sample_frame)));
                                   OutDuration "Mean travel time" (format_time_int (py_round mean));
                                   OutElapsed; Out separator])).
Proof.
  apply trip_duration_stats_ok; [reflexivity | vm_compute; discriminate].
Defined.

(** C32: when the "Trip Duration" column has no value (an empty
    frame), [trip_duration_stats] prints a total of 0 days, 0 hours,
    0 minutes and 0 seconds, then raises [ValueError] at
    [int(round(mean))], the mean being NaN. *)
Theorem trip_duration_stats_empty (df : frame) (w : world) :
  has_trip_duration (columns df) = true -> dropna (durations df) = [] ->
  trip_duration_stats df w =
    (Raise ValueError, mk_world (inputs w)
                         (trace w ++ [Out duration_header;
                                      OutDuration "Total travel time" (mk_breakdown 0 0 0 0)])).
Proof.
  intros Hd He. unfold trip_duration_stats. fold (durations df). rewrite Hd.
  unfold col_mean, col_sum. rewrite He. run_io. reflexivity.
Qed.

Lemma trip_duration_stats_empty_witness :
  trip_duration_stats (filter_month 12 sample_frame) (mk_world [] []) =
    (Raise ValueError, mk_world [] ([] ++ [Out duration_header;
                                          OutDuration "Total travel time" (mk_breakdown 0 0 0 0)])).
Proof.
  apply trip_duration_stats_empty; reflexivity.
Defined.

(** ** Properties of [user_stats] *)

Definition years (df : frame) : list (option Z) := map birth_year (rows df).

(** C11: a frame without a "Gender" column gets a "No data" notice for
    gender while the user-type counts and the birth-year statistics
    (earliest, most recent, most common) are still reported. *)
Theorem user_stats_missing_gender (df : frame) (w : world) :
  has_user_type (columns df) = true -> has_gender (columns df) = false ->
  has_birth_year (columns df) = true -> dropna (years df) <> [] ->
  exists lo hi y,
    col_min (years df) = Some lo /\ col_max (years df) = Some hi /\ is_mode (dropna (years df)) y /\
    user_stats df w =
      (Ret tt, mk_world (inputs w)
                 (trace w ++ [Out user_header; Out "Counts of Users Types:";
                              OutCounts (value_counts (map user_type (rows df)));
                              Out ""; Out no_data_gender; Out "";
                              OutValue "Earliest birth year: " (VInt lo);
                              OutValue "Recent birth year: " (VInt hi);
                              OutValue "Most common birth year: " (VInt y);
                              OutElapsed; Out separator])).
Proof.
  intros Hu Hg Hb Hne.
  destruct (mode0_Ok_is_mode (years df) Hne) as [y [Hy Hym]].
  destruct (col_min (years df)) as [lo |] eqn:Hlo; [| unfold col_min in Hlo; destruct (dropna (years df)); easy].
  destruct (col_max (years df)) as [hi |] eqn:Hhi; [| unfold col_max in Hhi; destruct (dropna (years df)); easy].
  exists lo, hi, y. split; [reflexivity |]. split; [reflexivity |]. split; [exact Hym |].
  unfold user_stats. fold (years df). rewrite Hu, Hg, Hb, Hlo, Hhi, Hy. run_io. reflexivity.
Qed.

Definition no_gender_frame : frame :=
  mk_frame (mk_schema true true true true false true) (rows sample_frame).

Lemma user_stats_missing_gender_witness :
  exists lo hi y,
    col_min (years no_gender_frame) = Some lo /\ col_max (years no_gender_frame) = Some hi /\
    is_mode (dropna (years no_gender_frame)) y /\
    user_stats no_gender_frame (mk_world [] []) =
      (Ret tt, mk_world [] ([] ++ [Out user_header; Out "Counts of Users Types:";
                                   OutCounts (value_counts (map user_type (rows no_gender_frame)));
                                   Out ""; Out no_data_gender; Out "";
                                   OutValue "Earliest birth year: " (VInt lo);
                                   OutValue "Recent birth year: " (VInt hi);
                                   OutValue "Most common birth year: " (VInt y);
                                   OutElapsed; Out separator])).
Proof.
  apply user_stats_missing_gender; try reflexivity. vm_compute. discriminate.
Defined.

(** What [user_stats] prints before the birth-year statistics. *)
Definition user_prefix (df : frame) : list event :=
  [Out user_header] ++
  (if has_user_type (columns df)
   then [Out "Counts of Users Types:"; OutCounts (value_counts (map user_type (rows df)))]
   else [Out no_data_user_type]) ++
  [Out ""] ++
  (if has_gender (columns df)
   then [Out "Counts of Gender:"; OutCounts (value_counts (map gender (rows df)))]
   else [Out no_data_gender]) ++
  [Out ""].

(** C30: when the "Birth Year" column has a value, [user_stats] ends
    normally on every schema: it prints the user-type and gender counts
    (or their "No data" notices), then the earliest birth year (the
    least value of the column), the most recent one (the greatest) and
    the most common one (a mode, the smallest among ties), the elapsed
    time and the separator. *)
Theorem user_stats_ok (df : frame) (w : world) :
  has_birth_year (columns df) = true -> dropna (years df) <> [] ->
  exists lo hi y,
    (In lo (dropna (years df)) /\ forall v, In v (dropna (years df)) -> (lo <= v)%Z) /\
    (In hi (dropna (years df)) /\ forall v, In v (dropna (years df)) -> (v <= hi)%Z) /\
    is_mode (dropna (years df)) y /\
    user_stats df w =
      (Ret tt, mk_world (inputs w)
                 (trace w ++ user_prefix df ++
                  [OutValue "Earliest birth year: " (VInt lo); OutValue "Recent birth year: " (VInt hi);
                   OutValue "Most common birth year: " (VInt y); OutElapsed; Out separator])).
Proof.
  intros Hb Hne.
  destruct (mode0_Ok_is_mode (years df) Hne) as [y [Hy Hym]].
  destruct (col_min_exists (years df) Hne) as (lo & Hlo & Slo).
  destruct (col_max_exists (years df) Hne) as (hi & Hhi & Shi).
  exists lo, hi, y. split; [exact Slo |]. split; [exact Shi |]. split; [exact Hym |].
  unfold user_stats, user_prefix. fold (years df). rewrite Hb, Hlo, Hhi, Hy.
  destruct (has_user_type (columns df)), (has_gender (columns df)); run_io; reflexivity.
Qed.

Lemma user_stats_ok_witness :
  has_birth_year (columns sample_frame) = true /\ dropna (years sample_frame) <> [] /\
  exists lo hi y,
    (In lo (dropna (years sample_frame)) /\ forall v, In v (dropna (years sample_frame)) -> (lo <= v)%Z) /\
    (In hi (dropna (years sample_frame)) /\ forall v, In v (dropna (years sample_frame)) -> (v <= hi)%Z) /\
    is_mode (dropna (years sample_frame)) y /\
    user_stats sample_frame (mk_world [] []) =
      (Ret tt, mk_world [] ([] ++ user_prefix sample_frame ++
                  [OutValue "Earliest birth year: " (VInt lo); OutValue "Recent birth year: " (VInt hi);
                   OutValue "Most common birth year: " (VInt y); OutElapsed; Out separator])).
Proof.
  assert (Hb : has_birth_year (columns sample_frame) = true) by reflexivity.
  assert (Hne : dropna (years sample_frame) <> []) by (vm_compute; discriminate).
  split; [exact Hb |]. split; [exact Hne |]. exact (user_stats_ok sample_frame (mk_world [] []) Hb Hne).
Defined.

(** C33: when the "Birth Year" column has no value (an empty frame, or
    only missing years), [user_stats] prints NaN as the earliest and the
    most recent birth year, then raises [KeyError] at
    [df['Birth Year'].mode()[0]]. *)
Theorem user_stats_no_birth_years (df : frame) (w : world) :
  has_birth_year (columns df) = true -> dropna (years df) = [] ->
  user_stats df w =
    (Raise KeyError, mk_world (inputs w)
                       (trace w ++ user_prefix df ++
                        [OutValue "Earliest birth year: " VNaN; OutValue "Recent birth year: " VNaN])).
Proof.
  intros Hb He. unfold user_stats, user_prefix. fold (years df). rewrite Hb.
  assert (Hm : mode0 (years df) = Err KeyError).
  { unfold mode0. rewrite (proj2 (mode_nil_iff _) He). reflexivity. }
  unfold col_min, col_max. rewrite He, Hm.
  destruct (has_user_type (columns df)), (has_gender (columns df)); run_io; reflexivity.
Qed.

Lemma user_stats_no_birth_years_witness :
  user_stats (filter_month 12 sample_frame) (mk_world [] []) =
    (Raise KeyError, mk_world [] ([] ++ user_prefix (filter_month 12 sample_frame) ++
                                  [OutValue "Earliest birth year: " VNaN; OutValue "Recent birth year: " VNaN])).
Proof.
  apply user_stats_no_birth_years; reflexivity.
Defined.

End Stats.
