(* ===== verification/StatsOutcome.v ===== *)
(** * StatsOutcome: when the statistics end normally

    The spec (sections 4.3 and 8) asks every statistic group to degrade
    to a "no data" report instead of raising.  The code of
    src/bikeshare_2.py does so for a missing column (the
    [if '...' in df.columns] tests), but not for a column without
    values: [mode()[0]] raises [KeyError] and [int(round(mean))] raises
    [ValueError] there.  This file gives the exact condition under which
    the four routines of [Stats] end normally, as the [report] of each
    routine (its outcome and events, the same on every world).  The
    condition is: the frame has rows, and each present column that a
    routine takes a mode or a mean of has a value.  The (start, end)
    combination of line 141 needs one row with both stations. *)

From Stdlib Require Import String ZArith QArith List Lia Bool.
From S2P Require Import Prelude PyString TimeFormat Calendar Frame Aggregate PyIO Stats.
Import ListNotations.
Import PyString Calendar Frame Aggregate PyIO Stats.
Local Open Scope string_scope.
Local Open Scope io_scope.

Module StatsOutcome.

(** What the four statistics print on [df], one routine after the other. *)
Definition stats_events (df : frame) : list event :=
  snd (report (time_stats df)) ++ snd (report (station_stats df)) ++
  snd (report (trip_duration_stats df)) ++ snd (report (user_stats df)).

(** Each of the four statistics ends normally on [df]. *)
Definition stats_complete (df : frame) : Prop :=
  fst (report (time_stats df)) = Ret tt /\ fst (report (station_stats df)) = Ret tt /\
  fst (report (trip_duration_stats df)) = Ret tt /\ fst (report (user_stats df)) = Ret tt.

(** ** Lemmas *)

(** Split on the results of the [mode()[0]] and [mean()] calls of a
    routine and run it. *)
Ltac run_cases :=
  repeat match goal with
  | |- context [match mode0 ?c with Ok _ => _ | Err _ => _ end] =>
      let E := fresh "E" in destruct (mode0 c) eqn:E
  | |- context [match col_mean ?c with Some _ => _ | None => _ end] =>
      let E := fresh "E" in destruct (col_mean c) eqn:E
  | |- context [if ?b then _ else _] =>
      lazymatch b with
      | context [if _ then _ else _] => fail
      | _ => let E := fresh "E" in destruct b eqn:E
      end
  end.

Lemma col_mean_Some_iff (col : list (option Q)) : (exists m, col_mean col = Some m) <-> dropna col <> [].
Proof.
  unfold col_mean. destruct (dropna col); split.
  - intros [m Hm]. discriminate.
  - congruence.
  - intros _. discriminate.
  - intros _. eexists. reflexivity.
Qed.

Lemma time_stats_outcome (df : frame) : fst (report (time_stats df)) = Ret tt <-> rows df <> [].
Proof.
  split.
  - intros H He. unfold report, time_stats, month_col in H. rewrite He in H. discriminate.
  - intros Hne.
    destruct (col_mode_exists month df Hne) as [m [Hm _]].
    destruct (col_mode_exists day_of_week df Hne) as [d [Hd _]].
    destruct (col_mode_exists (fun r => ts_hour (start_time r)) df Hne) as [h [Hh _]].
    unfold report, time_stats, month_col, day_col, hour_col. rewrite Hm, Hd, Hh. reflexivity.
Qed.

(** Turn the results of the [mode()[0]] and [mean()] calls into facts
    about the columns. *)
Ltac column_facts :=
  repeat match goal with
  | E : mode0 _ = Ok _ |- _ => apply mode0_Ok_nonempty in E
  | E : mode0 _ = Err _ |- _ => apply mode0_Err_empty in E
  | E : col_mean ?c = Some ?m |- _ =>
      let H := fresh in assert (H : dropna c <> []) by (apply col_mean_Some_iff; exists m; exact E); clear E
  | E : col_mean ?c = None |- _ =>
      let H := fresh in
      assert (H : dropna c = []) by (destruct (dropna c) eqn:Ed; [reflexivity | unfold col_mean in E; rewrite Ed in E; discriminate]);
      clear E
  end.

Lemma station_stats_outcome (df : frame) :
  fst (report (station_stats df)) = Ret tt <->
  (has_start_station (columns df) = true -> dropna (map start_station (rows df)) <> []) /\
  (has_end_station (columns df) = true -> dropna (map end_station (rows df)) <> []) /\
  (has_start_station (columns df) && has_end_station (columns df) = true -> dropna (trips_col df) <> []).
Proof.
  unfold report, station_stats. cbv zeta. run_io. run_cases; run_io; column_facts; cbn [andb fst];
    intuition congruence.
Qed.

Lemma trip_duration_stats_outcome (df : frame) :
  fst (report (trip_duration_stats df)) = Ret tt <->
  (has_trip_duration (columns df) = true -> dropna (durations df) <> []).
Proof.
  unfold report, trip_duration_stats. fold (durations df). cbv zeta. run_io. run_cases; run_io; column_facts;
    cbn [fst]; intuition congruence.
Qed.

Lemma user_stats_outcome (df : frame) :
  fst (report (user_stats df)) = Ret tt <-> (has_birth_year (columns df) = true -> dropna (years df) <> []).
Proof.
  unfold report, user_stats. fold (years df). cbv zeta. run_io. run_cases; run_io; column_facts;
    cbn [fst]; intuition congruence.
Qed.

(** C6: the four statistics end normally exactly on frames that have
    rows and a value in each present column they take a mode or a mean
    of: "Start Station", "End Station", "Trip Duration" and "Birth Year",
    and, when both station columns are present, one row with both
    stations for the combination of line 141.  A missing column never
    makes them raise; an empty frame or a present column without values
    always does. *)
Theorem stats_complete_iff (df : frame) :
  stats_complete df <->
  rows df <> [] /\
  (has_start_station (columns df) = true -> dropna (map start_station (rows df)) <> []) /\
  (has_end_station (columns df) = true -> dropna (map end_station (rows df)) <> []) /\
  (has_start_station (columns df) && has_end_station (columns df) = true -> dropna (trips_col df) <> []) /\
  (has_trip_duration (columns df) = true -> dropna (durations df) <> []) /\
  (has_birth_year (columns df) = true -> dropna (years df) <> []).
Proof.
  unfold stats_complete.
  rewrite time_stats_outcome, station_stats_outcome, trip_duration_stats_outcome, user_stats_outcome.
  tauto.
Qed.

(** C15: the combination of line 141 can fail when both station
    columns have values: if no row has both a start and an end station,
    the pairs are all NaN and [station_stats] raises [KeyError] at
    [mode()[0]] (line 142), after printing the most common start and end
    stations. *)
Theorem station_stats_disjoint_stations (df : frame) (w : world) (a b : string) :
  has_start_station (columns df) = true -> has_end_station (columns df) = true ->
  mode0 (map start_station (rows df)) = Ok a -> mode0 (map end_station (rows df)) = Ok b ->
  dropna (trips_col df) = [] ->
  station_stats df w =
    (Raise KeyError, mk_world (inputs w)
                       (trace w ++ [Out station_header;
                                    OutValue "Most Commonly Used Start Station:" (VStr a);
                                    OutValue "Most Commonly Used End Station:" (VStr b)])).
Proof.
  intros Hs He Ha Hb Ht.
  assert (Hm : mode0 (trips_col df) = Err KeyError).
  { unfold mode0. rewrite (proj2 (mode_nil_iff _) Ht). reflexivity. }
  unfold station_stats. cbv zeta. rewrite Hs, He, Ha, Hb, Hm. run_io. reflexivity.
Qed.

(** Two trips of the sample file, one without its end station and one
    without its start station. *)
Definition split_frame : frame :=
  mk_frame full_schema
    (map (fun p => let '(r, (s, e)) := p in
                   mk_row (start_time r) s e (trip_duration r) (user_type r) (gender r)
                          (birth_year r) (month r) (day_of_week r))
       (combine (rows sample_frame) [(Some "A", None); (None, Some "B")])).

Lemma station_stats_disjoint_stations_witness :
  station_stats split_frame (mk_world [] []) =
    (Raise KeyError, mk_world [] ([] ++ [Out station_header;
                                         OutValue "Most Commonly Used Start Station:" (VStr "A");
                                         OutValue "Most Commonly Used End Station:" (VStr "B")])).
Proof. apply station_stats_disjoint_stations; reflexivity. Defined.

End StatsOutcome.
