(* ===== verification/Shell.v ===== *)
(** * Shell: [get_filters], the pagination loop and [main]

    [get_filters] (src/bikeshare_2.py, lines 10-56) asks for a city, a
    month and a weekday, each in a [while True] loop that lowers the
    answer, accepts it if it is in the valid list ([city in CITY_DATA],
    [valid_months.count(month) != 0], [valid_days.count(day) != 0]) and
    otherwise prints a message and asks again.  [main] (lines 214-237)
    loads the data, pages through it five rows at a time while the user
    answers "yes" (lines 219-227), runs the four statistics, and starts
    over when the answer to the restart prompt is "yes".

    Each loop is a [Fixpoint] on a fuel; every iteration reads one input
    line, so a fuel larger than the number of input lines is never
    exhausted: [ask_run], [paginate_fuel] and [main_loop_fuel] prove
    it.  The theorems also give what each loop returns and prints (the
    pagination shows one page of five rows per "yes"), and
    show that [get_filters] accepts the empty month (the empty first
    entry of [calendar.month_name]), which [load_data] then rejects with
    [ValueError]. *)

From Stdlib Require Import String ZArith List Lia Bool.
From S2P Require Import Prelude PyString TimeFormat Calendar Frame Aggregate PyIO Stats.
Import ListNotations.
Import PyString Calendar Frame PyIO Stats.
Local Open Scope string_scope.
Local Open Scope io_scope.
Local Open Scope nat_scope.
Local Open Scope list_scope.

Module Shell.

(** ** Texts *)

Definition hello : string := "Hello! Let's explore some US bikeshare data!".
Definition city_prompt : string := "Please enter city (chicago, new york city, washington): ".
Definition month_prompt : string := "Please enter month (all, january, february, ... , june): ".
Definition day_prompt : string := "Please enter day of week (all, monday, tuesday, ... sunday): ".
Definition invalid_city : string := "Invalid city entered.
".
Definition invalid_day : string := "Invalid day entered.
".
Definition restart_prompt : string := "
Would you like to restart? Enter yes or no.
".

(** The pagination prompt of line 221. *)
Definition page_prompt (current_row : nat) : string :=
  ("
Would you like to display " ++ (if Nat.eqb current_row 0 then "" else "another ") ++
  "5 rows of the data? Enter yes or no.
")%string.

(** ** Validation *)

(** [city in CITY_DATA]. *)
Definition city_valid (city : string) : bool := existsb (String.eqb city) (map fst CITY_DATA).

(** [valid_months] (lines 30-32): the lowered month names, with the
    empty first entry of [calendar.month_name], and "all". *)
Definition valid_months : list string := map py_lower (month_name ++ ["all"]).

(** [valid_days] (lines 43-45). *)
Definition valid_days : list string := map py_lower (day_name ++ ["all"]).

Definition month_valid (month : string) : bool := negb (Nat.eqb (py_count month valid_months) 0).

Definition day_valid (day : string) : bool := negb (Nat.eqb (py_count day valid_days) 0).

(** ** Loops *)

(** One [while True] loop of [get_filters]: read, lower, accept or
    print the message and ask again. *)
Fixpoint ask (fuel : nat) (prompt : string) (ok : string -> bool) (invalid : string) : IO string :=
  match fuel with
  | O => out_of_fuel
  | S fuel' =>
      answer <- input prompt ;;
      let v := py_lower answer in
      if ok v then ret v
      else emit (Out invalid) ;; ask fuel' prompt ok invalid
  end.

(** [get_filters()] (lines 10-56); the month loop prints the city
    message (line 39). *)
Definition get_filters (fuel : nat) : IO (string * string * string) :=
  emit (Out hello) ;;
  city <- ask fuel city_prompt city_valid invalid_city ;;
  month <- ask fuel month_prompt month_valid invalid_city ;;
  day <- ask fuel day_prompt day_valid invalid_day ;;
  emit (Out separator) ;;
  ret (city, month, day).

(** The pagination loop of lines 219-227. *)
Fixpoint paginate (fuel : nat) (df : frame) (current_row : nat) : IO unit :=
  match fuel with
  | O => out_of_fuel
  | S fuel' =>
      to_display <- input (page_prompt current_row) ;;
      if String.eqb (py_lower to_display) "yes" then
        emit (OutRows (py_slice (rows df) current_row (current_row + 5))) ;;
        emit (Out separator) ;;
        paginate fuel' df (current_row + 5)
      else ret tt
  end.

Section Main.
Context `{FileSystem}.

(** [main()] (lines 214-237): the inner loops get the fuel of the
    current iteration, the restart recursion one less. *)
Fixpoint main_loop (fuel : nat) : IO unit :=
  match fuel with
  | O => out_of_fuel
  | S fuel' =>
      filters <- get_filters fuel ;;
      let '(city, month, day) := filters in
      df <- lift (load_data city month day) ;;
      paginate fuel df 0 ;;
      time_stats df ;;
      station_stats df ;;
      trip_duration_stats df ;;
      user_stats df ;;
      restart <- input restart_prompt ;;
      if String.eqb (py_lower restart) "yes" then main_loop fuel' else ret tt
  end.

(** The script's run on an input stream: one more fuel than lines. *)
Definition main (w : world) : outcome unit * world :=
  main_loop (S (length (inputs w))) w.

End Main.

(** ** What the loops print *)

(** The prompts and messages of the rejected answers of an [ask] loop. *)
Definition rejected_events (prompt invalid : string) (pre : list string) : list event :=
  flat_map (fun _ => [OutPrompt prompt; Out invalid]) pre.

(** The pages printed by [k] "yes" answers from row [r] on. *)
Fixpoint page_events (df : frame) (r k : nat) : list event :=
  match k with
  | O => []
  | S k' => [OutPrompt (page_prompt r); OutRows (py_slice (rows df) r (r + 5)); Out separator]
            ++ page_events df (r + 5) k'
  end.

(** The rows a trace shows. *)
Definition rows_shown (evs : list event) : list row :=
  flat_map (fun e => match e with OutRows rs => rs | _ => [] end) evs.

(** ** The loops of [get_filters] *)

(** With more fuel than input lines, a loop of [get_filters] never runs
    out of fuel: it returns the lowered first answer that passes the
    test, after printing a message for each answer before it, or raises
    [EOFError] when no answer passes. *)
Lemma ask_run (n : nat) (prompt invalid : string) (ok : string -> bool) (w : world) :
  length (inputs w) < n ->
  match ask n prompt ok invalid w with
  | (Ret v, w') =>
      exists pre a,
        inputs w = pre ++ a :: inputs w' /\ Forall (fun x => ok (py_lower x) = false) pre /\
        ok (py_lower a) = true /\ v = py_lower a /\
        trace w' = trace w ++ rejected_events prompt invalid pre ++ [OutPrompt prompt]
  | (Raise e, w') =>
      e = EOFError /\ Forall (fun x => ok (py_lower x) = false) (inputs w) /\ inputs w' = [] /\
      trace w' = trace w ++ rejected_events prompt invalid (inputs w) ++ [OutPrompt prompt]
  | (OutOfFuel, _) => False
  end.
Proof.
  revert w. induction n as [| n IH]; intros [ins tr] Hn; cbn [inputs Datatypes.length] in Hn; [lia |].
  destruct ins as [| a rest]; cbn [Datatypes.length] in Hn.
  - cbn. repeat split; auto.
  - cbn [ask]. unfold bind at 1, input. cbn [inputs trace].
    destruct (ok (py_lower a)) eqn:Hok.
    + cbn. exists [], a. repeat split; auto.
    + specialize (IH (mk_world rest ((tr ++ [OutPrompt prompt]) ++ [Out invalid]))).
      cbn [inputs Datatypes.length] in IH. specialize (IH ltac:(lia)).
      unfold bind, emit. cbn [inputs trace].
      destruct (ask n prompt ok invalid _) as [[v | e |] w'].
      * destruct IH as (pre & a' & Hin & Hpre & Ha & Hv & Htr).
        exists (a :: pre), a'. cbn [inputs trace] in *. rewrite Hin.
        repeat split; auto. rewrite Htr. cbn. rewrite <- !app_assoc. reflexivity.
      * destruct IH as (He & Hall & Hw' & Htr). cbn [inputs trace] in *.
        repeat split; auto. rewrite Htr. cbn. rewrite <- !app_assoc. reflexivity.
      * exact IH.
Qed.

(** The answer [ask] returns consumed input: what remains is shorter. *)
Lemma ask_Ret_inputs (n : nat) (prompt invalid : string) (ok : string -> bool) (w w' : world) (v : string) :
  length (inputs w) < n -> ask n prompt ok invalid w = (Ret v, w') ->
  ok v = true /\ length (inputs w') < length (inputs w).
Proof.
  intros Hn Ha. pose proof (ask_run n prompt invalid ok w Hn) as Hr. rewrite Ha in Hr.
  destruct Hr as (pre & a & Hin & _ & Hok & -> & _). split; [exact Hok |].
  rewrite Hin, length_app. cbn [Datatypes.length]. lia.
Qed.

Lemma ask_not_fuel (n : nat) (prompt invalid : string) (ok : string -> bool) (w w' : world) :
  length (inputs w) < n -> ask n prompt ok invalid w <> (OutOfFuel, w').
Proof.
  intros Hn Ha. pose proof (ask_run n prompt invalid ok w Hn) as Hr. rewrite Ha in Hr. exact Hr.
Qed.

Lemma ask_Raise (n : nat) (prompt invalid : string) (ok : string -> bool) (w w' : world) (e : py_exc) :
  length (inputs w) < n -> ask n prompt ok invalid w = (Raise e, w') -> e = EOFError /\ inputs w' = [].
Proof.
  intros Hn Ha. pose proof (ask_run n prompt invalid ok w Hn) as Hr. rewrite Ha in Hr.
  destruct Hr as (He & _ & Hw' & _). auto.
Qed.

(** C19: an input loop of [get_filters] makes progress: once the input
    holds an answer its test accepts, however many rejected answers come
    first, the loop (with more fuel than input lines) returns an accepted
    value, neither raising [EOFError] nor running out of fuel, and it has
    consumed at least that one line. *)
Theorem ask_eventually_accepts (n : nat) (prompt invalid : string) (ok : string -> bool) (w : world) :
  length (inputs w) < n -> Exists (fun x => ok (py_lower x) = true) (inputs w) ->
  exists v w', ask n prompt ok invalid w = (Ret v, w') /\ ok v = true /\
               length (inputs w') < length (inputs w).
Proof.
  intros Hn Hex. pose proof (ask_run n prompt invalid ok w Hn) as Hr.
  destruct (ask n prompt ok invalid w) as [[v | e |] w'] eqn:Ha; [| | contradiction].
  - exists v, w'. split; [reflexivity |]. exact (ask_Ret_inputs _ _ _ _ _ _ _ Hn Ha).
  - destruct Hr as (_ & Hall & _). apply Exists_exists in Hex as (x & Hx & Hok).
    rewrite Forall_forall in Hall. rewrite (Hall x Hx) in Hok. discriminate.
Qed.

Lemma ask_eventually_accepts_witness :
  length (inputs (mk_world ["Boston"; "paris"; "New York City"; "x"] [])) < 5 /\
  Exists (fun x => city_valid (py_lower x) = true) (inputs (mk_world ["Boston"; "paris"; "New York City"; "x"] [])) /\
  ask 5 city_prompt city_valid invalid_city (mk_world ["Boston"; "paris"; "New York City"; "x"] []) =
    (Ret "new york city", mk_world ["x"] [OutPrompt city_prompt; Out invalid_city; OutPrompt city_prompt;
                                           Out invalid_city; OutPrompt city_prompt]) /\
  (exists v w', ask 5 city_prompt city_valid invalid_city (mk_world ["Boston"; "paris"; "New York City"; "x"] []) =
                  (Ret v, w') /\ city_valid v = true /\
                length (inputs w') < length (inputs (mk_world ["Boston"; "paris"; "New York City"; "x"] []))).
Proof.
  assert (Hn : length (inputs (mk_world ["Boston"; "paris"; "New York City"; "x"] [])) < 5) by (cbn; lia).
  assert (Hex : Exists (fun x => city_valid (py_lower x) = true)
                  (inputs (mk_world ["Boston"; "paris"; "New York City"; "x"] []))).
  { cbn [inputs]. right. right. left. reflexivity. }
  split; [exact Hn |]. split; [exact Hex |]. split; [reflexivity |].
  exact (ask_eventually_accepts 5 city_prompt invalid_city city_valid _ Hn Hex).
Defined.

(** [get_filters] in one statement: with more fuel than input lines it
    returns three values that passed their loop's test, having read at
    least three lines, or raises [EOFError]. *)
Lemma get_filters_run (n : nat) (w : world) :
  length (inputs w) < n ->
  match get_filters n w with
  | (Ret (c, m, d), w') =>
      city_valid c = true /\ month_valid m = true /\ day_valid d = true /\
      length (inputs w') + 3 <= length (inputs w)
  | (Raise e, w') => e = EOFError /\ inputs w' = []
  | (OutOfFuel, _) => False
  end.
Proof.
  intros Hn. unfold get_filters, bind at 1. cbn [emit].
  set (w1 := mk_world (inputs w) (trace w ++ [Out hello])).
  assert (H1 : length (inputs w1) < n) by exact Hn.
  unfold bind at 1. destruct (ask n city_prompt city_valid invalid_city w1) as [[c | e |] w2] eqn:Ec.
  2: { exact (ask_Raise _ _ _ _ _ _ _ H1 Ec). }
  2: { exact (ask_not_fuel _ _ _ _ _ _ H1 Ec). }
  destruct (ask_Ret_inputs _ _ _ _ _ _ _ H1 Ec) as [Hc L2].
  assert (H2 : length (inputs w2) < n) by lia.
  unfold bind at 1. destruct (ask n month_prompt month_valid invalid_city w2) as [[m | e |] w3] eqn:Em.
  2: { exact (ask_Raise _ _ _ _ _ _ _ H2 Em). }
  2: { exact (ask_not_fuel _ _ _ _ _ _ H2 Em). }
  destruct (ask_Ret_inputs _ _ _ _ _ _ _ H2 Em) as [Hm L3].
  assert (H3 : length (inputs w3) < n) by lia.
  unfold bind at 1. destruct (ask n day_prompt day_valid invalid_day w3) as [[d | e |] w4] eqn:Ed.
  2: { exact (ask_Raise _ _ _ _ _ _ _ H3 Ed). }
  2: { exact (ask_not_fuel _ _ _ _ _ _ H3 Ed). }
  destruct (ask_Ret_inputs _ _ _ _ _ _ _ H3 Ed) as [Hd L4].
  cbn. repeat split; auto. cbn [inputs w1] in L2. lia.
Qed.

(** C18: [get_filters] returns a city of [CITY_DATA] and a month and a
    day that its lists accept, or raises [EOFError] when the input ends
    first; it never runs out of fuel. *)
Theorem get_filters_valid (n : nat) (w : world) :
  length (inputs w) < n ->
  match get_filters n w with
  | (Ret (c, m, d), _) =>
      In c (map fst CITY_DATA) /\ In m valid_months /\ In d valid_days
  | (Raise e, _) => e = EOFError
  | (OutOfFuel, _) => False
  end.
Proof.
  intros Hn. pose proof (get_filters_run n w Hn) as Hr.
  destruct (get_filters n w) as [[[[c m] d] | e |] w']; [| tauto | tauto].
  destruct Hr as (Hc & Hm & Hd & _). split; [| split].
  - unfold city_valid in Hc. apply existsb_exists in Hc as [k [Hk Heq]].
    apply String.eqb_eq in Heq. subst. exact Hk.
  - unfold month_valid in Hm. apply py_count_pos_In. apply negb_true_iff, Nat.eqb_neq in Hm. exact Hm.
  - unfold day_valid in Hd. apply py_count_pos_In. apply negb_true_iff, Nat.eqb_neq in Hd. exact Hd.
Qed.

(** The empty answer passes the month loop: [valid_months] holds the
    empty first entry of [calendar.month_name]. *)
Lemma get_filters_valid_witness :
  get_filters 4 (mk_world ["Chicago"; ""; "all"] []) =
    (Ret ("chicago", "", "all")%string,
     mk_world [] [Out hello; OutPrompt city_prompt; OutPrompt month_prompt; OutPrompt day_prompt;
                  Out separator]) /\
  In "chicago"%string (map fst CITY_DATA) /\ In ""%string valid_months /\ In "all"%string valid_days.
Proof.
  assert (E : get_filters 4 (mk_world ["Chicago"; ""; "all"] []) =
    (Ret ("chicago", "", "all")%string,
     mk_world [] [Out hello; OutPrompt city_prompt; OutPrompt month_prompt; OutPrompt day_prompt;
                  Out separator])) by reflexivity.
  split; [exact E |].
  pose proof (get_filters_valid 4 (mk_world ["Chicago"; ""; "all"] []) ltac:(vm_compute; lia)) as H.
  rewrite E in H. exact H.
Defined.

(** ** The pagination loop *)

Lemma paginate_run (n : nat) (df : frame) (r : nat) (w : world) :
  length (inputs w) < n ->
  match paginate n df r w with
  | (Ret _, w') =>
      exists yes a,
        inputs w = yes ++ a :: inputs w' /\ Forall (fun x => py_lower x = "yes"%string) yes /\
        py_lower a <> "yes"%string /\
        trace w' = trace w ++ page_events df r (length yes) ++ [OutPrompt (page_prompt (r + 5 * length yes))]
  | (Raise e, w') =>
      e = EOFError /\ Forall (fun x => py_lower x = "yes"%string) (inputs w) /\ inputs w' = [] /\
      trace w' = trace w ++ page_events df r (length (inputs w)) ++
                   [OutPrompt (page_prompt (r + 5 * length (inputs w)))]
  | (OutOfFuel, _) => False
  end.
Proof.
  revert r w. induction n as [| n IH]; intros r [ins tr] Hn; cbn [inputs Datatypes.length] in Hn; [lia |].
  destruct ins as [| a rest]; cbn [Datatypes.length] in Hn.
  - cbn. repeat split; auto. rewrite Nat.add_0_r. reflexivity.
  - cbn [paginate]. unfold bind at 1, input. cbn [inputs trace].
    destruct (String.eqb_spec (py_lower a) "yes") as [Hyes | Hno].
    + specialize (IH (r + 5) (mk_world rest (((tr ++ [OutPrompt (page_prompt r)]) ++
                     [OutRows (py_slice (rows df) r (r + 5))]) ++ [Out separator]))).
      cbn [inputs Datatypes.length] in IH. specialize (IH ltac:(lia)).
      unfold bind, emit. cbn [inputs trace].
      destruct (paginate n df (r + 5) _) as [[u | e |] w'].
      * destruct IH as (yes & a' & Hin & Hall & Ha & Htr).
        exists (a :: yes), a'. cbn [inputs trace] in *. rewrite Hin.
        repeat split; auto. rewrite Htr. cbn [Datatypes.length page_events].
        replace (r + 5 + 5 * length yes) with (r + 5 * S (length yes)) by lia.
        rewrite <- !app_assoc. reflexivity.
      * destruct IH as (He & Hall & Hw' & Htr). cbn [inputs trace] in *.
        repeat split; auto. rewrite Htr. cbn [Datatypes.length page_events].
        replace (r + 5 + 5 * length rest) with (r + 5 * S (length rest)) by lia.
        rewrite <- !app_assoc. reflexivity.
      * exact IH.
    + cbn. exists [], a. cbn. repeat split; auto. rewrite Nat.add_0_r. reflexivity.
Qed.

Lemma rows_shown_app (l1 l2 : list event) : rows_shown (l1 ++ l2) = rows_shown l1 ++ rows_shown l2.
Proof. unfold rows_shown. apply flat_map_app. Qed.

(** The pages from row [r] on continue the first [r] rows. *)
Lemma page_events_rows (df : frame) (r k : nat) :
  firstn r (rows df) ++ rows_shown (page_events df r k) = firstn (r + 5 * k) (rows df).
Proof.
  revert r. induction k as [| k IH]; intros r; cbn [page_events].
  - cbn. rewrite app_nil_r, Nat.add_0_r. reflexivity.
  - rewrite rows_shown_app. cbn [rows_shown flat_map]. rewrite app_nil_r, !app_nil_l.
    rewrite app_assoc, py_slice_app_firstn, IH. f_equal. lia.
Qed.

(** The pagination loop on "yes" answers and then another. *)
Lemma paginate_session (n : nat) (df : frame) (r : nat) (yes : list string) (a : string)
    (rest : list string) (tr : list event) :
  Forall (fun x => py_lower x = "yes") yes -> py_lower a <> "yes" -> length yes < n ->
  paginate n df r (mk_world (yes ++ a :: rest) tr) =
    (Ret tt, mk_world rest (tr ++ page_events df r (length yes) ++
                            [OutPrompt (page_prompt (r + 5 * length yes))])).
Proof.
  revert n r tr. induction yes as [| x yes IH]; intros [| n] r tr Hyes Ha Hn; cbn [Datatypes.length] in Hn; try lia.
  - cbn [app paginate]. unfold bind, input. cbn [inputs trace].
    apply String.eqb_neq in Ha. rewrite Ha. rewrite Nat.add_0_r. reflexivity.
  - inversion Hyes as [| ? ? Hx Hyes']; subst. cbn [app paginate]. unfold bind at 1, input.
    cbn [inputs trace]. rewrite Hx. cbn [String.eqb Ascii.eqb Bool.eqb andb].
    unfold bind, emit. cbn [inputs trace]. rewrite IH by (auto; lia).
    cbn [page_events Datatypes.length]. rewrite <- !app_assoc.
    replace (r + 5 + 5 * length yes) with (r + 5 * S (length yes)) by lia. reflexivity.
Qed.

(** C34: the pagination of [main] shows the rows of the frame in order,
    five by five, one page per "yes": on [k] answers that lower to "yes"
    followed by another answer, it prints [k] pages, each after its
    prompt and followed by the separator, then the prompt of the answer
    that stops it, and reads nothing more.  The rows printed are exactly
    the first [5 k] rows of the frame. *)
Theorem paginate_shows_prefix (n : nat) (df : frame) (yes : list string) (a : string)
    (rest : list string) (tr : list event) :
  Forall (fun x => py_lower x = "yes") yes -> py_lower a <> "yes" -> length yes < n ->
  paginate n df 0 (mk_world (yes ++ a :: rest) tr) =
    (Ret tt, mk_world rest (tr ++ page_events df 0 (length yes) ++
                            [OutPrompt (page_prompt (5 * length yes))])) /\
  rows_shown (page_events df 0 (length yes)) = firstn (5 * length yes) (rows df).
Proof.
  intros Hyes Ha Hn. split; [exact (paginate_session n df 0 yes a rest tr Hyes Ha Hn) |].
  exact (page_events_rows df 0 (length yes)).
Qed.

Lemma paginate_shows_prefix_witness :
  Forall (fun x => py_lower x = "yes") ["yes"; "Yes"] /\ py_lower "no" <> "yes" /\
  paginate 3 sample_frame 0 (mk_world (["yes"; "Yes"] ++ ["no"; "chicago"]) []) =
    (Ret tt, mk_world ["chicago"] ([] ++ page_events sample_frame 0 2 ++ [OutPrompt (page_prompt (5 * 2))])) /\
  rows_shown (page_events sample_frame 0 2) = firstn (5 * 2) (rows sample_frame).
Proof.
  assert (Hy : Forall (fun x => py_lower x = "yes") ["yes"; "Yes"]) by (repeat constructor).
  assert (Ha : py_lower "no" <> "yes") by discriminate.
  split; [exact Hy |]. split; [exact Ha |].
  exact (paginate_shows_prefix 3 sample_frame ["yes"; "Yes"] "no" ["chicago"] [] Hy Ha ltac:(cbn; lia)).
Defined.

(** ** [main] *)

Lemma stats_keep_inputs (df : frame) :
  keeps_inputs (time_stats df) /\ keeps_inputs (station_stats df) /\
  keeps_inputs (trip_duration_stats df) /\ keeps_inputs (user_stats df).
Proof.
  unfold time_stats, station_stats, trip_duration_stats, user_stats.
  repeat split; solve_keeps_inputs.
Qed.

Lemma paginate_fuel (n : nat) (df : frame) (r : nat) (w : world) :
  length (inputs w) < n ->
  fst (paginate n df r w) <> OutOfFuel /\
  (forall u w', paginate n df r w = (Ret u, w') -> length (inputs w') < length (inputs w)).
Proof.
  intros Hn. pose proof (paginate_run n df r w Hn) as Hr.
  destruct (paginate n df r w) as [[u | e |] w'] eqn:E; [| | contradiction]; split; try discriminate.
  - intros u' w'' [= <- <-]. destruct Hr as (yes & a & Hin & _). rewrite Hin, length_app.
    cbn [Datatypes.length]. lia.
Qed.

Lemma input_no_fuel (prompt : string) (w : world) :
  fst (input prompt w) <> OutOfFuel /\
  (forall l w', input prompt w = (Ret l, w') -> S (length (inputs w')) = length (inputs w)).
Proof.
  unfold input. cbv zeta. destruct (inputs w) as [| l ls]; split; try discriminate.
  intros l0 w' H. injection H as <- <-. reflexivity.
Qed.

(** ** Runs on given answers *)

(** An [ask] loop whose first answer passes returns it lowered. *)
Lemma ask_accept (n : nat) (prompt invalid : string) (ok : string -> bool) (a : string) (rest : list string) (tr : list event) :
  ok (py_lower a) = true ->
  ask (S n) prompt ok invalid (mk_world (a :: rest) tr) = (Ret (py_lower a), mk_world rest (tr ++ [OutPrompt prompt])).
Proof. intros Hok. cbn [ask]. unfold bind, input. cbn [inputs trace]. rewrite Hok. reflexivity. Qed.

(** [get_filters] on three answers that pass. *)
Lemma get_filters_accept (n : nat) (c m d : string) (rest : list string) (tr : list event) :
  city_valid (py_lower c) = true -> month_valid (py_lower m) = true -> day_valid (py_lower d) = true ->
  get_filters (S n) (mk_world (c :: m :: d :: rest) tr) =
    (Ret (py_lower c, py_lower m, py_lower d),
     mk_world rest (tr ++ [Out hello; OutPrompt city_prompt; OutPrompt month_prompt;
                           OutPrompt day_prompt; Out separator])).
Proof.
  intros Hc Hm Hd. unfold get_filters.
  rewrite (bind_run _ _ _ tt _ (emit_run _ _)). cbn [inputs trace].
  erewrite bind_run by (apply ask_accept; exact Hc).
  erewrite bind_run by (apply ask_accept; exact Hm).
  erewrite bind_run by (apply ask_accept; exact Hd).
  rewrite (bind_run _ _ _ tt _ (emit_run _ _)). cbn [inputs trace].
  unfold ret. rewrite <- !app_assoc. reflexivity.
Qed.

(** The pagination loop stops on an answer other than "yes". *)
Lemma paginate_decline (n : nat) (df : frame) (r : nat) (a : string) (rest : list string) (tr : list event) :
  String.eqb (py_lower a) "yes" = false ->
  paginate (S n) df r (mk_world (a :: rest) tr) = (Ret tt, mk_world rest (tr ++ [OutPrompt (page_prompt r)])).
Proof. intros Ha. cbn [paginate]. unfold bind at 1, input. cbn [inputs trace]. rewrite Ha. reflexivity. Qed.

(** [time_stats] on a frame without rows raises at its first [mode()[0]]. *)
Lemma time_stats_no_rows (df : frame) (w : world) :
  rows df = [] -> fst (time_stats df w) = Raise KeyError.
Proof.
  intros He. unfold time_stats. rewrite (bind_run _ _ _ tt _ (emit_run _ _)).
  unfold month_col. rewrite He. reflexivity.
Qed.

Section MainFacts.
Context `{FileSystem}.

(** C7: [main] terminates: with more fuel than input lines (the fuel
    [main] gives itself), [main_loop] never runs out of fuel, whatever
    the files and the answers; it ends normally or with an exception. *)
Theorem main_loop_fuel (n : nat) (w : world) :
  length (inputs w) < n -> fst (main_loop n w) <> OutOfFuel.
Proof.
  revert w. induction n as [| f IH]; intros w Hn; [lia |]. cbn [main_loop].
  pose proof (get_filters_run (S f) w Hn) as Hg.
  apply bind_no_fuel; [destruct (get_filters (S f) w) as [[] ?]; simpl; tauto || discriminate |].
  intros [[c m] d] w1 E1. rewrite E1 in Hg. destruct Hg as (_ & _ & _ & L1).
  apply bind_no_fuel; [destruct (load_data c m d); discriminate |].
  intros df w2 E2. destruct (load_data c m d); [| discriminate]. injection E2 as _ <-.
  destruct (paginate_fuel (S f) df 0 w1 ltac:(lia)) as [Hp Lp].
  apply bind_no_fuel; [exact Hp |]. intros u w3 E3. specialize (Lp u w3 E3).
  destruct (stats_keep_inputs df) as (K1 & K2 & K3 & K4).
  apply keeps_inputs_bind_no_fuel; [exact K1 |]. intros _ w4 E4.
  apply keeps_inputs_bind_no_fuel; [exact K2 |]. intros _ w5 E5.
  apply keeps_inputs_bind_no_fuel; [exact K3 |]. intros _ w6 E6.
  apply keeps_inputs_bind_no_fuel; [exact K4 |]. intros _ w7 E7.
  destruct (input_no_fuel restart_prompt w7) as [Hi Li].
  apply bind_no_fuel; [exact Hi |]. intros restart w8 E8. specialize (Li _ _ E8).
  rewrite E7, E6, E5, E4 in Li.
  destruct (String.eqb (py_lower restart) "yes").
  - apply IH. lia.
  - discriminate.
Qed.

(** C17: the empty month crashes the script: when the user gives a
    city whose file loads, an empty month (which [get_filters] accepts)
    and a valid day, [main] raises [ValueError] in [load_data] at
    [months.index('')] (line 85), before any statistic. *)
Theorem main_empty_month (city day file : string) (rest : list string) (tr : list event)
    (raw : raw_frame) (cf : frame) :
  city_valid (py_lower city) = true -> day_valid (py_lower day) = true ->
  dict_get CITY_DATA (py_lower city) = Some file -> read_csv file = Some raw ->
  convert_frame raw = Ok cf ->
  fst (main (mk_world (city :: "" :: day :: rest) tr)) = Raise ValueError.
Proof.
  intros Hc Hd Hf Hr Hv. unfold main. cbn [inputs Datatypes.length main_loop].
  erewrite bind_run by (apply get_filters_accept; first [exact Hc | exact Hd | reflexivity]).
  unfold load_data. rewrite Hf, Hr, Hv. reflexivity.
Qed.

(** C16: a filter with no trip crashes the script: when the city,
    month and day are accepted, [load_data] returns a frame without
    rows (say a month absent from the file) and the user declines the
    pagination, [main] raises [KeyError] in [time_stats] instead of
    reporting that there is no data. *)
Theorem main_no_trips (city month day answer : string) (rest : list string) (tr : list event)
    (df : frame) :
  city_valid (py_lower city) = true -> month_valid (py_lower month) = true ->
  day_valid (py_lower day) = true ->
  load_data (py_lower city) (py_lower month) (py_lower day) = Ok df -> rows df = [] ->
  String.eqb (py_lower answer) "yes" = false ->
  fst (main (mk_world (city :: month :: day :: answer :: rest) tr)) = Raise KeyError.
Proof.
  intros Hc Hm Hd Hl He Ha. unfold main. cbn [inputs Datatypes.length main_loop].
  erewrite bind_run by (apply get_filters_accept; eassumption).
  cbv beta iota zeta. rewrite Hl. rewrite (bind_run _ _ _ df _ (lift_Ok _ _)).
  erewrite bind_run by (apply paginate_decline; exact Ha).
  unfold bind at 1. rewrite (surjective_pairing (time_stats df _)), time_stats_no_rows by exact He.
  reflexivity.
Qed.

End MainFacts.

Lemma main_loop_fuel_witness :
  length (inputs (mk_world ["chicago"; "march"; "monday"; "no"; "no"] [])) < 6 /\
  fst (@main_loop sample_fs 6 (mk_world ["chicago"; "march"; "monday"; "no"; "no"] [])) <> OutOfFuel.
Proof.
  assert (Hn : length (inputs (mk_world ["chicago"; "march"; "monday"; "no"; "no"] [])) < 6)
    by (cbn; lia).
  split; [exact Hn | exact (@main_loop_fuel sample_fs 6 _ Hn)].
Defined.

Lemma main_empty_month_witness :
  fst (@main sample_fs (mk_world ["chicago"; ""; "all"] [])) = Raise ValueError.
Proof.
  apply (@main_empty_month sample_fs "chicago" "all" "chicago.csv" [] []
           (mk_raw_frame full_schema sample_rows) sample_frame); reflexivity.
Defined.

(** The sample file has no trip in December. *)
Lemma main_no_trips_witness :
  fst (@main sample_fs (mk_world ["chicago"; "december"; "all"; "no"] [])) = Raise KeyError.
Proof.
  apply (@main_no_trips sample_fs "chicago" "december" "all" "no" [] [] (filter_month 12 sample_frame));
    reflexivity.
Defined.

End Shell.
