(* ===== verification/Session.v ===== *)
(** * Session: what [main] does on a whole dialogue

    [main] (src/bikeshare_2.py, lines 214-237) runs sessions: it asks
    for the filters, loads the data, pages through it, prints the four
    statistics and asks whether to restart.  This file describes a
    session by the answers the user types ([session]), the answers the
    code accepts ([answers_ok]), and what the script prints for them
    ([session_events]).  The abstract machine [runs] chains sessions
    until an answer to the restart prompt is not "yes".  The refinement
    theorem [main_refines_runs] shows that [main] performs exactly the
    runs of this machine: on the inputs of a run it ends normally,
    having printed the run's events and read no further.

    The statistics enter through their [report]: the outcome and the
    events of the routine on the frame, which [PyIO.output_only] shows
    do not depend on the world. *)

From Stdlib Require Import String ZArith List Lia Bool.
From S2P Require Import Prelude PyString Calendar Frame PyIO Stats Shell StatsOutcome.
Import ListNotations PyString Frame PyIO Stats Shell StatsOutcome.
Local Open Scope string_scope.
Local Open Scope io_scope.
Local Open Scope nat_scope.
Local Open Scope list_scope.

Module Session.

(** ** Sessions *)

(** The answers of one session: rejected answers before each accepted
    one, the "yes" answers to the pagination prompt and the answer that
    stops it, and the answer to the restart prompt. *)
Record session := mk_session {
  bad_cities : list string;
  city : string;
  bad_months : list string;
  month : string;
  bad_days : list string;
  day : string;
  more_pages : list string;
  stop_paging : string;
  restart : string
}.

Definition session_inputs (s : session) : list string :=
  bad_cities s ++ city s :: bad_months s ++ month s :: bad_days s ++ day s ::
  more_pages s ++ stop_paging s :: [restart s].

(** The answers the loops of [get_filters] and the pagination loop take
    as [session] says. *)
Definition answers_ok (s : session) : Prop :=
  Forall (fun x => city_valid (py_lower x) = false) (bad_cities s) /\
  city_valid (py_lower (city s)) = true /\
  Forall (fun x => month_valid (py_lower x) = false) (bad_months s) /\
  month_valid (py_lower (month s)) = true /\
  Forall (fun x => day_valid (py_lower x) = false) (bad_days s) /\
  day_valid (py_lower (day s)) = true /\
  Forall (fun x => py_lower x = "yes") (more_pages s) /\
  py_lower (stop_paging s) <> "yes".

(** What [get_filters] prints. *)
Definition filter_events (s : session) : list event :=
  [Out hello] ++
  rejected_events city_prompt invalid_city (bad_cities s) ++ [OutPrompt city_prompt] ++
  rejected_events month_prompt invalid_city (bad_months s) ++ [OutPrompt month_prompt] ++
  rejected_events day_prompt invalid_day (bad_days s) ++ [OutPrompt day_prompt] ++
  [Out separator].

Definition session_events (s : session) (df : frame) : list event :=
  filter_events s ++ page_events df 0 (length (more_pages s)) ++
  [OutPrompt (page_prompt (5 * length (more_pages s)))] ++ stats_events df ++
  [OutPrompt restart_prompt].

Section Machine.
Context `{FileSystem}.

(** The frame a session's accepted answers select. *)
Definition session_frame (s : session) : result frame :=
  load_data (py_lower (city s)) (py_lower (month s)) (py_lower (day s)).

(** [runs ins rest evs]: the script, given the input lines [ins], runs
    sessions that all end normally, the last with an answer other than
    "yes" to the restart prompt, prints [evs] and leaves [rest] unread. *)
Inductive runs : list string -> list string -> list event -> Prop :=
  | runs_stop (s : session) (df : frame) (rest : list string) :
      answers_ok s -> session_frame s = Ok df -> stats_complete df ->
      py_lower (restart s) <> "yes" ->
      runs (session_inputs s ++ rest) rest (session_events s df)
  | runs_again (s : session) (df : frame) (ins rest : list string) (evs : list event) :
      answers_ok s -> session_frame s = Ok df -> stats_complete df ->
      py_lower (restart s) = "yes" ->
      runs ins rest evs ->
      runs (session_inputs s ++ ins) rest (session_events s df ++ evs).

End Machine.

(** ** The loops on a session's answers *)

(** An [ask] loop on rejected answers and then an accepted one. *)
Lemma ask_session (n : nat) (prompt invalid : string) (ok : string -> bool)
    (pre : list string) (a : string) (rest : list string) (tr : list event) :
  Forall (fun x => ok (py_lower x) = false) pre -> ok (py_lower a) = true -> length pre < n ->
  ask n prompt ok invalid (mk_world (pre ++ a :: rest) tr) =
    (Ret (py_lower a), mk_world rest (tr ++ rejected_events prompt invalid pre ++ [OutPrompt prompt])).
Proof.
  revert n tr. induction pre as [| x pre IH]; intros [| n] tr Hpre Ha Hn; cbn [Datatypes.length] in Hn; try lia.
  - cbn [app ask]. unfold bind, input. cbn [inputs trace]. rewrite Ha. reflexivity.
  - inversion Hpre as [| ? ? Hx Hpre']; subst. cbn [app ask]. unfold bind at 1, input. cbn [inputs trace].
    rewrite Hx. unfold bind, emit. cbn [inputs trace]. rewrite IH by (auto; lia).
    cbn [rejected_events flat_map]. rewrite <- !app_assoc. reflexivity.
Qed.

Lemma session_inputs_length (s : session) :
  length (session_inputs s) =
  length (bad_cities s) + length (bad_months s) + length (bad_days s) + length (more_pages s) + 5.
Proof. unfold session_inputs. do 5 (rewrite ?length_app; cbn [Datatypes.length]). lia. Qed.

Lemma session_inputs_app (s : session) (ins : list string) :
  session_inputs s ++ ins =
  bad_cities s ++ city s :: bad_months s ++ month s :: bad_days s ++ day s ::
  more_pages s ++ stop_paging s :: restart s :: ins.
Proof. unfold session_inputs. repeat first [rewrite <- app_assoc | rewrite <- app_comm_cons]. reflexivity. Qed.

(** [get_filters] on rejected and accepted answers. *)
Lemma get_filters_answers (n : nat) (bc : list string) (c : string) (bm : list string) (m : string)
    (bd : list string) (d : string) (rest : list string) (tr : list event) :
  Forall (fun x => city_valid (py_lower x) = false) bc -> city_valid (py_lower c) = true ->
  Forall (fun x => month_valid (py_lower x) = false) bm -> month_valid (py_lower m) = true ->
  Forall (fun x => day_valid (py_lower x) = false) bd -> day_valid (py_lower d) = true ->
  length bc < n -> length bm < n -> length bd < n ->
  get_filters n (mk_world (bc ++ c :: bm ++ m :: bd ++ d :: rest) tr) =
    (Ret (py_lower c, py_lower m, py_lower d),
     mk_world rest (tr ++ filter_events (mk_session bc c bm m bd d [] "" ""))).
Proof.
  intros Hbc Hc Hbm Hm Hbd Hd L1 L2 L3. unfold get_filters.
  rewrite (bind_run _ _ _ tt _ (emit_run _ _)). cbn [inputs trace].
  erewrite bind_run by (apply ask_session; assumption).
  erewrite bind_run by (apply ask_session; assumption).
  erewrite bind_run by (apply ask_session; assumption).
  rewrite (bind_run _ _ _ tt _ (emit_run _ _)). cbn [inputs trace].
  unfold ret, filter_events. cbn [bad_cities bad_months bad_days]. rewrite <- !app_assoc. reflexivity.
Qed.

(** [get_filters] on a session's answers. *)
Lemma get_filters_session (n : nat) (s : session) (ins : list string) (tr : list event) :
  answers_ok s -> length (session_inputs s) < n ->
  get_filters n (mk_world (session_inputs s ++ ins) tr) =
    (Ret (py_lower (city s), py_lower (month s), py_lower (day s)),
     mk_world (more_pages s ++ stop_paging s :: restart s :: ins) (tr ++ filter_events s)).
Proof.
  intros (Hbc & Hc & Hbm & Hm & Hbd & Hd & _) Hn. rewrite session_inputs_length in Hn.
  rewrite session_inputs_app, get_filters_answers by (assumption || lia). reflexivity.
Qed.

(** C21: a rejected month answer is answered with the city message:
    on a valid city, an answer that is not a month, and then a valid
    month and day, [get_filters] prints "Invalid city entered." after the
    month prompt (line 39) and goes on to accept the month. *)
Theorem rejected_month_city_message (n : nat) (c bad m d : string) (rest : list string) (tr : list event) :
  city_valid (py_lower c) = true -> month_valid (py_lower bad) = false ->
  month_valid (py_lower m) = true -> day_valid (py_lower d) = true -> 1 < n ->
  get_filters n (mk_world (c :: bad :: m :: d :: rest) tr) =
    (Ret (py_lower c, py_lower m, py_lower d),
     mk_world rest (tr ++ [Out hello; OutPrompt city_prompt; OutPrompt month_prompt;
                           Out "Invalid city entered.
"; OutPrompt month_prompt; OutPrompt day_prompt; Out separator])).
Proof.
  intros Hc Hb Hm Hd Hn.
  pose proof (get_filters_answers n [] c [bad] m [] d rest tr) as Hg. cbn [app Datatypes.length] in Hg.
  rewrite Hg by (repeat constructor; assumption || lia). reflexivity.
Qed.

Lemma rejected_month_city_message_witness :
  get_filters 2 (mk_world ["chicago"; "jan"; "january"; "monday"] []) =
    (Ret ("chicago", "january", "monday"),
     mk_world [] ([] ++ [Out hello; OutPrompt city_prompt; OutPrompt month_prompt;
                         Out "Invalid city entered.
"; OutPrompt month_prompt; OutPrompt day_prompt; Out separator])).
Proof. apply (rejected_month_city_message 2 "chicago" "jan" "january" "monday"); reflexivity || lia. Defined.

(** ** Every normal end of [main] is a run of the machine *)

(** What an [ask] loop that returns read and printed. *)
Lemma ask_Ret_inv (n : nat) (prompt invalid : string) (ok : string -> bool) (w w' : world) (v : string) :
  length (inputs w) < n -> ask n prompt ok invalid w = (Ret v, w') ->
  exists pre a,
    inputs w = pre ++ a :: inputs w' /\ Forall (fun x => ok (py_lower x) = false) pre /\
    ok (py_lower a) = true /\ v = py_lower a /\
    trace w' = trace w ++ rejected_events prompt invalid pre ++ [OutPrompt prompt] /\
    length (inputs w') < n.
Proof.
  intros Hn Ha. pose proof (ask_run n prompt invalid ok w Hn) as Hr. rewrite Ha in Hr.
  destruct Hr as (pre & a & Hin & Hpre & Hok & Hv & Htr). exists pre, a. repeat split; auto.
  rewrite Hin, length_app in Hn. cbn [Datatypes.length] in Hn. lia.
Qed.

(** What a [get_filters] that returns read and printed. *)
Lemma get_filters_inv (n : nat) (w w' : world) (c m d : string) :
  length (inputs w) < n -> get_filters n w = (Ret (c, m, d), w') ->
  exists s, inputs w = bad_cities s ++ city s :: bad_months s ++ month s :: bad_days s ++ day s :: inputs w' /\
    Forall (fun x => city_valid (py_lower x) = false) (bad_cities s) /\ city_valid (py_lower (city s)) = true /\
    Forall (fun x => month_valid (py_lower x) = false) (bad_months s) /\ month_valid (py_lower (month s)) = true /\
    Forall (fun x => day_valid (py_lower x) = false) (bad_days s) /\ day_valid (py_lower (day s)) = true /\
    c = py_lower (city s) /\ m = py_lower (month s) /\ d = py_lower (day s) /\
    trace w' = trace w ++ filter_events s.
Proof.
  intros Hn H. unfold get_filters in H.
  apply bind_Ret_inv in H as (u & w1 & E1 & H). rewrite emit_run in E1. injection E1 as _ <-.
  apply bind_Ret_inv in H as (c' & w2 & E2 & H).
  apply ask_Ret_inv in E2 as (bc & ca & I2 & Bc & Vc & -> & T2 & L2); [| exact Hn].
  apply bind_Ret_inv in H as (m' & w3 & E3 & H).
  apply ask_Ret_inv in E3 as (bm & ma & I3 & Bm & Vm & -> & T3 & L3); [| exact L2].
  apply bind_Ret_inv in H as (d' & w4 & E4 & H).
  apply ask_Ret_inv in E4 as (bd & da & I4 & Bd & Vd & -> & T4 & L4); [| exact L3].
  apply bind_Ret_inv in H as (u' & w5 & E5 & H). rewrite emit_run in E5. injection E5 as _ <-.
  unfold ret in H. injection H as <- <- <- <-.
  exists (mk_session bc ca bm ma bd da [] "" ""). cbn [bad_cities city bad_months month bad_days day inputs trace] in *.
  repeat split; auto.
  - rewrite I2, I3, I4. reflexivity.
  - rewrite T4, T3, T2. unfold filter_events. cbn [bad_cities bad_months bad_days]. rewrite <- !app_assoc. reflexivity.
Qed.

Section MainComplete.
Context {fs : FileSystem}.

(** One normal session of [main_loop], read backwards. *)
Lemma main_loop_step_inv (n : nat) (w w' : world) :
  length (inputs w) < S n -> main_loop (S n) w = (Ret tt, w') ->
  exists s df ls,
    answers_ok s /\ session_frame s = Ok df /\ stats_complete df /\
    inputs w = session_inputs s ++ ls /\
    if String.eqb (py_lower (restart s)) "yes"
    then main_loop n (mk_world ls (trace w ++ session_events s df)) = (Ret tt, w')
    else w' = mk_world ls (trace w ++ session_events s df).
Proof.
  intros Hn H. cbn [main_loop] in H.
  apply bind_Ret_inv in H as ([[c m] d] & w1 & Eg & H).
  destruct (get_filters_inv _ _ _ _ _ _ Hn Eg) as (s0 & I1 & Bc & Vc & Bm & Vm & Bd & Vd & -> & -> & -> & T1).
  cbv beta iota in H. apply bind_Ret_inv in H as (df & w2 & El & H).
  destruct (load_data _ _ _) as [df' |] eqn:Hl; [| discriminate]. injection El as -> <-.
  apply bind_Ret_inv in H as (u & w3 & Ep & H). destruct (stats_output_only df) as (O1 & O2 & O3 & O4).
  assert (L1 : length (inputs w1) < S n).
  { rewrite I1 in Hn. do 4 (rewrite ?length_app in Hn; cbn [Datatypes.length] in Hn). lia. }
  pose proof (paginate_run (S n) df 0 w1 L1) as Hp. rewrite Ep in Hp.
  destruct Hp as (yes & a & I3 & Hyes & Ha & T3).
  apply (bind_output_only_inv _ _ _ _ _ O1) in H as ([] & S1 & H).
  apply (bind_output_only_inv _ _ _ _ _ O2) in H as ([] & S2 & H).
  apply (bind_output_only_inv _ _ _ _ _ O3) in H as ([] & S3 & H).
  apply (bind_output_only_inv _ _ _ _ _ O4) in H as ([] & S4 & H).
  apply bind_input_inv in H as (r & ls & I4 & H). cbn [inputs trace] in I4, H.
  exists (mk_session (bad_cities s0) (city s0) (bad_months s0) (month s0) (bad_days s0) (day s0) yes a r), df, ls.
  split; [repeat split; auto |]. split; [exact Hl |]. split; [repeat split; assumption |].
  split; [rewrite session_inputs_app, I1, I3, I4; reflexivity |].
  cbn [restart]. replace (trace w ++ session_events _ df) with
    (((((trace w3 ++ snd (report (time_stats df))) ++ snd (report (station_stats df))) ++
       snd (report (trip_duration_stats df))) ++ snd (report (user_stats df))) ++ [OutPrompt restart_prompt]).
  - destruct (String.eqb (py_lower r) "yes"); [exact H | unfold ret in H; injection H as <-; reflexivity].
  - rewrite T3, T1. unfold session_events, stats_events, filter_events. cbn [more_pages bad_cities bad_months bad_days].
    rewrite <- !app_assoc. reflexivity.
Qed.

Lemma main_loop_complete (n : nat) :
  forall w w', length (inputs w) < n -> main_loop n w = (Ret tt, w') ->
  exists evs, runs (inputs w) (inputs w') evs /\ trace w' = trace w ++ evs.
Proof.
  induction n as [| n IH]; intros w w' Hn H; [lia |].
  destruct (main_loop_step_inv n w w' Hn H) as (s & df & ls & Ha & Hf & Hs & Hin & Hr).
  rewrite Hin. destruct (String.eqb (py_lower (restart s)) "yes") eqn:Er.
  - apply String.eqb_eq in Er.
    assert (Hl : length ls < n) by (rewrite Hin, length_app, session_inputs_length in Hn; lia).
    destruct (IH (mk_world ls (trace w ++ session_events s df)) w' Hl Hr) as (evs & Hruns & Htr). cbn [inputs trace] in Hruns, Htr.
    exists (session_events s df ++ evs). split; [apply runs_again; assumption |].
    rewrite Htr, app_assoc. reflexivity.
  - apply String.eqb_neq in Er. subst w'. cbn [inputs trace].
    exists (session_events s df). split; [apply runs_stop; assumption | reflexivity].
Qed.

End MainComplete.

(** ** [main] performs the runs of the machine *)

Section MainSession.
Context `{FileSystem}.

(** One session of [main_loop]: it prints the session's events, and
    then restarts on "yes" or ends. *)
Lemma main_loop_session (n : nat) (s : session) (df : frame) (ins : list string) (tr : list event) :
  answers_ok s -> session_frame s = Ok df -> stats_complete df ->
  length (session_inputs s ++ ins) < S n ->
  main_loop (S n) (mk_world (session_inputs s ++ ins) tr) =
    (if String.eqb (py_lower (restart s)) "yes" then main_loop n else ret tt)
      (mk_world ins (tr ++ session_events s df)).
Proof.
  intros Ha Hf (S1 & S2 & S3 & S4) Hn. rewrite length_app in Hn.
  destruct (stats_output_only df) as (O1 & O2 & O3 & O4).
  pose proof Ha as (_ & _ & _ & _ & _ & _ & Hyes & Hstop).
  cbn [main_loop]. erewrite bind_run by (apply get_filters_session; [exact Ha | lia]).
  cbv beta iota. unfold session_frame in Hf. rewrite Hf, (bind_run _ _ _ df _ (lift_Ok _ _)).
  rewrite session_inputs_length in Hn.
  erewrite bind_run by (apply paginate_session; [exact Hyes | exact Hstop | lia]).
  rewrite (bind_report_Ret _ _ tt _ O1 S1), (bind_report_Ret _ _ tt _ O2 S2).
  rewrite (bind_report_Ret _ _ tt _ O3 S3), (bind_report_Ret _ _ tt _ O4 S4).
  unfold bind, input. cbn [inputs trace].
  unfold session_events, stats_events. rewrite <- !app_assoc. reflexivity.
Qed.

Lemma main_loop_runs (ins rest : list string) (evs : list event) :
  runs ins rest evs ->
  forall n tr, length ins < n -> main_loop n (mk_world ins tr) = (Ret tt, mk_world rest (tr ++ evs)).
Proof.
  induction 1 as [s df rest Ha Hf Hs Hr | s df ins rest evs Ha Hf Hs Hr Hruns IH];
    intros [| n] tr Hn; try (rewrite length_app, session_inputs_length in Hn; lia).
  - rewrite (main_loop_session n s df rest tr Ha Hf Hs Hn).
    apply String.eqb_neq in Hr. rewrite Hr. reflexivity.
  - rewrite (main_loop_session n s df ins tr Ha Hf Hs Hn), Hr. cbn [String.eqb Ascii.eqb Bool.eqb andb].
    rewrite IH by (rewrite length_app, session_inputs_length in Hn; lia). rewrite app_assoc. reflexivity.
Qed.

(** [main] performs every run of the machine. *)
Lemma main_runs_sound (ins rest : list string) (evs : list event) (tr : list event) :
  runs ins rest evs -> main (mk_world ins tr) = (Ret tt, mk_world rest (tr ++ evs)).
Proof. intros Hr. unfold main. apply (main_loop_runs ins rest evs Hr). cbn [inputs]. lia. Qed.

(** C3: [main] is exactly the session machine: it ends normally,
    having printed [evs] after the earlier trace and left the lines
    [rest] unread, if and only if the input lines make a run of sessions
    that prints [evs] and leaves [rest].  A run is a chain of sessions
    whose answers the loops accept, whose file loads, whose statistics
    end normally, and whose restart answer is "yes" in all but the last
    session. *)
Theorem main_Ret_iff_runs (ins rest : list string) (tr evs : list event) :
  main (mk_world ins tr) = (Ret tt, mk_world rest (tr ++ evs)) <-> runs ins rest evs.
Proof.
  split; [| apply main_runs_sound].
  intros Hm. destruct (main_loop_complete _ _ _ (Nat.lt_succ_diag_r _) Hm) as (evs' & Hr & Ht).
  cbn [inputs trace] in Hr, Ht. apply app_inv_head in Ht. subst evs'. exact Hr.
Qed.

End MainSession.

(** A session that rejects "Boston", filters Chicago to January, shows
    one page and does not restart. *)
Definition sample_session : session :=
  mk_session ["Boston"] "Chicago" [] "January" [] "all" ["Yes"] "no" "no".

Lemma main_Ret_iff_runs_witness :
  exists df,
    @session_frame sample_fs sample_session = Ok df /\
    @runs sample_fs (session_inputs sample_session ++ ["unread"]) ["unread"]
      (session_events sample_session df) /\
    @main sample_fs (mk_world (session_inputs sample_session ++ ["unread"]) []) =
      (Ret tt, mk_world ["unread"] ([] ++ session_events sample_session df)).
Proof.
  eexists. split; [reflexivity |].
  assert (Hr : @runs sample_fs (session_inputs sample_session ++ ["unread"]) ["unread"]
                 (session_events sample_session
                    (match @session_frame sample_fs sample_session with Ok df => df | Err _ => sample_frame end))).
  { apply runs_stop.
    - repeat split; repeat constructor; discriminate.
    - reflexivity.
    - repeat split; vm_compute; reflexivity.
    - discriminate. }
  split; [exact Hr | exact (proj2 (main_Ret_iff_runs _ _ [] _) Hr)].
Defined.

End Session.
