(* ===== verification/Crash.v ===== *)
(** * Crash: how [main] raises

    [Session] characterizes the runs of [main] (src/bikeshare_2.py,
    lines 214-237) that end normally.  This file characterizes the runs
    that end with an exception other than [EOFError]: a chain of sessions
    that end normally, then a session whose accepted filters make
    [load_data] raise (line 216), or whose statistics raise
    (lines 229-232).  The relation [crashes] states this, and
    [main_Raise_iff_crashes] shows that [main] raises [e] with a given
    output and unread input if and only if the input makes such a run.
    [EOFError] is raised when the input ends inside a loop;
    [main_EOFError_input_exhausted] shows it comes from nowhere else. *)

From Stdlib Require Import String ZArith List Lia Bool.
From S2P Require Import Prelude PyString Calendar Frame Aggregate PyIO Stats StatsOutcome Shell Session.
Import ListNotations PyString Frame Aggregate PyIO Stats StatsOutcome Shell Session.
Local Open Scope string_scope.
Local Open Scope io_scope.
Local Open Scope nat_scope.
Local Open Scope list_scope.

Module Crash.

(** The four statistics calls of [main] (lines 229-232), in order. *)
Definition all_stats (df : frame) : IO unit :=
  time_stats df ;; station_stats df ;; trip_duration_stats df ;; user_stats df.

(** The filter answers of a session are the ones [get_filters] takes. *)
Definition filters_ok (s : session) : Prop :=
  Forall (fun x => city_valid (py_lower x) = false) (bad_cities s) /\
  city_valid (py_lower (city s)) = true /\
  Forall (fun x => month_valid (py_lower x) = false) (bad_months s) /\
  month_valid (py_lower (month s)) = true /\
  Forall (fun x => day_valid (py_lower x) = false) (bad_days s) /\
  day_valid (py_lower (day s)) = true.

(** The lines read up to the filters, and up to the end of the pages. *)
Definition filter_inputs (s : session) : list string :=
  bad_cities s ++ city s :: bad_months s ++ month s :: bad_days s ++ [day s].

Definition paged_inputs (s : session) : list string :=
  filter_inputs s ++ more_pages s ++ [stop_paging s].

Section Machine.
Context {fs : FileSystem}.

(** [crashes ins rest e evs]: on the input lines [ins], the script runs
    sessions that end normally and restart, then a session that raises
    [e] in [load_data] or in the statistics; it prints [evs] and leaves
    [rest] unread. *)
Inductive crashes : list string -> list string -> py_exc -> list event -> Prop :=
  | crash_load (s : session) (e : py_exc) (rest : list string) :
      filters_ok s -> session_frame s = Err e ->
      crashes (filter_inputs s ++ rest) rest e (filter_events s)
  | crash_stats (s : session) (df : frame) (e : py_exc) (rest : list string) :
      answers_ok s -> session_frame s = Ok df -> fst (report (all_stats df)) = Raise e ->
      crashes (paged_inputs s ++ rest) rest e
        (filter_events s ++ page_events df 0 (length (more_pages s)) ++
         [OutPrompt (page_prompt (5 * length (more_pages s)))] ++ snd (report (all_stats df)))
  | crash_again (s : session) (df : frame) (ins rest : list string) (e : py_exc) (evs : list event) :
      answers_ok s -> session_frame s = Ok df -> stats_complete df ->
      py_lower (restart s) = "yes" ->
      crashes ins rest e evs ->
      crashes (session_inputs s ++ ins) rest e (session_events s df ++ evs).

End Machine.

(** ** Lemmas *)

Lemma all_stats_output_only (df : frame) : output_only (all_stats df).
Proof.
  destruct (stats_output_only df) as (O1 & O2 & O3 & O4). unfold all_stats.
  repeat (apply output_only_bind; [assumption | intros _]). exact O4.
Qed.

(** The four statistics end normally together exactly when each does,
    and then print the events of each in turn. *)
Lemma all_stats_Ret (df : frame) :
  fst (report (all_stats df)) = Ret tt <-> stats_complete df.
Proof.
  destruct (stats_output_only df) as (O1 & O2 & O3 & O4). unfold stats_complete, report at 1, all_stats.
  rewrite (bind_report _ _ _ O1). destruct (fst (report (time_stats df))) as [[] | e |]; [| split; [discriminate | tauto] ..].
  rewrite (bind_report _ _ _ O2). destruct (fst (report (station_stats df))) as [[] | e |]; [| split; [discriminate | tauto] ..].
  rewrite (bind_report _ _ _ O3). destruct (fst (report (trip_duration_stats df))) as [[] | e |];
    [| split; [discriminate | tauto] ..].
  rewrite (output_only_report _ O4). cbn [fst]. tauto.
Qed.

Lemma all_stats_complete (df : frame) (w : world) :
  stats_complete df -> all_stats df w = (Ret tt, mk_world (inputs w) (trace w ++ stats_events df)).
Proof.
  destruct (stats_output_only df) as (O1 & O2 & O3 & O4). intros (S1 & S2 & S3 & S4). unfold all_stats.
  rewrite (bind_report_Ret _ _ tt _ O1 S1), (bind_report_Ret _ _ tt _ O2 S2), (bind_report_Ret _ _ tt _ O3 S3).
  rewrite (output_only_report _ O4), S4. cbn [inputs trace]. unfold stats_events. rewrite <- !app_assoc. reflexivity.
Qed.

Lemma all_stats_events (df : frame) : stats_complete df -> snd (report (all_stats df)) = stats_events df.
Proof. intros Hs. unfold report. rewrite (all_stats_complete _ _ Hs). reflexivity. Qed.

(** [main_loop] with the four statistics grouped. *)
Lemma main_loop_unfold {fs : FileSystem} (n : nat) (w : world) :
  main_loop (S n) w =
    (filters <- get_filters (S n) ;;
     let '(city, month, day) := filters in
     df <- lift (load_data city month day) ;;
     paginate (S n) df 0 ;;
     all_stats df ;;
     restart <- input restart_prompt ;;
     if String.eqb (py_lower restart) "yes" then main_loop n else ret tt) w.
Proof.
  cbn [main_loop]. apply bind_ext. intros [[c m] d] w1. apply bind_ext. intros df w2.
  apply bind_ext. intros _ w3. unfold all_stats.
  repeat (rewrite bind_assoc; apply bind_ext; intros ? ?). reflexivity.
Qed.

Lemma filter_inputs_app (s : session) (rest : list string) :
  filter_inputs s ++ rest = bad_cities s ++ city s :: bad_months s ++ month s :: bad_days s ++ day s :: rest.
Proof. unfold filter_inputs. repeat first [rewrite <- app_assoc | rewrite <- app_comm_cons]. reflexivity. Qed.

Lemma paged_inputs_app (s : session) (rest : list string) :
  paged_inputs s ++ rest =
  bad_cities s ++ city s :: bad_months s ++ month s :: bad_days s ++ day s :: more_pages s ++ stop_paging s :: rest.
Proof. unfold paged_inputs. rewrite <- app_assoc, filter_inputs_app, <- app_assoc. reflexivity. Qed.

Lemma filter_inputs_length (s : session) :
  length (filter_inputs s) = length (bad_cities s) + length (bad_months s) + length (bad_days s) + 3.
Proof. unfold filter_inputs. do 4 (rewrite ?length_app; cbn [Datatypes.length]). lia. Qed.

Lemma paged_inputs_length (s : session) :
  length (paged_inputs s) = length (bad_cities s) + length (bad_months s) + length (bad_days s) + length (more_pages s) + 4.
Proof. unfold paged_inputs, filter_inputs. do 5 (rewrite ?length_app; cbn [Datatypes.length]). lia. Qed.

(** ** [main] performs every crash of the machine *)

Section Sound.
Context {fs : FileSystem}.

Lemma main_loop_crashes (ins rest : list string) (e : py_exc) (evs : list event) :
  crashes ins rest e evs ->
  forall n tr, length ins < n -> main_loop n (mk_world ins tr) = (Raise e, mk_world rest (tr ++ evs)).
Proof.
  induction 1 as [s e rest Hf He | s df e rest Ha Hf He | s df ins rest e evs Ha Hf Hs Hr Hc IH];
    intros [| n] tr Hn; try (cbn [Datatypes.length] in Hn; lia).
  - destruct Hf as (Hbc & Hc & Hbm & Hm & Hbd & Hd).
    rewrite length_app, filter_inputs_length in Hn. rewrite main_loop_unfold, filter_inputs_app.
    erewrite bind_run by (apply get_filters_answers; (assumption || lia)).
    cbv beta iota. unfold session_frame in He. rewrite He. reflexivity.
  - pose proof Ha as (Hbc & Hc & Hbm & Hm & Hbd & Hd & Hyes & Hstop).
    rewrite length_app, paged_inputs_length in Hn.
    rewrite main_loop_unfold, paged_inputs_app.
    erewrite bind_run by (apply get_filters_answers; (assumption || lia)).
    cbv beta iota. unfold session_frame in Hf. rewrite Hf, (bind_run _ _ _ df _ (lift_Ok _ _)).
    erewrite bind_run by (apply paginate_session; (assumption || lia)).
    rewrite (bind_report _ _ _ (all_stats_output_only df)), He. cbn [inputs trace].
    unfold filter_events. rewrite <- !app_assoc. reflexivity.
  - rewrite (main_loop_session n s df ins tr Ha Hf Hs Hn), Hr. cbn [String.eqb Ascii.eqb Bool.eqb andb].
    rewrite IH by (rewrite length_app, session_inputs_length in Hn; lia). rewrite app_assoc. reflexivity.
Qed.

End Sound.

(** ** Every crash of [main] is one of the machine *)

Section Complete.
Context {fs : FileSystem}.

(** One iteration of [main_loop] that raises something other than
    [EOFError], read backwards. *)
Lemma main_loop_Raise_inv (n : nat) (w w' : world) (e : py_exc) :
  e <> EOFError -> length (inputs w) < S n -> main_loop (S n) w = (Raise e, w') ->
  (exists s, filters_ok s /\ session_frame s = Err e /\ inputs w = filter_inputs s ++ inputs w' /\
             trace w' = trace w ++ filter_events s) \/
  (exists s df, answers_ok s /\ session_frame s = Ok df /\ fst (report (all_stats df)) = Raise e /\
                inputs w = paged_inputs s ++ inputs w' /\
                trace w' = trace w ++ filter_events s ++ page_events df 0 (length (more_pages s)) ++
                           [OutPrompt (page_prompt (5 * length (more_pages s)))] ++ snd (report (all_stats df))) \/
  (exists s df ls, answers_ok s /\ session_frame s = Ok df /\ stats_complete df /\
                   py_lower (restart s) = "yes" /\ inputs w = session_inputs s ++ ls /\
                   main_loop n (mk_world ls (trace w ++ session_events s df)) = (Raise e, w')).
Proof.
  intros Hne Hn H. rewrite main_loop_unfold in H.
  apply bind_Raise_inv in H as [Hg | ([[c m] d] & w1 & Eg & H)].
  { pose proof (get_filters_run (S n) w Hn) as Hr. rewrite Hg in Hr. tauto. }
  destruct (get_filters_inv _ _ _ _ _ _ Hn Eg) as (s0 & I1 & Bc & Vc & Bm & Vm & Bd & Vd & -> & -> & -> & T1).
  cbv beta iota in H. destruct (load_data _ _ _) as [df |] eqn:Hl.
  2: { left. rewrite (bind_raise _ _ _ _ _ (lift_Err _ _)) in H. injection H as -> <-.
       exists s0. repeat split; auto. rewrite filter_inputs_app. exact I1. }
  rewrite (bind_run _ _ _ df _ (lift_Ok _ _)) in H.
  assert (L1 : length (inputs w1) < S n).
  { rewrite I1 in Hn. do 4 (rewrite ?length_app in Hn; cbn [Datatypes.length] in Hn). lia. }
  pose proof (paginate_run (S n) df 0 w1 L1) as Hp.
  apply bind_Raise_inv in H as [Ep | (u & w3 & Ep & H)]; rewrite Ep in Hp; [tauto |].
  destruct Hp as (yes & a & I3 & Hyes & Ha & T3).
  set (s1 := mk_session (bad_cities s0) (city s0) (bad_months s0) (month s0) (bad_days s0) (day s0) yes a "").
  assert (Hs1 : answers_ok s1) by (repeat split; assumption).
  rewrite (bind_report _ _ _ (all_stats_output_only df)) in H.
  destruct (fst (report (all_stats df))) as [[] | e1 |] eqn:Ea; [| | discriminate].
  - right. right. apply all_stats_Ret in Ea.
    apply bind_Raise_inv in H as [Hi | (r & w4 & Ei & H)].
    { unfold input in Hi. cbn [inputs trace] in Hi.
      destruct (inputs w3); [injection Hi as He _; congruence | discriminate]. }
    unfold input in Ei. cbn [inputs trace] in Ei. destruct (inputs w3) as [| r' ls] eqn:I4; [discriminate |].
    injection Ei as -> <-. destruct (String.eqb_spec (py_lower r) "yes") as [Hr | Hr]; [| discriminate].
    exists (mk_session (bad_cities s0) (city s0) (bad_months s0) (month s0) (bad_days s0) (day s0) yes a r), df, ls.
    split; [repeat split; assumption |]. split; [exact Hl |]. split; [exact Ea |]. split; [exact Hr |].
    split; [rewrite session_inputs_app, I1, I3; reflexivity |].
    cbn [trace] in H. change (trace (snd (all_stats df (mk_world [] [])))) with (snd (report (all_stats df))) in H.
    rewrite (all_stats_events _ Ea), T3, T1 in H. revert H. unfold session_events, filter_events. cbn [more_pages bad_cities bad_months bad_days].
    rewrite <- !app_assoc. exact (fun H => H).
  - right. left. injection H as -> <-. exists s1, df. split; [exact Hs1 |]. split; [exact Hl |].
    split; [exact Ea |]. split; [rewrite paged_inputs_app, I1, I3; reflexivity |].
    cbn [trace]. rewrite T3, T1. unfold filter_events. cbn [s1 more_pages bad_cities bad_months bad_days].
    rewrite <- !app_assoc. reflexivity.
Qed.

Lemma main_loop_crash_complete (e : py_exc) (n : nat) :
  e <> EOFError ->
  forall w w', length (inputs w) < n -> main_loop n w = (Raise e, w') ->
  exists evs, crashes (inputs w) (inputs w') e evs /\ trace w' = trace w ++ evs.
Proof.
  intros Hne. induction n as [| n IH]; intros w w' Hn H; [lia |].
  destruct (main_loop_Raise_inv n w w' e Hne Hn H)
    as [(s & Hf & He & Hin & Ht) | [(s & df & Ha & Hf & He & Hin & Ht) | (s & df & ls & Ha & Hf & Hs & Hr & Hin & Hm)]].
  - exists (filter_events s). rewrite Hin. split; [apply crash_load; assumption | exact Ht].
  - eexists. rewrite Hin. split; [apply crash_stats; eassumption | exact Ht].
  - assert (Hl : length ls < n) by (rewrite Hin, length_app, session_inputs_length in Hn; lia).
    destruct (IH (mk_world ls (trace w ++ session_events s df)) w' Hl Hm) as (evs & Hc & Ht).
    cbn [inputs trace] in Hc, Ht. exists (session_events s df ++ evs). rewrite Hin.
    split; [apply crash_again; assumption | rewrite Ht, app_assoc; reflexivity].
Qed.

(** C40: [main] raises exactly as the crash machine says: for an
    exception other than [EOFError], [main] raises [e] having printed
    [evs] after the earlier trace and left [rest] unread if and only if
    the input lines make sessions that end normally and restart, then a
    session whose accepted filters make [load_data] raise [e], or whose
    statistics raise [e] after the pages the user asked for. *)
Theorem main_Raise_iff_crashes (ins rest : list string) (tr evs : list event) (e : py_exc) :
  e <> EOFError ->
  main (mk_world ins tr) = (Raise e, mk_world rest (tr ++ evs)) <-> crashes ins rest e evs.
Proof.
  intros Hne. split.
  - intros Hm. destruct (main_loop_crash_complete e _ Hne _ _ (Nat.lt_succ_diag_r _) Hm) as (evs' & Hc & Ht).
    cbn [inputs trace] in Hc, Ht. apply app_inv_head in Ht. subst evs'. exact Hc.
  - intros Hc. unfold main. apply (main_loop_crashes ins rest e evs Hc). cbn [inputs]. lia.
Qed.

End Complete.

(** A session that asks for Chicago in December, where the sample file
    has no trip, and declines the pages. *)
Definition december_session : session :=
  mk_session [] "Chicago" [] "December" [] "all" [] "no" "".

Lemma main_Raise_iff_crashes_witness :
  exists df,
    @session_frame sample_fs december_session = Ok df /\
    fst (report (all_stats df)) = Raise KeyError /\
    KeyError <> EOFError /\
    @crashes sample_fs (paged_inputs december_session ++ ["unread"]) ["unread"] KeyError
      (filter_events december_session ++ page_events df 0 0 ++ [OutPrompt (page_prompt 0)] ++
       snd (report (all_stats df))) /\
    @main sample_fs (mk_world (paged_inputs december_session ++ ["unread"]) []) =
      (Raise KeyError, mk_world ["unread"] ([] ++ filter_events december_session ++ page_events df 0 0 ++
                                            [OutPrompt (page_prompt 0)] ++ snd (report (all_stats df)))).
Proof.
  eexists. split; [reflexivity |].
  assert (He : fst (report (all_stats (filter_month 12 sample_frame))) = Raise KeyError) by (vm_compute; reflexivity).
  assert (Hne : KeyError <> EOFError) by discriminate.
  assert (Hc : @crashes sample_fs (paged_inputs december_session ++ ["unread"]) ["unread"] KeyError
      (filter_events december_session ++ page_events (filter_month 12 sample_frame) 0 0 ++
       [OutPrompt (page_prompt 0)] ++ snd (report (all_stats (filter_month 12 sample_frame))))).
  { apply (crash_stats december_session (filter_month 12 sample_frame)).
    - repeat split; repeat constructor; discriminate.
    - reflexivity.
    - exact He. }
  split; [exact He |]. split; [exact Hne |]. split; [exact Hc |].
  exact (proj2 (main_Raise_iff_crashes _ _ [] _ KeyError Hne) Hc).
Defined.

(** ** [EOFError] comes only from the end of the input *)

(** The side conditions of [solve_eof_at_end]: the results the script
    lifts raise no [EOFError]. *)
Ltac lifted_not_eof :=
  match goal with
  | He : mode0 _ = Err ?e |- ?e <> EOFError => apply mode0_Err_KeyError in He; subst; discriminate
  | He : of_option _ ?o = Err ?e |- ?e <> EOFError => destruct o; cbn in He; congruence
  | He : load_data _ _ _ = Err ?e |- ?e <> EOFError => apply load_data_Err in He; intuition congruence
  end.

Lemma ask_eof_at_end (n : nat) (prompt : string) (ok : string -> bool) (invalid : string) :
  eof_at_end (ask n prompt ok invalid).
Proof. induction n as [| n IH]; cbn [ask]; solve_eof_at_end; exact IH. Qed.

Lemma paginate_eof_at_end (n : nat) (df : frame) (r : nat) : eof_at_end (paginate n df r).
Proof. revert r. induction n as [| n IH]; intros r; cbn [paginate]; solve_eof_at_end; apply IH. Qed.

Lemma get_filters_eof_at_end (n : nat) : eof_at_end (get_filters n).
Proof. unfold get_filters. solve_eof_at_end; apply ask_eof_at_end. Qed.

Lemma all_stats_eof_at_end (df : frame) : eof_at_end (all_stats df).
Proof.
  unfold all_stats, time_stats, station_stats, trip_duration_stats, user_stats.
  cbv zeta. solve_eof_at_end; lifted_not_eof.
Qed.

Section EOF.
Context {fs : FileSystem}.

Lemma main_loop_eof_at_end (n : nat) : eof_at_end (main_loop n).
Proof.
  induction n as [| n IH]; [apply eof_at_end_out_of_fuel |].
  intros w w' H. rewrite main_loop_unfold in H. revert w w' H.
  solve_eof_at_end_with ltac:(first [ apply get_filters_eof_at_end | apply paginate_eof_at_end
                                    | apply all_stats_eof_at_end | apply IH ]).
  lifted_not_eof.
Qed.

(** C37: [main] raises [EOFError] only by reading past the end of its
    input: whenever it raises [EOFError], every input line has been
    read, since no library call of the script raises it.  And an input
    of fewer than three lines, too short for the city, month and day,
    always ends in [EOFError]. *)
Theorem main_EOFError_input_exhausted :
  (forall w w', main w = (Raise EOFError, w') -> inputs w' = []) /\
  (forall ins tr, length ins < 3 -> exists w', main (mk_world ins tr) = (Raise EOFError, w')).
Proof.
  split; [intros w w'; apply main_loop_eof_at_end |].
  intros ins tr Hl. unfold main. cbn [inputs]. rewrite main_loop_unfold.
  pose proof (get_filters_run (S (length ins)) (mk_world ins tr) ltac:(cbn; lia)) as Hg.
  destruct (get_filters _ _) as [[[[c m] d] | e |] w1] eqn:E; [| | contradiction].
  - cbn [inputs] in Hg. lia.
  - destruct Hg as [-> _]. exists w1. apply bind_raise. exact E.
Qed.

End EOF.

Lemma main_EOFError_input_exhausted_witness :
  @main sample_fs (mk_world ["chicago"; "june"] []) =
    (Raise EOFError, mk_world [] [Out hello; OutPrompt city_prompt; OutPrompt month_prompt; OutPrompt day_prompt]) /\
  (forall w w', @main sample_fs w = (Raise EOFError, w') -> inputs w' = []).
Proof.
  split; [reflexivity |]. exact (proj1 (@main_EOFError_input_exhausted sample_fs)).
Defined.

End Crash.
